(** * The study execution engine of the CFD compute worker

    A shallow embedding of [study.js] (classes [StudyCache] and [Study]) and
    of [Alfresco.upload], together with the properties of the engine that the
    specification states.

    JavaScript strings are modelled as [string] (the bytes of their UTF-8
    encoding), a field that may be [null] or [undefined] as an [option],
    the process-wide [studies] object as a [gmap] from node references to
    the addresses of [Study] objects in a heap (the registry and a running
    pipeline share one object), the file system as a [gmap] from absolute
    paths to nodes, and a chain of promises as a computation in a monad of
    state, rejections and emitted events.  Whatever lies outside the worker
    (the repository, the child processes, the content of archives) answers
    through an oracle that sees the whole history of the exchange. *)

From Stdlib Require Import ZArith NArith Ascii String List Lia DecimalString.
From stdpp Require Import base option gmap strings list fin_maps.

Local Open Scope string_scope.
Local Open Scope list_scope.

(** ** Strings and paths *)

Module Str.

(** [String.prototype.includes], which is also what [match] amounts to
    for a regular expression that is a literal. *)
Fixpoint includes (needle hay : string) : bool :=
  String.prefix needle hay
  || match hay with
     | EmptyString => false
     | String _ rest => includes needle rest
     end.

Fixpoint drop (n : nat) (s : string) : string :=
  match n, s with
  | S k, String _ rest => drop k rest
  | _, _ => s
  end.

(** [String.prototype.endsWith]. *)
Definition endsWith (s suffix : string) : bool :=
  (String.length suffix <=? String.length s)%nat
  && String.eqb (drop (String.length s - String.length suffix) s) suffix.

(** [String.prototype.replace] with a string pattern: only the first
    occurrence is replaced.  The replacement is inserted as it is (the
    [$]-patterns of JavaScript are not interpreted; no path of the worker
    contains a dollar sign). *)
Fixpoint replace (pat rep s : string) : string :=
  if String.prefix pat s then rep ++ drop (String.length pat) s
  else match s with
       | EmptyString => EmptyString
       | String c rest => String c (replace pat rep rest)
       end.

Definition is_slash (c : ascii) : bool := Ascii.eqb c "/"%char.

Definition snoc (s : string) (c : ascii) : string := s ++ String c EmptyString.

(** Decimal rendering of a number, as string concatenation does it. *)
Definition of_Z (z : Z) : string := NilZero.string_of_int (Z.to_int z).

End Str.

Module Path.

(** [Path.basename] of Node (POSIX flavour): trailing slashes are
    dropped and the last segment is returned. *)
Fixpoint basename_scan (s seg last : string) : string :=
  match s with
  | EmptyString => if String.eqb seg EmptyString then last else seg
  | String c rest =>
      if Str.is_slash c
      then basename_scan rest EmptyString (if String.eqb seg EmptyString then last else seg)
      else basename_scan rest (Str.snoc seg c) last
  end.

Definition basename (p : string) : string := basename_scan p EmptyString EmptyString.

(** [Path.dirname] of Node (POSIX flavour): the path is cut at the last
    slash (of index at least 1) that is followed by a character other
    than a slash. *)
Fixpoint dirname_end (s : string) (i : nat) (cand cut : option nat) : option nat :=
  match s with
  | EmptyString => cut
  | String c rest =>
      if Str.is_slash c
      then dirname_end rest (S i) (Some i) cut
      else dirname_end rest (S i) cand cand
  end.

Definition dirname (p : string) : string :=
  match p with
  | EmptyString => "."
  | String c rest =>
      let hasRoot := Str.is_slash c in
      match dirname_end rest 1 None None with
      | None => if hasRoot then "/" else "."
      | Some e => if hasRoot && (e =? 1)%nat then "//" else String.substring 0 e p
      end
  end.

(** [Path.resolve(dir, name)] for an absolute, normalised [dir]: an
    absolute [name] wins, a relative one is appended.  Dot segments and
    doubled slashes are not normalised, so the model is exact for the
    names the worker builds (identifiers and file names). *)
Definition resolve (dir name : string) : string :=
  match name with
  | String c _ => if Str.is_slash c then name else dir ++ "/" ++ name
  | EmptyString => dir
  end.

(** The proper ancestors of a path, outermost first (the root excluded). *)
Fixpoint ancestors_scan (pre rest : string) : list string :=
  match rest with
  | EmptyString => []
  | String c r =>
      (if Str.is_slash c && negb (String.eqb pre EmptyString) then [pre] else [])
        ++ ancestors_scan (Str.snoc pre c) r
  end.

Definition ancestors (p : string) : list string := ancestors_scan EmptyString p.

(** [under dir p]: [p] lies strictly below the directory [dir]. *)
Definition under (dir p : string) : bool := String.prefix (dir ++ "/") p.

End Path.

(** ** Data model *)

Definition STUDY_STEP_MESHING : string := "meshing".
Definition STUDY_STEP_SIMULATION : string := "simulation".
Definition STUDY_STEP_POSTPROC : string := "postproc".

Definition BG_TASK_STATUS_TODO : string := "TODO".
Definition BG_TASK_STATUS_PENDING : string := "PENDING".
Definition BG_TASK_STATUS_RUNNING : string := "RUNNING".
Definition BG_TASK_STATUS_DONE : string := "DONE".
Definition BG_TASK_STATUS_FAILED : string := "FAILED".

(** The messages that mark a simulation as failed
    ([REGEXP_SIMULATION_ERROR], an alternation of three literals). *)
Definition REGEXP_SIMULATION_ERROR (s : string) : bool :=
  Str.includes "FOAM FATAL ERROR" s
  || Str.includes "a divergé" s
  || Str.includes "commande introuvable" s.

(** The three families of endpoints of the repository
    ([meshing/...], [simulation/...], [postproc/...]). *)
Inductive Stage := Meshing | Simulation | Postproc.

(** What a claim or an update call resolves to: [{ nodeRef, status }],
    and [runId] for a simulation. *)
Record Task := mkTask {
  task_nodeRef : string;
  task_status : string;
  task_runId : option string }.

(** The object held in [self.meshing]: the claimed task, to which the
    pipeline adds [stage], [stdout] and [stderr]; the failure handler
    replaces it by an object with the fields [status], [stderr] and
    [stdour]. *)
Record MeshingRec := mkMeshing {
  m_nodeRef : option string;
  m_status : string;
  m_stage : option string;
  m_stdout : option string;
  m_stderr : option string;
  m_stdour : option string }.

(** The object held in [self.result]. *)
Record Result := mkResult {
  r_status : string;
  r_stage : option string;
  r_stdout : option string;
  r_stderr : option string;
  r_filename : option string }.

(** The rejection value of [execute]: [{ code, signal, stdout, stderr }]. *)
Record ChildFailure := mkChildFailure {
  f_code : option Z;
  f_signal : option string;
  f_stdout : string;
  f_stderr : string }.

Record ChildProcess := mkChild { pid : option Z }.

Record Study := mkStudy {
  nodeRef : string;
  nodeId : string;
  path : string;
  sim : option Task;
  meshing : option MeshingRec;
  step : option string;
  child : option ChildProcess;
  result : option Result;
  pp : option Task }.

(** File contents: a size and the bytes. *)
Record Blob := mkBlob { blob_size : N; blob_byte : N -> ascii }.

Definition blob_slice (b : Blob) (off len : N) : Blob :=
  {| blob_size := len; blob_byte := fun i => blob_byte b (off + i)%N |}.

Inductive node := NFile (content : Blob) | NDir.

Abbreviation Disk := (gmap string node).

(** The state of the worker process and of its disk.  [studies] is the
    registry of [StudyCache]; it holds addresses of [Study] objects of
    [heap].  [logs] keeps what goes to [Logger.error]. *)
Record State := mkState {
  studies : gmap string nat;
  heap : gmap nat Study;
  disk : gmap string node;
  logs : list string }.

(** Values thrown or used to reject a promise: an [Error] (or the
    [ConfigurationError] subclass), or the plain object of a failed child. *)
Inductive ErrorClass := ClsError | ClsConfigurationError.

Inductive thrown :=
| JsError (cls : ErrorClass) (message : string)
| Failure (r : ChildFailure).

(** Modelled from the spec: [./ConfigurationError] is missing from the
    sources; section 7 has a configuration error surface "with the
    diagnostic string as stderr", which is the branch of the failure
    handlers for instances of [Error]. *)
Definition instanceofError (t : thrown) : bool :=
  match t with JsError _ _ => true | Failure _ => false end.

Inductive argval := VStr (s : string) | VNum (n : Z).

Definition argval_str (v : argval) : string :=
  match v with VStr s => s | VNum n => Str.of_Z n end.

(** An argument descriptor [{ opt, val, type, createIfMissing }]. *)
Record Arg := mkArg {
  opt : option string;
  val : option argval;
  type : option string;
  createIfMissing : bool }.

Inductive Http (A : Type) := HOk (a : A) | HErr (message : string).
Arguments HOk {A} _.
Arguments HErr {A} _.

Inductive ChildOutcome :=
| SpawnError (message : string)
| Closed (code : option Z) (signal : option string) (out err : string).

Inductive EntryType := Directory | File.

Record ZipEntry := mkEntry {
  entry_path : string;
  entry_type : EntryType;
  entry_content : Blob }.

(** What the worker exchanges with the outside, each request with the
    answer it got. *)
Inductive Event :=
| EvClaim (stage : Stage) (ref : string) (reply : Http Task)
| EvUpdate (stage : Stage) (ref : string) (status : string)
    (label out err : option string) (reply : Http Task)
| EvChildren (ref where_ : string) (reply : Http (list string))
| EvDownload (folderNodeId filename : string) (reply : Http unit)
| EvUnzip (archive : string) (entries : list ZipEntry) (failure : option string)
| EvSpawn (prgname script : string) (argv : list argval) (cwd : string)
    (pid : option Z) (outcome : ChildOutcome)
| EvKill (pgid : Z) (failure : option string)
| EvCreateDocument (studyNodeId name nodeType relativePath : string) (reply : Http string)
| EvPut (uploadId : string) (chunk : Blob) (isLastChunk : bool) (reply : Http unit).

(** An entry of the history: the event and the state in which the
    request was made. *)
Definition entry : Type := Event * State.

(** The outside world.  Every answer may depend on the whole history. *)
Record Env := mkEnv {
  env_claim : list entry -> Stage -> string -> Http Task;
  env_update : list entry -> Stage -> string -> string ->
               option string -> option string -> option string -> Http Task;
  env_children : list entry -> string -> string -> Http (list string);
  env_download : list entry -> Disk -> string -> string -> Http unit * Disk;
  env_unzip : list entry -> Disk -> string -> list ZipEntry * option string;
  env_spawn : list entry -> Disk -> string -> string -> list argval -> string ->
              option Z * ChildOutcome * Disk;
  env_kill : list entry -> Z -> option string;
  env_createDocument : list entry -> string -> string -> string -> string -> Http string;
  env_put : list entry -> string -> Blob -> bool -> Http unit }.

(** The configuration ([conf.json] and the environment variables). *)
Record Config := mkConfig {
  studiesDir : string;
  binDir : string;
  airetd_path : string;
  airetd_python : string;
  airetd_programs : gmap string string }.

(** ** Promises as a monad *)

Inductive outcome (A : Type) :=
| Resolved (a : A)
| Rejected (t : thrown)
| Crashed (message : string).
Arguments Resolved {A} _.
Arguments Rejected {A} _.
Arguments Crashed {A} _.

(** A computation reads the history, changes the state, settles, and
    emits events.  [Crashed] is an exception nobody handles (an [error]
    event of a stream without listener): no handler and no finaliser runs
    after it. *)
Definition M (A : Type) : Type := list entry -> State -> outcome A * State * list entry.

Definition ret {A} (a : A) : M A := fun _ st => (Resolved a, st, []).

Definition bind {A B} (m : M A) (k : A -> M B) : M B := fun h st =>
  match m h st with
  | (Resolved a, st1, e1) =>
      match k a (h ++ e1) st1 with (r, st2, e2) => (r, st2, e1 ++ e2) end
  | (Rejected t, st1, e1) => (Rejected t, st1, e1)
  | (Crashed msg, st1, e1) => (Crashed msg, st1, e1)
  end.

Definition throw {A} (t : thrown) : M A := fun _ st => (Rejected t, st, []).
Definition crash {A} (msg : string) : M A := fun _ st => (Crashed msg, st, []).

(** [p.catch(handler)]. *)
Definition catch {A} (m : M A) (handler : thrown -> M A) : M A := fun h st =>
  match m h st with
  | (Rejected t, st1, e1) =>
      match handler t (h ++ e1) st1 with (r, st2, e2) => (r, st2, e1 ++ e2) end
  | other => other
  end.

(** [p.finally(f)]: [f] runs on either settlement, which it leaves as it
    is unless it throws itself. *)
Definition finally {A} (m : M A) (f : M unit) : M A := fun h st =>
  match m h st with
  | (Crashed msg, st1, e1) => (Crashed msg, st1, e1)
  | (r, st1, e1) =>
      match f (h ++ e1) st1 with
      | (Resolved _, st2, e2) => (r, st2, e1 ++ e2)
      | (Rejected t, st2, e2) => (Rejected t, st2, e1 ++ e2)
      | (Crashed msg, st2, e2) => (Crashed msg, st2, e1 ++ e2)
      end
  end.

Declare Scope promise_scope.
Delimit Scope promise_scope with promise.
Notation "x <- m ;; k" := (bind m (fun x => k))
  (at level 100, m at next level, right associativity) : promise_scope.
Notation "m ;; k" := (bind m (fun _ => k))
  (at level 100, right associativity) : promise_scope.
Local Open Scope promise_scope.

Definition get_state : M State := fun _ st => (Resolved st, st, []).
Definition modify (f : State -> State) : M unit := fun _ st => (Resolved tt, f st, []).

Definition TypeError {A} (what : string) : M A :=
  throw (JsError ClsError ("TypeError: " ++ what)).

Definition set_disk (d : Disk) (st : State) : State :=
  {| studies := studies st; heap := heap st; disk := d; logs := logs st |}.
Definition set_heap (hp : gmap nat Study) (st : State) : State :=
  {| studies := studies st; heap := hp; disk := disk st; logs := logs st |}.
Definition set_studies (r : gmap string nat) (st : State) : State :=
  {| studies := r; heap := heap st; disk := disk st; logs := logs st |}.
Definition add_log (msg : string) (st : State) : State :=
  {| studies := studies st; heap := heap st; disk := disk st; logs := logs st ++ [msg] |}.

(** [Logger.error(err)]. *)
Definition Logger_error (msg : string) : M unit := modify (add_log msg).

(** ** Field updates *)

Definition set_sim (v : option Task) (s : Study) : Study :=
  mkStudy (nodeRef s) (nodeId s) (path s) v (meshing s) (step s) (child s) (result s) (pp s).
Definition set_meshing (v : option MeshingRec) (s : Study) : Study :=
  mkStudy (nodeRef s) (nodeId s) (path s) (sim s) v (step s) (child s) (result s) (pp s).
Definition set_step (v : option string) (s : Study) : Study :=
  mkStudy (nodeRef s) (nodeId s) (path s) (sim s) (meshing s) v (child s) (result s) (pp s).
Definition set_child (v : option ChildProcess) (s : Study) : Study :=
  mkStudy (nodeRef s) (nodeId s) (path s) (sim s) (meshing s) (step s) v (result s) (pp s).
Definition set_result (v : option Result) (s : Study) : Study :=
  mkStudy (nodeRef s) (nodeId s) (path s) (sim s) (meshing s) (step s) (child s) v (pp s).
Definition set_pp (v : option Task) (s : Study) : Study :=
  mkStudy (nodeRef s) (nodeId s) (path s) (sim s) (meshing s) (step s) (child s) (result s) v.

Definition set_task_status (v : string) (t : Task) : Task :=
  mkTask (task_nodeRef t) v (task_runId t).

Definition set_m_status (v : string) (m : MeshingRec) : MeshingRec :=
  mkMeshing (m_nodeRef m) v (m_stage m) (m_stdout m) (m_stderr m) (m_stdour m).
Definition set_m_stage (v : option string) (m : MeshingRec) : MeshingRec :=
  mkMeshing (m_nodeRef m) (m_status m) v (m_stdout m) (m_stderr m) (m_stdour m).
Definition set_m_output (out err : option string) (m : MeshingRec) : MeshingRec :=
  mkMeshing (m_nodeRef m) (m_status m) (m_stage m) out err (m_stdour m).

Definition set_r_status (v : string) (r : Result) : Result :=
  mkResult v (r_stage r) (r_stdout r) (r_stderr r) (r_filename r).
Definition set_r_stage (v : option string) (r : Result) : Result :=
  mkResult (r_status r) v (r_stdout r) (r_stderr r) (r_filename r).
Definition set_r_output (out err : option string) (r : Result) : Result :=
  mkResult (r_status r) (r_stage r) out err (r_filename r).
Definition set_r_filename (v : option string) (r : Result) : Result :=
  mkResult (r_status r) (r_stage r) (r_stdout r) (r_stderr r) v.

Definition newline : string := String (ascii_of_nat 10) EmptyString.

(** [a += b] on a field that may be missing. *)
Definition js_append (a : option string) (b : string) : option string :=
  Some ((match a with Some x => x | None => "undefined" end) ++ b)%string.

(** A stage label is stored only when it is truthy. *)
Definition truthy_str (o : option string) : bool :=
  match o with Some s => negb (String.eqb s EmptyString) | None => false end.

Definition thrown_message (t : thrown) : string :=
  match t with JsError _ msg => msg | Failure r => "[object Object]" end.

(** ** The errors of the HTTP client *)

(** What the handler reads of the value a request is rejected with: the
    status of [error.response] when there is a response, the flag
    [error.isAxiosError], whether [error.request] is set, and
    [error.message].  A plain [Error] has no response, no flag and no
    request. *)
Record AxiosError := mkAxiosError {
  ax_response : option Z;
  ax_isAxiosError : bool;
  ax_request : bool;
  ax_message : string }.

Definition plain_error (message : string) : AxiosError :=
  mkAxiosError None false false message.

(** The [switch ( response.status )] of the handler. *)
Definition status_message (status : Z) : string :=
  if (status =? 400)%Z then "Invalid parameter"
  else if (status =? 401)%Z then "Authentication failed"
  else if (status =? 403)%Z then "Permission denied"
  else "Unexected error (code: " ++ Str.of_Z status ++ ")".

(** [alfrescoApiErrorHandler]: the message of the [Error] it throws. *)
Definition alfrescoApiErrorHandler (error : AxiosError) : string :=
  match ax_response error with
  | Some status => status_message status
  | None =>
      if ax_isAxiosError error then ax_message error
      else if ax_request error then "No answer from server"
      else "Client internal error"
  end.

(** ** The file system of Node *)

Definition existsSync (d : Disk) (p : string) : bool :=
  match d !! p with Some _ => true | None => false end.

Definition is_file (d : Disk) (p : string) : bool :=
  match d !! p with Some (NFile _) => true | _ => false end.

Definition is_dir (d : Disk) (p : string) : bool :=
  match d !! p with Some NDir => true | _ => false end.

Definition mkdir_missing (q : string) (d : Disk) : Disk :=
  match d !! q with Some _ => d | None => <[q := NDir]> d end.

(** [Fs.mkdirSync(p, { recursive: true })]: the missing ancestors and
    the directory are created; a file in the way is an error. *)
Definition mkdirSync (p : string) : M unit := fun _ st =>
  let chain := Path.ancestors p ++ [p] in
  if existsb (is_file (disk st)) chain
  then (Rejected (JsError ClsError ("EEXIST: file already exists, mkdir '" ++ p ++ "'")), st, [])
  else (Resolved tt, set_disk (foldr mkdir_missing (disk st) chain) st, []).

(** [Fs.statSync(p)]: fails when nothing is there. *)
Definition statSync (p : string) : M node := fun _ st =>
  match disk st !! p with
  | Some n => (Resolved n, st, [])
  | None => (Rejected (JsError ClsError ("ENOENT: no such file or directory, stat '" ++ p ++ "'")), st, [])
  end.

(** [Fs.unlinkSync(p)]: removes a file, and fails on anything else. *)
Definition unlinkSync (p : string) : M unit := fun _ st =>
  match disk st !! p with
  | Some (NFile _) => (Resolved tt, set_disk (delete p (disk st)) st, [])
  | Some NDir => (Rejected (JsError ClsError ("EISDIR: illegal operation on a directory, unlink '" ++ p ++ "'")), st, [])
  | None => (Rejected (JsError ClsError ("ENOENT: no such file or directory, unlink '" ++ p ++ "'")), st, [])
  end.

(** A path a write stream can be opened on: it names no directory and
    its parent is a directory. *)
Definition writable (d : Disk) (p : string) : bool :=
  negb (Str.endsWith p "/" || Str.endsWith p "/." || Str.endsWith p "/..")
  && negb (is_dir d p)
  && is_dir d (Path.dirname p).

(** [source.pipe(Fs.createWriteStream(p))]: the file is created or
    replaced.  A stream that cannot be opened emits [error], which no
    listener handles. *)
Definition pipe_to_file (p : string) (content : Blob) : M unit := fun _ st =>
  if writable (disk st) p
  then (Resolved tt, set_disk (<[p := NFile content]> (disk st)) st, [])
  else (Crashed ("Unhandled 'error' event: open '" ++ p ++ "'"), st, []).

(** What [rm -rf p] leaves of a disk. *)
Definition rm_rf (p : string) (d : Disk) : Disk :=
  filter (fun kv => kv.1 <> p /\ Path.under p kv.1 = false) d.

(** The directory [p] exists and holds nothing. *)
Definition empty_dir (d : Disk) (p : string) : Prop :=
  d !! p = Some NDir /\ forall q, Path.under p q = true -> d !! q = None.

(** ** The engine *)

Section Engine.

Variable cfg : Config.
Variable env : Env.

(** *** Objects *)

(** [this]: the [Study] object at an address. *)
Definition deref (self : nat) : M Study := fun _ st =>
  match heap st !! self with
  | Some s => (Resolved s, st, [])
  | None => (Rejected (JsError ClsError "TypeError: not an object"), st, [])
  end.

Definition update_self (self : nat) (f : Study -> Study) : M unit :=
  s <- deref self ;;
  modify (fun st => set_heap (<[self := f s]> (heap st)) st).

(** Assignments through [self.meshing], [self.result] and [self.sim]:
    a [TypeError] when the field holds no object. *)
Definition update_meshing (self : nat) (f : MeshingRec -> MeshingRec) : M unit :=
  s <- deref self ;;
  match meshing s with
  | Some m => update_self self (set_meshing (Some (f m)))
  | None => TypeError "Cannot set properties of null"
  end.

Definition update_result (self : nat) (f : Result -> Result) : M unit :=
  s <- deref self ;;
  match result s with
  | Some r => update_self self (set_result (Some (f r)))
  | None => TypeError "Cannot set properties of undefined"
  end.

Definition update_sim (self : nat) (f : Task -> Task) : M unit :=
  s <- deref self ;;
  match sim s with
  | Some t => update_self self (set_sim (Some (f t)))
  | None => TypeError "Cannot set properties of null"
  end.

(** *** StudyCache *)

Definition StudyCache_register (self : nat) : M unit :=
  s <- deref self ;;
  modify (fun st => set_studies (<[nodeRef s := self]> (studies st)) st).

Definition StudyCache_unregister (self : nat) : M unit :=
  s <- deref self ;;
  modify (fun st => set_studies (delete (nodeRef s) (studies st)) st).

Definition StudyCache_exists (self : nat) : M bool :=
  s <- deref self ;;
  st <- get_state ;;
  ret (match studies st !! nodeRef s with Some _ => true | None => false end).

Definition StudyCache_get (ref : string) : M (option Study) :=
  st <- get_state ;;
  match studies st !! ref with
  | Some a => s <- deref a ;; ret (Some s)
  | None => ret None
  end.

(** *** The repository client (Arendel) *)

Definition claimTask (stage : Stage) (ref : string) : M Task := fun h st =>
  let reply := env_claim env h stage ref in
  (match reply with
   | HOk t => Resolved t
   | HErr msg => Rejected (JsError ClsError msg)
   end, st, [(EvClaim stage ref reply, st)]).

Definition claimMeshingTask := claimTask Meshing.
Definition claimSimulationTask := claimTask Simulation.
Definition claimPostprocTask := claimTask Postproc.

Definition taskUpdate (stage : Stage) (ref status : string)
    (label out err : option string) : M Task := fun h st =>
  let reply := env_update env h stage ref status label out err in
  (match reply with
   | HOk t => Resolved t
   | HErr msg => Rejected (JsError ClsError msg)
   end, st, [(EvUpdate stage ref status label out err reply, st)]).

Definition meshingTaskUpdate := taskUpdate Meshing.
Definition simulationTaskUpdate := taskUpdate Simulation.
Definition postprocTaskUpdate := taskUpdate Postproc.

(** [getChildren(nodeRef, where)] followed by the choice of the first
    entry, as [getInputFolder] and [getPostprocInputFolder] do it. *)
Definition getFolder (ref where_ notFound : string) : M string := fun h st =>
  let reply := env_children env h ref where_ in
  (match reply with
   | HOk (id :: _) => Resolved id
   | HOk [] => Rejected (JsError ClsError notFound)
   | HErr msg => Rejected (JsError ClsError msg)
   end, st, [(EvChildren ref where_ reply, st)]).

Definition getInputFolder (ref : string) : M string :=
  getFolder ref "(nodeType='cfd:inputs')" "Input folder not found".

Definition getPostprocInputFolder (ref : string) : M string :=
  getFolder ref "(nodeType='cfd:postproc_inputs')" "Postproc input folder not found".

(** [arendel.download(nodeId, filename).promise]: the session, the
    polling and the streaming to [filename] are one exchange here. *)
Definition download (self : nat) (folderNodeId filename : string) : M unit := fun h st =>
  let '(reply, d) := env_download env h (disk st) folderNodeId filename in
  (match reply with
   | HOk _ => Resolved tt
   | HErr msg => Rejected (JsError ClsError msg)
   end, set_disk d st, [(EvDownload folderNodeId filename reply, st)]).

(** *** Study *)

(** The capture of [/SpacesStore\/(.+)$/]: what follows the leftmost
    [SpacesStore/] that is followed by one character at least and by no
    line terminator up to the end. *)
Definition line_terminators : list string :=
  [String (ascii_of_nat 10) EmptyString; String (ascii_of_nat 13) EmptyString;
   String (ascii_of_nat 226) (String (ascii_of_nat 128) (String (ascii_of_nat 168) EmptyString));
   String (ascii_of_nat 226) (String (ascii_of_nat 128) (String (ascii_of_nat 169) EmptyString))].

Definition dot_plus (s : string) : bool :=
  negb (String.eqb s EmptyString) && negb (existsb (fun t => Str.includes t s) line_terminators).

Fixpoint match_SpacesStore (s : string) : option string :=
  if String.prefix "SpacesStore/" s && dot_plus (Str.drop 12 s)
  then Some (Str.drop 12 s)
  else match s with
       | EmptyString => None
       | String _ rest => match_SpacesStore rest
       end.

(** [new Study(nodeRef)].  Without a match [nodeId] is [undefined] and
    [Path.resolve] throws. *)
Definition new_Study (ref : string) : M nat := fun _ st =>
  match match_SpacesStore ref with
  | None => (Rejected (JsError ClsError
               "TypeError: The path argument must be of type string"), st, [])
  | Some id =>
      let a := fresh (dom (heap st)) in
      let s := mkStudy ref id (Path.resolve (studiesDir cfg) id)
                 None None None None None None in
      (Resolved a, set_heap (<[a := s]> (heap st)) st, [])
  end.

Definition setup (self : nat) : M unit :=
  s <- deref self ;;
  st <- get_state ;;
  if existsSync (disk st) (path s) then ret tt else mkdirSync (path s).

Definition interpolatePath (scriptDir studyDir p : string) : string :=
  Str.replace "{studyDir}" studyDir (Str.replace "{scriptDir}" scriptDir p).

Definition interpolate_val (scriptDir studyDir : string) (v : argval) : argval :=
  match v with
  | VStr p => VStr (interpolatePath scriptDir studyDir p)
  | VNum n => VNum n
  end.

(** The file system functions applied to an argument value: a number is
    no path ([existsSync] answers [false], the others throw). *)
Definition exists_val (d : Disk) (v : argval) : bool :=
  match v with VStr p => existsSync d p | VNum _ => false end.

Definition mkdir_val (v : argval) : M unit :=
  match v with
  | VStr p => mkdirSync p
  | VNum _ => TypeError "The path argument must be of type string"
  end.

Definition stat_val (v : argval) : M node :=
  match v with
  | VStr p => statSync p
  | VNum _ => TypeError "The path argument must be of type string"
  end.

Definition ConfigurationError {A} (msg : string) : M A :=
  throw (JsError ClsConfigurationError msg).

Definition is_dir_type (t : option string) : bool :=
  match t with Some t => String.eqb t "d" || String.eqb t "dir" | None => false end.

Definition is_file_type (t : option string) : bool :=
  match t with Some t => String.eqb t "f" || String.eqb t "file" | None => false end.

(** The [switch (a.type)] of [execute], on the interpolated value. *)
Definition validate (a : Arg) (v : argval) : M unit :=
  if is_dir_type (type a) then
    st <- get_state ;;
    (if exists_val (disk st) v then ret tt
     else if createIfMissing a then
       mkdir_val v ;;
       st' <- get_state ;;
       if exists_val (disk st') v then ret tt
       else ConfigurationError ("failed to create directory " ++ argval_str v)
     else ConfigurationError (argval_str v ++ " not found")) ;;
    n <- stat_val v ;;
    match n with
    | NDir => ret tt
    | NFile _ => ConfigurationError (argval_str v ++ " is not a directory")
    end
  else if is_file_type (type a) then
    st <- get_state ;;
    (if exists_val (disk st) v then ret tt
     else ConfigurationError (argval_str v ++ " not found")) ;;
    n <- stat_val v ;;
    match n with
    | NFile _ => ret tt
    | NDir => ConfigurationError (argval_str v ++ " is not a file")
    end
  else ret tt.

(** The body of [args.forEach]: the tokens of one descriptor are pushed
    and its value is checked. *)
Definition push_arg (scriptDir studyDir : string) (_args : list argval) (a : Arg)
  : M (list argval) :=
  let _args := match opt a with Some o => _args ++ [VStr o] | None => _args end in
  match val a with
  | Some v =>
      let v := interpolate_val scriptDir studyDir v in
      validate a v ;;
      ret (_args ++ [v])
  | None => ret _args
  end.

Fixpoint forEach_args (scriptDir studyDir : string) (_args : list argval) (args : list Arg)
  : M (list argval) :=
  match args with
  | [] => ret _args
  | a :: rest =>
      _args' <- push_arg scriptDir studyDir _args a ;;
      forEach_args scriptDir studyDir _args' rest
  end.

Definition truthy_code (c : option Z) : bool :=
  match c with Some z => negb (z =? 0)%Z | None => false end.

(** What the promise of [execute] settles to when the child is gone:
    the [error] listener rejects with the code [-127], the [close]
    listener rejects on a code or a signal and resolves otherwise. *)
Definition child_settlement (o : ChildOutcome) : outcome (string * string) :=
  match o with
  | SpawnError msg => Rejected (Failure (mkChildFailure (Some (-127)%Z) None EmptyString msg))
  | Closed code signal out err =>
      if truthy_code code || truthy_str signal then
        let err1 := if truthy_code code
                    then (err ++ newline ++ "Terminated with status code: "
                              ++ Str.of_Z (default 0%Z code) ++ newline)%string
                    else err in
        let err2 := if truthy_str signal
                    then (err1 ++ newline ++ "Terminated by signal: "
                               ++ default EmptyString signal ++ newline)%string
                    else err1 in
        Rejected (Failure (mkChildFailure code signal out err2))
      else Resolved (out, err)
  end.

(** [spawn(script, _args, options)] up to the [close] or [error] event
    of the child: [self.child] is set, and the child does to the disk
    what it does. *)
Definition spawn_child (self : nat) (prgname script : string) (_args : list argval)
    (cwd : string) : M (string * string) := fun h st =>
  let r := env_spawn env h (disk st) prgname script _args cwd in
  let st' := match heap st !! self with
             | Some s => set_heap (<[self := set_child (Some (mkChild r.1.1)) s]> (heap st)) st
             | None => st
             end in
  (child_settlement r.1.2, set_disk r.2 st', [(EvSpawn prgname script _args cwd r.1.1 r.1.2, st)]).

(** [cfg.programs[prgname]] is used when it is truthy. *)
Definition program_entry (prgname : string) : option string :=
  match airetd_programs cfg !! prgname with
  | Some rel => if String.eqb rel EmptyString then None else Some rel
  | None => None
  end.

(** The executable of a program and the directory [{scriptDir}] stands
    for, before the substitution of the interpreter. *)
Definition program_script (prgname : string) : string :=
  match program_entry prgname with
  | Some rel => Path.resolve (airetd_path cfg) rel
  | None => prgname
  end.

Definition program_scriptDir (prgname : string) : string :=
  match program_entry prgname with
  | Some _ => Path.dirname (program_script prgname)
  | None => studiesDir cfg
  end.

Definition execute (self : nat) (prgname : string) (args : list Arg)
    (workDir : option string) : M (string * string) :=
  s <- deref self ;;
  st <- get_state ;;
  (if bool_decide (is_Some (program_entry prgname))
      && negb (existsSync (disk st) (program_script prgname))
   then ConfigurationError ("wrong configuration of program " ++ prgname
                              ++ ": script " ++ program_script prgname ++ " not found")
   else ret tt) ;;
  let script := program_script prgname in
  let scriptDir := program_scriptDir prgname in
  let studyDir := path s in
  let '(script, _args) :=
    if Str.endsWith script ".py" then (airetd_python cfg, [VStr script])
    else (script, []) in
  _args <- forEach_args scriptDir studyDir _args args ;;
  let cwd := interpolatePath scriptDir studyDir
               (match workDir with
                | Some w => if String.eqb w EmptyString then path s else w
                | None => path s
                end) in
  spawn_child self prgname script _args cwd.

Definition arg_opt (o : string) : Arg := mkArg (Some o) None None false.
Definition arg_val (v : string) : Arg := mkArg None (Some (VStr v)) None false.

Definition cleanup (self : nat) : M unit :=
  s <- deref self ;;
  st <- get_state ;;
  if String.eqb (path s) EmptyString || negb (existsSync (disk st) (path s)) then ret tt
  else
    execute self "rm" [arg_opt "-rf"; arg_val (path s)] (Some (studiesDir cfg)) ;;
    ret tt.

(** [Fs.createReadStream(archive).pipe(Unzipper.Parse())]: the entries
    the parser delivers, and the error it may end with.  A read stream
    that cannot be opened emits [error], which no listener handles. *)
Definition unzip (archive : string) : M (list ZipEntry * option string) := fun h st =>
  if is_file (disk st) archive
  then
    let r := env_unzip env h (disk st) archive in
    (Resolved r, st, [(EvUnzip archive (fst r) (snd r), st)])
  else (Crashed ("Unhandled 'error' event: open '" ++ archive ++ "'"), st, []).

(** The listener of [entry]. *)
Definition on_entry (self : nat) (e : ZipEntry) : M unit :=
  s <- deref self ;;
  match entry_type e with
  | File =>
      let filename := Path.basename (entry_path e) in
      pipe_to_file (path s ++ "/" ++ filename) (entry_content e)
  | Directory => ret tt
  end.

Fixpoint on_entries (self : nat) (es : list ZipEntry) : M unit :=
  match es with
  | [] => ret tt
  | e :: rest => on_entry self e ;; on_entries self rest
  end.

Definition extract (self : nat) (archive : string) : M unit :=
  r <- unzip archive ;;
  on_entries self (fst r) ;;
  match snd r with
  | Some msg =>
      Logger_error msg ;;
      throw (JsError ClsError ("Extraction failed, reason: " ++ msg))
  | None => ret tt
  end.

Definition archive_name (s : Study) (stage : string) : string :=
  Path.resolve (studiesDir cfg) (nodeId s ++ "-" ++ stage ++ ".7z").

Definition compress (self : nat) (stage : string) (list_ : option (list Arg)) : M string :=
  s <- deref self ;;
  let filename := archive_name s stage in
  st <- get_state ;;
  (if existsSync (disk st) filename then unlinkSync filename else ret tt) ;;
  let args := [arg_opt "a"; arg_opt "-r"; arg_val filename]
              ++ match list_ with
                 | Some l => l
                 | None => [mkArg None (Some (VStr "{studyDir}")) (Some "d") false]
                 end in
  execute self "7z" args (Some (studiesDir cfg)) ;;
  ret filename.

Definition uncompress (self : nat) (stage : string) : M unit :=
  s <- deref self ;;
  let filename := archive_name s stage in
  execute self "7z" [arg_opt "x"; arg_val filename] (Some (studiesDir cfg)) ;;
  ret tt.

(** [process.kill(-s.child.pid)]. *)
Definition kill_group (s : Study) : M unit :=
  match child s with
  | Some c =>
      match pid c with
      | Some p => fun h st =>
          let failure := env_kill env h (- p)%Z in
          (match failure with
           | Some msg => Rejected (JsError ClsError msg)
           | None => Resolved tt
           end, st, [(EvKill (- p)%Z failure, st)])
      | None => TypeError "The pid argument must be of type number"
      end
  | None => TypeError "Cannot read properties of null (reading 'pid')"
  end.

(** *** Meshing *)

(** [updateMeshingTask(m, stage, stdout, stderr)]; every caller passes
    [this.meshing] for [m]. *)
Definition updateMeshingTask (self : nat) (stage stdout stderr : option string) : M Task :=
  (if truthy_str stage then update_meshing self (set_m_stage stage) else ret tt) ;;
  s <- deref self ;;
  match meshing s with
  | Some m => meshingTaskUpdate (nodeRef s) (m_status m) (m_stage m) stdout stderr
  | None => TypeError "Cannot read properties of null (reading 'status')"
  end.

Definition preproc_args : list Arg :=
  [mkArg (Some "-p_working") (Some (VStr "{studyDir}")) (Some "d") false;
   mkArg (Some "-p_config") (Some (VStr "{scriptDir}/computationDict")) (Some "f") false;
   mkArg (Some "-np_mesh") (Some (VNum 20)) None false;
   mkArg (Some "-snappy_enable") (Some (VStr "false")) None false].

Definition meshing_steps (self : nat) : M unit :=
  s <- deref self ;;
  let archive := Path.resolve (studiesDir cfg) (nodeId s ++ ".zip") in
  m <- claimMeshingTask (nodeRef s) ;;
  update_self self (set_meshing
    (Some (mkMeshing (Some (task_nodeRef m)) (task_status m) None None None None))) ;;
  (if String.eqb (task_status m) BG_TASK_STATUS_RUNNING then ret tt
   else throw (JsError ClsError ("Invalid meshing status: " ++ task_status m))) ;;
  update_self self (set_step (Some STUDY_STEP_MESHING)) ;;
  StudyCache_register self ;;
  cleanup self ;;
  setup self ;;
  updateMeshingTask self (Some "download input folder") None None ;;
  folder <- getInputFolder (nodeRef s) ;;
  download self folder archive ;;
  updateMeshingTask self (Some "extraction") None None ;;
  extract self archive ;;
  updateMeshingTask self (Some "meshing") None None ;;
  r <- execute self "preproc" preproc_args None ;;
  update_meshing self (set_m_output (Some (fst r)) (Some (snd r))) ;;
  updateMeshingTask self (Some "compress") None None ;;
  compress self STUDY_STEP_MESHING None ;;
  update_meshing self (fun m => set_m_stage (Some "done") (set_m_status BG_TASK_STATUS_DONE m)).

Definition meshing_failure (self : nat) (errOrResult : thrown) : M unit :=
  match errOrResult with
  | JsError _ message =>
      update_self self (set_meshing
        (Some (mkMeshing None BG_TASK_STATUS_FAILED None None (Some message) (Some EmptyString))))
  | Failure r =>
      update_meshing self (fun m =>
        set_m_status BG_TASK_STATUS_FAILED (set_m_output (Some (f_stdout r)) (Some (f_stderr r)) m))
  end.

Definition meshing_finally (self : nat) : M unit :=
  StudyCache_unregister self ;;
  s <- deref self ;;
  match meshing s with
  | Some m0 =>
      catch
        (m <- updateMeshingTask self None (m_stdout m0) (m_stderr m0) ;;
         s' <- deref self ;;
         if String.eqb (task_status m) (default EmptyString (m_status <$> meshing s')) then ret tt
         else throw (JsError ClsError ("Invalid meshing status: " ++ task_status m)))
        (fun err => Logger_error (thrown_message err))
  | None => ret tt
  end.

Definition already_processing : thrown :=
  JsError ClsError "Study already under processing".

Definition startMeshing (self : nat) : M unit :=
  busy <- StudyCache_exists self ;;
  if busy then throw already_processing
  else finally (catch (meshing_steps self) (meshing_failure self)) (meshing_finally self).

Definition abortMeshing (self : nat) : M (option Task) :=
  this <- deref self ;;
  s <- StudyCache_get (nodeRef this) ;;
  match s with
  | None =>
      t <- meshingTaskUpdate (nodeRef this) BG_TASK_STATUS_FAILED None None None ;;
      ret (Some t)
  | Some s =>
      if negb (bool_decide (step s = Some STUDY_STEP_MESHING))
      then throw (JsError ClsError "Study is not running the meshing step")
      else kill_group s ;; ret None
  end.

(** *** Simulation *)

(** [updateSimulationTask(sim, res, stage)]; every caller passes
    [self.sim] and [self.result]. *)
Definition updateSimulationTask (self : nat) (stage : option string) : M Task :=
  (if truthy_str stage then update_result self (set_r_stage stage) else ret tt) ;;
  s <- deref self ;;
  match sim s, result s with
  | Some t, Some r =>
      simulationTaskUpdate (task_nodeRef t) (r_status r) (r_stage r) (r_stdout r) (r_stderr r)
  | _, _ => TypeError "Cannot read properties of null"
  end.

Definition simulation_args (s : Study) : list Arg :=
  [mkArg (Some "-p") (Some (VStr "{studyDir}")) (Some "d") false;
   mkArg (Some "-e") (Some (VStr (nodeId s))) None false;
   mkArg (Some "-n") (Some (VNum 30)) None false;
   mkArg (Some "-s") (Some (VStr "1.5")) None false].

Definition simulation_steps (self : nat) (simNodeRef : string) : M unit :=
  t <- claimSimulationTask simNodeRef ;;
  (if String.eqb (task_status t) BG_TASK_STATUS_RUNNING then ret tt
   else throw (JsError ClsError ("Invalid simulation status: " ++ task_status t))) ;;
  update_self self (set_sim (Some t)) ;;
  update_self self (set_step (Some STUDY_STEP_SIMULATION)) ;;
  StudyCache_register self ;;
  cleanup self ;;
  updateSimulationTask self (Some "uncompress") ;;
  uncompress self STUDY_STEP_MESHING ;;
  updateSimulationTask self (Some "simulation") ;;
  s <- deref self ;;
  r <- execute self "simulation" (simulation_args s) None ;;
  update_self self (set_result
    (Some (mkResult BG_TASK_STATUS_RUNNING None (Some (fst r)) (Some (snd r)) None))) ;;
  update_sim self (set_task_status
    (if REGEXP_SIMULATION_ERROR (snd r) || REGEXP_SIMULATION_ERROR (fst r)
     then BG_TASK_STATUS_FAILED else BG_TASK_STATUS_DONE)) ;;
  updateSimulationTask self (Some "compressing") ;;
  compress self STUDY_STEP_SIMULATION None ;;
  ret tt.

Definition simulation_failure (self : nat) (errOrResult : thrown) : M unit :=
  update_result self (set_r_status BG_TASK_STATUS_FAILED) ;;
  match errOrResult with
  | JsError _ message =>
      update_result self (fun r =>
        set_r_output (r_stdout r) (js_append (r_stderr r) (newline ++ message)) r)
  | Failure f =>
      update_result self (fun r =>
        set_r_output (js_append (r_stdout r) (newline ++ f_stdout f))
                     (js_append (r_stderr r) (newline ++ f_stderr f)) r)
  end.

Definition simulation_finally (self : nat) : M unit :=
  StudyCache_unregister self ;;
  s <- deref self ;;
  match sim s with
  | Some t =>
      match result s with
      | None => TypeError "Cannot read properties of undefined (reading 'status')"
      | Some r =>
          (if String.eqb (r_status r) BG_TASK_STATUS_RUNNING
           then update_result self (set_r_status
                  (if negb (String.eqb (task_status t) BG_TASK_STATUS_RUNNING)
                   then task_status t else BG_TASK_STATUS_FAILED))
           else ret tt) ;;
          catch
            (u <- updateSimulationTask self None ;;
             s' <- deref self ;;
             if String.eqb (task_status u) (default EmptyString (r_status <$> result s'))
             then ret tt
             else throw (JsError ClsError ("Invalid simulation status: " ++ task_status u)))
            (fun err => Logger_error (thrown_message err))
      end
  | None => ret tt
  end.

Definition startSimulation (self : nat) (simNodeRef : string) : M unit :=
  busy <- StudyCache_exists self ;;
  if busy then throw already_processing
  else
    update_self self (set_result
      (Some (mkResult BG_TASK_STATUS_RUNNING None (Some EmptyString) (Some EmptyString) None))) ;;
    finally (catch (simulation_steps self simNodeRef) (simulation_failure self))
            (simulation_finally self).

Definition user_aborted : option string := Some "user aborted".

Definition abortSimulation (self : nat) (simNodeRef : string) : M (option Task) :=
  this <- deref self ;;
  s <- StudyCache_get (nodeRef this) ;;
  match s with
  | None =>
      t <- simulationTaskUpdate simNodeRef BG_TASK_STATUS_FAILED None (Some EmptyString)
             user_aborted ;;
      ret (Some t)
  | Some s =>
      if negb (bool_decide (step s = Some STUDY_STEP_SIMULATION))
      then throw (JsError ClsError "Study is not running the simulation step")
      else
        match sim s with
        | None => TypeError "Cannot read properties of null (reading 'nodeRef')"
        | Some t =>
            if negb (String.eqb (task_nodeRef t) simNodeRef)
            then
              t <- simulationTaskUpdate simNodeRef BG_TASK_STATUS_FAILED None
                     (Some EmptyString) user_aborted ;;
              ret (Some t)
            else kill_group s ;; ret None
        end
  end.


(** *** Alfresco.upload *)

Definition CHUNK_SIZE : N := 8 * 1024 * 1024.

Definition or_default (o : option string) (d : string) : string :=
  match o with Some s => if String.eqb s EmptyString then d else s | None => d end.

(** [createDocument(studyNodeId, { name, relativePath, type })]; the
    message of a failure is the one its [.catch( alfrescoApiErrorHandler )]
    makes of the error of the request. *)
Definition createDocument (studyNodeId : string) (name relativePath type_ : option string)
  : M string := fun h st =>
  let name' := or_default name "results.7z" in
  let nodeType := or_default type_ "cm:content" in
  let relativePath' := or_default relativePath "cfd_simulations_data_root" in
  let reply := env_createDocument env h studyNodeId name' nodeType relativePath' in
  (match reply with
   | HOk id => Resolved id
   | HErr msg => Rejected (JsError ClsError msg)
   end, st, [(EvCreateDocument studyNodeId name' nodeType relativePath' reply, st)]).

Definition put_chunk (uploadId : string) (chunk : Blob) (isLastChunk : bool) : M unit :=
  fun h st =>
  let reply := env_put env h uploadId chunk isLastChunk in
  (match reply with
   | HOk _ => Resolved tt
   | HErr msg => Rejected (JsError ClsError msg)
   end, st, [(EvPut uploadId chunk isLastChunk reply, st)]).

(** [uploadChunk(fd)]: [pos] is the position of the file descriptor and
    [counter] the variable of the closure.  The recursion of the source
    is bounded by [fuel]; [upload] gives it enough. *)
Fixpoint uploadChunk (fuel : nat) (file : Blob) (numChunks : N) (uploadId : string)
    (pos counter : N) : M unit :=
  match fuel with
  | O => TypeError "out of fuel"
  | S fuel' =>
      let bytesRead := N.min CHUNK_SIZE (blob_size file - pos) in
      let chunk := blob_slice file pos bytesRead in
      let isLastChunk := (numChunks <=? counter)%N in
      put_chunk uploadId chunk isLastChunk ;;
      if isLastChunk then ret tt
      else uploadChunk fuel' file numChunks uploadId (pos + bytesRead)%N (counter + 1)%N
  end.

Definition numChunks_of (fileSize : N) : N :=
  (fileSize / CHUNK_SIZE + (if negb (fileSize mod CHUNK_SIZE =? 0) then 1 else 0))%N.

(** [p.catch( alfrescoApiErrorHandler )] where [p] rejects with an
    [Error] that a handler has thrown already: the handler reads the
    plain error, and throws again. *)
Definition handled_again {A} (p : M A) : M A :=
  catch p (fun err =>
    throw (JsError ClsError (alfrescoApiErrorHandler (plain_error (thrown_message err))))).

Definition upload (studyNodeId name : string) (filename : option string)
    (relativePath type_ : option string) : M unit :=
  st <- get_state ;;
  match filename with
  | None => TypeError "The path argument must be of type string"
  | Some filename =>
      match disk st !! filename with
      | None => throw (JsError ClsError
                         ("ENOENT: no such file or directory, stat '" ++ filename ++ "'"))
      | Some NDir =>
          handled_again (createDocument studyNodeId (Some name) relativePath type_) ;;
          throw (JsError ClsError "EISDIR: illegal operation on a directory, read")
      | Some (NFile file) =>
          let fileSize := blob_size file in
          let numChunks := numChunks_of fileSize in
          uploadId <- handled_again
                        (createDocument studyNodeId (Some name) relativePath type_) ;;
          uploadChunk (S (N.to_nat numChunks)) file numChunks uploadId 0 0
      end
  end.

(** *** Post-processing *)

(** [updatePostprocTask(res, stage)]; every caller passes [self.result]. *)
Definition updatePostprocTask (self : nat) (stage : option string) : M Task :=
  (if truthy_str stage then update_result self (set_r_stage stage) else ret tt) ;;
  s <- deref self ;;
  match result s with
  | Some r => postprocTaskUpdate (nodeRef s) (r_status r) (r_stage r) (r_stdout r) (r_stderr r)
  | None => TypeError "Cannot read properties of undefined (reading 'status')"
  end.

Definition typed (o v t : string) (create : bool) : Arg :=
  mkArg (Some o) (Some (VStr v)) (Some t) create.

Definition emiCalc_args : list Arg :=
  [typed "-p_input" "{studyDir}" "d" false;
   typed "-p_output" "{studyDir}/emiCalc" "d" true].

Definition meanAndConcat_args : list Arg :=
  [typed "-p_working" "{studyDir}" "d" false;
   typed "-p_output" "{studyDir}/probes_treated" "d" true].

Definition probesMeanYear_args : list Arg :=
  [typed "-p_working" "{studyDir}" "d" false;
   typed "-p_probes_treated" "{studyDir}/probes_treated" "d" false;
   typed "-p_freq" "{studyDir}/frequencesVent" "f" false;
   typed "-p_sigmo" "{studyDir}/parametresSigmoide" "f" false;
   typed "-p_config" "{scriptDir}/config" "f" false].

Definition polluant_args : list Arg :=
  [typed "-p_scale" "{studyDir}/settings_for_images" "f" false;
   typed "-p_logo" "{scriptDir}/Logo_airetd.png" "f" false;
   typed "-p_treated_data" "{studyDir}/probes_treated" "d" false].

Definition postproc_archive_list : list Arg :=
  [mkArg None (Some (VStr "{studyDir}/emiCalc")) (Some "d") false;
   mkArg None (Some (VStr "{studyDir}/probes_treated")) (Some "d") false].

(** [self.result = result; self.result.status = BG_TASK_STATUS_RUNNING]. *)
Definition keep_result (self : nat) (r : string * string) : M unit :=
  update_self self (set_result
    (Some (mkResult BG_TASK_STATUS_RUNNING None (Some (fst r)) (Some (snd r)) None))).

Definition postproc_steps (self : nat) : M unit :=
  s <- deref self ;;
  let archive := Path.resolve (studiesDir cfg) (nodeId s ++ "-postprocInputs.zip") in
  t <- claimPostprocTask (nodeRef s) ;;
  (if String.eqb (task_status t) BG_TASK_STATUS_RUNNING then ret tt
   else throw (JsError ClsError ("Invalid postproc status: " ++ task_status t))) ;;
  update_self self (set_pp (Some t)) ;;
  update_self self (set_step (Some STUDY_STEP_POSTPROC)) ;;
  update_result self (set_r_status BG_TASK_STATUS_RUNNING) ;;
  StudyCache_register self ;;
  cleanup self ;;
  updatePostprocTask self (Some "uncompress") ;;
  uncompress self STUDY_STEP_SIMULATION ;;
  folder <- getPostprocInputFolder (nodeRef s) ;;
  download self folder archive ;;
  updatePostprocTask self (Some "extraction") ;;
  extract self archive ;;
  updatePostprocTask self (Some "emiCalc") ;;
  r <- execute self "emiCalc" emiCalc_args (Some "{scriptDir}") ;;
  keep_result self r ;;
  (if Str.includes "IndexError:" (snd r) then throw (JsError ClsError "emicalc failed.")
   else ret tt) ;;
  updatePostprocTask self (Some "meanAndConcat") ;;
  r <- execute self "meanAndConcat" meanAndConcat_args None ;;
  keep_result self r ;;
  updatePostprocTask self (Some "probesMeanYear") ;;
  r <- execute self "probesMeanYear" probesMeanYear_args None ;;
  keep_result self r ;;
  updatePostprocTask self (Some "polluant") ;;
  r <- execute self "polluant" polluant_args None ;;
  keep_result self r ;;
  updatePostprocTask self (Some "compress") ;;
  filename <- compress self STUDY_STEP_POSTPROC (Some postproc_archive_list) ;;
  update_result self (set_r_filename (Some filename)) ;;
  updatePostprocTask self (Some "uploading") ;;
  s' <- deref self ;;
  upload (nodeId s') "final-results.7z" (mbind r_filename (result s'))
         (Some "${cfd.postproc}") (Some "cfd:postproc_result") ;;
  s'' <- deref self ;;
  match result s'' with
  | Some r =>
      if String.eqb (r_status r) BG_TASK_STATUS_RUNNING
      then update_result self (set_r_status BG_TASK_STATUS_DONE)
      else ret tt
  | None => TypeError "Cannot read properties of undefined (reading 'status')"
  end.

Definition postproc_failure (self : nat) (errOrResult : thrown) : M unit :=
  update_result self (set_r_status BG_TASK_STATUS_FAILED) ;;
  match errOrResult with
  | JsError _ message =>
      update_result self (set_r_output (Some EmptyString) (Some message))
  | Failure f =>
      update_result self (set_r_output (Some (f_stdout f)) (Some (f_stderr f)))
  end.

Definition postproc_finally (self : nat) : M unit :=
  StudyCache_unregister self ;;
  s <- deref self ;;
  match pp s with
  | Some _ =>
      match result s with
      | None => TypeError "Cannot read properties of undefined (reading 'status')"
      | Some _ =>
          catch
            (u <- updatePostprocTask self None ;;
             s' <- deref self ;;
             if String.eqb (task_status u) (default EmptyString (r_status <$> result s'))
             then ret tt
             else throw (JsError ClsError ("Invalid postprocess status: " ++ task_status u)))
            (fun err => Logger_error (thrown_message err))
      end
  | None => ret tt
  end.

Definition postproc (self : nat) : M unit :=
  busy <- StudyCache_exists self ;;
  if busy then throw already_processing
  else
    setup self ;;
    update_self self (set_result (Some (mkResult BG_TASK_STATUS_RUNNING None None None None))) ;;
    finally (catch (postproc_steps self) (postproc_failure self)) (postproc_finally self).

Definition abortPostproc (self : nat) : M (option Task) :=
  this <- deref self ;;
  s <- StudyCache_get (nodeRef this) ;;
  match s with
  | None =>
      t <- postprocTaskUpdate (nodeRef this) BG_TASK_STATUS_FAILED None (Some EmptyString)
             user_aborted ;;
      ret (Some t)
  | Some s =>
      if negb (bool_decide (step s = Some STUDY_STEP_POSTPROC))
      then throw (JsError ClsError "Study is not running the postprocessing step")
      else kill_group s ;; ret None
  end.

(** *** The operations behind the commands

    [parseMessage] builds a [Study] from the [nodeRef] of the message
    and calls one of these on it. *)

Definition start (stage : Stage) (self : nat) (simNodeRef : string) : M unit :=
  match stage with
  | Meshing => startMeshing self
  | Simulation => startSimulation self simNodeRef
  | Postproc => postproc self
  end.

Definition abort (stage : Stage) (self : nat) (simNodeRef : string) : M (option Task) :=
  match stage with
  | Meshing => abortMeshing self
  | Simulation => abortSimulation self simNodeRef
  | Postproc => abortPostproc self
  end.

End Engine.

(** ** Vocabulary for runs *)

(** The events a computation emits. *)
Definition events {A} (r : outcome A * State * list entry) : list entry := snd r.
Definition settled {A} (r : outcome A * State * list entry) : outcome A := fst (fst r).
Definition final_state {A} (r : outcome A * State * list entry) : State := snd (fst r).

Definition is_claim (e : entry) : bool :=
  match fst e with EvClaim _ _ _ => true | _ => false end.

(** The answer to the claim call of a run. *)
Definition claim_reply (evs : list entry) : option (Http Task) :=
  match find is_claim evs with
  | Some (EvClaim _ _ reply, _) => Some reply
  | _ => None
  end.

Definition is_spawn (e : entry) : bool :=
  match fst e with EvSpawn _ _ _ _ _ _ => true | _ => false end.

Definition is_spawn_of (prgname : string) (e : entry) : bool :=
  match fst e with EvSpawn p _ _ _ _ _ => String.eqb p prgname | _ => false end.

Definition is_kill (e : entry) : bool :=
  match fst e with EvKill _ _ => true | _ => false end.

Definition is_update (e : entry) : bool :=
  match fst e with EvUpdate _ _ _ _ _ _ _ => true | _ => false end.

Definition is_put (e : entry) : bool :=
  match fst e with EvPut _ _ _ _ => true | _ => false end.

Definition Stage_eqb (a b : Stage) : bool :=
  match a, b with
  | Meshing, Meshing | Simulation, Simulation | Postproc, Postproc => true
  | _, _ => false
  end.

(** A task-update that carries the stage label [label]. *)
Definition is_report (stage : Stage) (label : string) (e : entry) : bool :=
  match fst e with
  | EvUpdate stg _ _ (Some l) _ _ _ => Stage_eqb stg stage && String.eqb l label
  | _ => false
  end.

(** The first report of a step: the event, and the state of the worker
    when the step begins. *)
Definition first_report (stage : Stage) (label : string) (evs : list entry) : option entry :=
  find (is_report stage label) evs.

Definition terminal (status : string) : Prop :=
  status = BG_TASK_STATUS_DONE \/ status = BG_TASK_STATUS_FAILED.

(** A child that closes with [code] and [signal] both falsy. *)
Definition child_ok (o : ChildOutcome) : bool :=
  match o with
  | Closed code signal _ _ => negb (truthy_code code || truthy_str signal)
  | SpawnError _ => false
  end.

(** An outside world in which [rm -rf target], when it succeeds, has
    removed [target] and what lies below it, and nothing else. *)
Definition rm_faithful (env : Env) : Prop :=
  forall h d script pre target cwd,
    let r := env_spawn env h d "rm" script (pre ++ [VStr "-rf"; VStr target]) cwd in
    child_ok r.1.2 = true -> r.2 = rm_rf target d.

(** Nothing lies below a path that does not exist. *)
Definition no_orphans (d : Disk) (p : string) : Prop :=
  d !! p = None -> forall q, Path.under p q = true -> d !! q = None.

(** A path that interpolation leaves as it is. *)
Definition no_placeholder (p : string) : Prop :=
  Str.includes "{scriptDir}" p = false /\ Str.includes "{studyDir}" p = false.

(** A study as the constructor leaves it. *)
Definition constructed (cfg : Config) (s : Study) : Prop :=
  exists id, match_SpacesStore (nodeRef s) = Some id
    /\ s = mkStudy (nodeRef s) id (Path.resolve (studiesDir cfg) id)
             None None None None None None.

(** ** Vocabulary for the claims *)

(** The claim call of the run was answered with a status other than
    RUNNING. *)
Definition refused (l : list entry) : Prop :=
  exists t, claim_reply l = Some (HOk t) /\ task_status t <> BG_TASK_STATUS_RUNNING.

(** No event is a spawn, and the study is in the registry neither when
    an event is emitted nor at the end. *)
Definition never_spawned_nor_registered (ref : string) (l : list entry) (st : State) : Prop :=
  Forall (fun e => is_spawn e = false /\ studies (snd e) !! ref = None) l
  /\ studies st !! ref = None.

(** The study of the command has no execution in this process. *)
Definition idle (self : nat) (this : Study) (st : State) : Prop :=
  heap st !! self = Some this /\ studies st !! nodeRef this = None.

(** The events are one task-update with the status FAILED and the
    standard error [err], sent from the state [st]. *)
Definition one_failed_update (stage : Stage) (ref : string) (err : option string)
    (st : State) (l : list entry) : Prop :=
  exists label out reply,
    l = [(EvUpdate stage ref BG_TASK_STATUS_FAILED label out err reply, st)].

(** The last event is a task-update of [stage] with the status FAILED. *)
Definition ends_with_failed_update (stage : Stage) (ref : string) (l : list entry) : Prop :=
  exists label out err reply st,
    last l = Some (EvUpdate stage ref BG_TASK_STATUS_FAILED label out err reply, st).

(** The chunk PUT requests among the events: the size of the body and
    the flag [isLastChunk] of each. *)
Definition put_requests (l : list entry) : list (N * bool) :=
  omap (fun e => match fst e with
                 | EvPut _ chunk isLastChunk _ => Some (blob_size chunk, isLastChunk)
                 | _ => None
                 end) l.

(** What [uploadChunk] sends when [n] chunks remain to be counted:
    [n] unflagged chunks read from the position [pos] on, and one more,
    flagged. *)
Fixpoint chunks_sent (n : nat) (fileSize pos : N) : list (N * bool) :=
  let bytesRead := N.min CHUNK_SIZE (fileSize - pos) in
  match n with
  | O => [(bytesRead, true)]
  | S n' => (bytesRead, false) :: chunks_sent n' fileSize (pos + bytesRead)
  end.

(** A repository that accepts the document and every chunk. *)
Definition accepting (env : Env) : Prop :=
  (forall h a b c d, exists id, env_createDocument env h a b c d = HOk id)
  /\ (forall h id chunk b, env_put env h id chunk b = HOk tt).

(** The number of requests the specification expects. *)
Definition expected_chunks (fileSize : N) : N :=
  N.max 1 ((fileSize + CHUNK_SIZE - 1) / CHUNK_SIZE).

(** Where [extract] writes a file entry. *)
Definition flat_target (s : Study) (e : ZipEntry) : string :=
  (path s ++ "/" ++ Path.basename (entry_path e))%string.

Definition is_file_entry (e : ZipEntry) : bool :=
  match entry_type e with File => true | Directory => false end.

(** The last file entry of the archive that is written to [p]. *)
Fixpoint last_writer (s : Study) (p : string) (es : list ZipEntry) : option ZipEntry :=
  match es with
  | [] => None
  | e :: rest =>
      match last_writer s p rest with
      | Some e' => Some e'
      | None => if is_file_entry e && String.eqb (flat_target s e) p then Some e else None
      end
  end.

(** The disk after the extraction of the entries [es], seen from the
    disk [d] before it. *)
Definition flattened (s : Study) (es : list ZipEntry) (d d' : Disk) : Prop :=
  forall p, d' !! p = match last_writer s p es with
                      | Some e => Some (NFile (entry_content e))
                      | None => d !! p
                      end.

(** The tokens of one descriptor, and the arguments of a command. *)
Definition tokens (scriptDir studyDir : string) (a : Arg) : list argval :=
  match opt a with Some o => [VStr o] | None => [] end
  ++ match val a with Some v => [interpolate_val scriptDir studyDir v] | None => [] end.

Definition argv_of (scriptDir studyDir : string) (args : list Arg) : list argval :=
  concat (map (tokens scriptDir studyDir) args).

(** The executable and the first arguments of a program: a Python
    script is run by the interpreter. *)
Definition command_of (cfg : Config) (prgname : string) : string * list argval :=
  if Str.endsWith (program_script cfg prgname) ".py"
  then (airetd_python cfg, [VStr (program_script cfg prgname)])
  else (program_script cfg prgname, []).

(** The working directory of a child. *)
Definition cwd_of (cfg : Config) (s : Study) (prgname : string) (workDir : option string)
  : string :=
  interpolatePath (program_scriptDir cfg prgname) (path s)
    (match workDir with
     | Some w => if String.eqb w EmptyString then path s else w
     | None => path s
     end).

(** Two disks with the same regular files. *)
Definition files_kept (d d' : Disk) : Prop := forall p, is_file d' p = is_file d p.

(** The report with which the population of the workspace begins. *)
Definition population_label (stage : Stage) : string :=
  match stage with
  | Meshing => "download input folder"
  | Simulation | Postproc => "uncompress"
  end.

(** The workspace and everything below it are gone. *)
Definition workspace_gone (d : Disk) (p : string) : Prop :=
  d !! p = None /\ forall q, Path.under p q = true -> d !! q = None.

(** Postconditions that hold whatever follows the events [l]. *)
Definition upward {A} (l : list entry) (Q : A -> list entry -> State -> Prop) : Prop :=
  forall a evs st, Q a (l ++ evs) st.

(** ** Weakest preconditions *)

(** [wp m Q E C l st]: run from the state [st], after the events [l] of
    the current run, [m] resolves into [Q], rejects into [E] or crashes
    into [C], whatever happened before the run. *)
Definition wp {A} (m : M A)
    (Q : A -> list entry -> State -> Prop)
    (E : thrown -> list entry -> State -> Prop)
    (C : list entry -> State -> Prop)
    (l : list entry) (st : State) : Prop :=
  forall h0,
    match m (h0 ++ l) st with
    | (Resolved a, st', evs) => Q a (l ++ evs) st'
    | (Rejected t, st', evs) => E t (l ++ evs) st'
    | (Crashed _, st', evs) => C (l ++ evs) st'
    end.


(** ** A small world for examples *)

Definition ex_cfg : Config :=
  mkConfig "/srv/studies" "/srv/bin" "/opt/airetd" "/usr/bin/python3" ∅.

Definition ex_ref : string := "workspace://SpacesStore/e72baac6".
Definition ex_simref : string := "workspace://SpacesStore/51a0".
Definition ex_path : string := "/srv/studies/e72baac6".

(** The study [new Study(ex_ref)] builds. *)
Definition ex_study : Study :=
  mkStudy ex_ref "e72baac6" ex_path None None None None None None.

Definition ex_blob (n : N) : Blob := mkBlob n (fun _ => "a"%char).

Definition ex_task (ref status : string) : Task := mkTask ref status None.

(** What a child does to the disk in the example worlds: [rm ... -rf
    target] removes its target, [7z x] brings the workspace of the
    example study back, every other program leaves the disk alone. *)
Definition ex_effect (prgname : string) (argv : list argval) (d : Disk) : Disk :=
  match rev argv with
  | VStr target :: VStr flag :: _ =>
      if String.eqb prgname "rm" && String.eqb flag "-rf" then rm_rf target d
      else if String.eqb prgname "7z" && String.eqb flag "x" then <[ex_path := NDir]> d
      else d
  | _ => d
  end.

(** An outside world in which the repository answers every claim with
    [claim_status] and echoes the status of every update, and every
    child exits with the code 0 after printing [err] on its standard
    error. *)
Definition ex_env (claim_status err : string) : Env :=
  mkEnv (fun _ _ ref => HOk (ex_task ref claim_status))
        (fun _ _ ref status _ _ _ => HOk (ex_task ref status))
        (fun _ _ _ => HOk ["c0ffee"])
        (fun _ d _ filename => (HOk tt, <[filename := NFile (ex_blob 3)]> d))
        (fun _ _ _ => ([], None))
        (fun _ d prgname _ argv _ =>
           (Some 4242%Z, Closed (Some 0%Z) None EmptyString err, ex_effect prgname argv d))
        (fun _ _ => None)
        (fun _ _ _ _ _ => HOk "upload-1")
        (fun _ _ _ _ => HOk tt).

(** The same world, except that the repository rejects the progress
    report of one step. *)
Definition ex_env_rejecting (label err : string) : Env :=
  let base := ex_env BG_TASK_STATUS_RUNNING err in
  mkEnv (env_claim base)
        (fun _ _ ref status l _ _ =>
           if bool_decide (l = Some label) then HErr "No answer from server"
           else HOk (ex_task ref status))
        (env_children base) (env_download base) (env_unzip base) (env_spawn base)
        (env_kill base) (env_createDocument base) (env_put base).

(** A worker with one study object and an empty registry; the disk
    holds the studies directory and a workspace left by an earlier
    stage. *)
Definition ex_disk : Disk :=
  {[ "/srv" := NDir; "/srv/studies" := NDir; ex_path := NDir;
     (ex_path ++ "/old.log")%string := NFile (ex_blob 7) ]}.

Definition ex_state : State := mkState ∅ {[ 0 := ex_study ]} ex_disk [].

(** The same worker while the study runs its simulation step, claimed
    under [ex_simref]. *)
Definition ex_running : Study :=
  mkStudy ex_ref "e72baac6" ex_path
    (Some (ex_task ex_simref BG_TASK_STATUS_RUNNING)) None
    (Some STUDY_STEP_SIMULATION) (Some (mkChild (Some 4242%Z)))
    (Some (mkResult BG_TASK_STATUS_RUNNING (Some "simulation") (Some EmptyString)
             (Some EmptyString) None)) None.

Definition ex_busy : State :=
  mkState {[ ex_ref := 1 ]} {[ 0 := ex_study; 1 := ex_running ]} ex_disk [].

(** The worker with an archive of 16 MiB next to the workspace. *)
Definition ex_archive : string := "/srv/studies/e72baac6-simulation.7z".

Definition ex_with_archive : State :=
  mkState ∅ {[ 0 := ex_study ]} (<[ex_archive := NFile (ex_blob 16777216)]> ex_disk) [].

(** The world of the examples with an archive of the given entries. *)
Definition ex_env_zip (es : list ZipEntry) : Env :=
  let base := ex_env BG_TASK_STATUS_RUNNING EmptyString in
  mkEnv (env_claim base) (env_update base) (env_children base) (env_download base)
        (fun _ _ _ => (es, None)) (env_spawn base) (env_kill base)
        (env_createDocument base) (env_put base).

Definition ex_zip : string := "/srv/studies/e72baac6.zip".

(** Two file entries of the same basename in two directories. *)
Definition ex_colliding : list ZipEntry :=
  [mkEntry "mesh/" Directory (ex_blob 0);
   mkEntry "mesh/params.txt" File (ex_blob 1);
   mkEntry "wind/params.txt" File (ex_blob 2)].

Definition ex_with_zip : State :=
  mkState ∅ {[ 0 := ex_study ]}
    {[ "/srv" := NDir; "/srv/studies" := NDir; ex_path := NDir;
       ex_zip := NFile (ex_blob 300) ]} [].

(** * More of the worker

    The parts of the engine the claims do not reach: the validation of
    arguments, the errors of the HTTP client, the polling of a download,
    the dispatcher of the commands, and the invariants a pipeline keeps. *)

(** ** Paths that need no normalisation *)

(** A file name: not empty, without a slash, and neither [.] nor [..]. *)
Definition plain_name (s : string) : bool :=
  negb (String.eqb s EmptyString) && negb (Str.includes "/" s)
  && negb (String.eqb s ".") && negb (String.eqb s "..").

(** The segments of a path, between its slashes. *)
Fixpoint segments_scan (seg s : string) : list string :=
  match s with
  | EmptyString => [seg]
  | String c rest =>
      if Str.is_slash c then seg :: segments_scan EmptyString rest
      else segments_scan (Str.snoc seg c) rest
  end.

Definition segments (p : string) : list string := segments_scan EmptyString p.

(** A relative path in normal form: file names separated by single
    slashes. *)
Definition plain_relative (p : string) : bool := forallb plain_name (segments p).

(** An absolute path in normal form, the root excluded: [Path.resolve]
    of Node leaves it as it is, and resolves a relative path in normal
    form against it by appending a slash and the relative path. *)
Definition normalized (p : string) : bool :=
  match p with
  | String c rest => Str.is_slash c && plain_relative rest
  | EmptyString => false
  end.

(** A string that [String.prototype.replace] inserts as it is when it
    is the replacement: it holds no dollar sign. *)
Definition literal (s : string) : bool := negb (Str.includes "$" s).

(** The paths [execute] builds for the program [prgname] on the study
    [s] are those of Node: the studies directory, the directory of the
    tools and the entry of the program need no normalisation, and the
    two directories the interpolation inserts hold no dollar sign. *)
Definition exact_paths (cfg : Config) (prgname : string) (s : Study) : bool :=
  normalized (studiesDir cfg)
  && match airetd_programs cfg !! prgname with
     | Some rel =>
         String.eqb rel EmptyString || (normalized (airetd_path cfg) && plain_relative rel)
     | None => true
     end
  && literal (program_scriptDir cfg prgname) && literal (path s).

(** ** Vocabulary for [execute] *)






(** A configuration that lists the simulation program. *)
Definition ex_cfg_listed : Config :=
  mkConfig "/srv/studies" "/srv/bin" "/opt/airetd" "/usr/bin/python3"
    {[ "simulation" := "run/simulation.py" ]}.


(** The step a pipeline records in [self.step], and the words of the
    message that turns down the abort of another step. *)
Definition step_of (stage : Stage) : string :=
  match stage with
  | Meshing => STUDY_STEP_MESHING
  | Simulation => STUDY_STEP_SIMULATION
  | Postproc => STUDY_STEP_POSTPROC
  end.

Definition step_words (stage : Stage) : string :=
  match stage with
  | Meshing => "meshing"
  | Simulation => "simulation"
  | Postproc => "postprocessing"
  end.

(** The execution that an abort command of [stage] for [simNodeRef]
    stops: the registered study runs the step of the stage and, for a
    simulation, the simulation of that reference. *)
Definition aborts (stage : Stage) (simNodeRef : string) (s : Study) : Prop :=
  step s = Some (step_of stage)
  /\ match stage with
     | Simulation => task_nodeRef <$> sim s = Some simNodeRef
     | _ => True
     end.

(** ** Vocabulary for uploads *)

(** The bytes of a content. *)
Definition blob_bytes (b : Blob) : list ascii :=
  map (fun i => blob_byte b (N.of_nat i)) (seq 0 (N.to_nat (blob_size b))).

(** The bodies of the chunk PUT requests among the events, in order. *)
Definition put_bodies (l : list entry) : list Blob :=
  omap (fun e => match fst e with
                 | EvPut _ chunk _ _ => Some chunk
                 | _ => None
                 end) l.

(** A request of an upload that the repository answered with success. *)
Definition answered_ok (e : entry) : bool :=
  match fst e with
  | EvCreateDocument _ _ _ _ (HOk _) => true
  | EvPut _ _ _ (HOk _) => true
  | _ => false
  end.

(** ** Invariants of the state *)

(** The fields of a study that name it. *)
Definition same_identity (s' s : Study) : Prop :=
  nodeRef s' = nodeRef s /\ nodeId s' = nodeId s /\ path s' = path s.

(** A property of the state that does not look at the disk, at the log,
    or at the fields of the study [self] other than those that name
    it. *)
Record stable (self : nat) (Inv : State -> Prop) : Prop := mkStable {
  stable_disk : forall st d, Inv st -> Inv (set_disk d st);
  stable_log : forall st msg, Inv st -> Inv (add_log msg st);
  stable_self : forall st s s',
    heap st !! self = Some s -> same_identity s' s ->
    Inv st -> Inv (set_heap (<[self := s']> (heap st)) st) }.

(** [hoare P m Q]: from a state in [P], [m] crashes or leaves a state
    in [Q]. *)
Definition hoare {A} (P : State -> Prop) (m : M A) (Q : State -> Prop) : Prop :=
  forall h st, P st ->
    match m h st with
    | (Crashed _, _, _) => True
    | (_, st', _) => Q st'
    end.

(** [m] keeps the invariant [Inv]. *)
Definition keeps {A} (Inv : State -> Prop) (m : M A) : Prop := hoare Inv m Inv.

(** The registry but for the entry of [ref] is [m0], and [self] is a
    study of that reference. *)
Definition registry_but (self : nat) (ref : string) (m0 : gmap string nat) (st : State) : Prop :=
  (exists s, heap st !! self = Some s /\ nodeRef s = ref)
  /\ delete ref (studies st) = m0.

(** The study at [self] is [s] but for the fields a pipeline sets, and
    the other objects are those of [hp]. *)
Definition heap_but (self : nat) (s : Study) (hp : gmap nat Study) (st : State) : Prop :=
  (exists s', heap st !! self = Some s' /\ same_identity s' s)
  /\ delete self (heap st) = delete self hp.

(** The registry is [m0], and [self] is a study of the reference [ref]. *)
Definition registry_is (self : nat) (ref : string) (m0 : gmap string nat) (st : State) : Prop :=
  (exists s, heap st !! self = Some s /\ nodeRef s = ref) /\ studies st = m0.

(** ** Download *)

Inductive AxiosReply (A : Type) :=
| AxOk (data : A)
| AxFail (error : AxiosError).
Arguments AxOk {A} _.
Arguments AxFail {A} _.

(** The requests of a download: the creation of the download node, a
    poll of its status, the retrieval of its content. *)
Inductive DownloadRequest :=
| ReqCreate (folderNodeId : string)
| ReqStatus (nodeId : string)
| ReqContent (nodeId : string).

(** The repository as a download sees it: the [id] and the [status] of
    the node it creates, the status it answers the [n]-th poll with, and
    the content request, whose stream is written to the file to the end
    ([None]) or fails on the way. *)
Record DownloadWorld := mkDownloadWorld {
  dl_create : AxiosReply (string * string);
  dl_status : nat -> AxiosReply string;
  dl_content : AxiosReply (option string) }.

(** What the promise of a download settles to: fulfilled, with the
    archive written or not, or rejected with a reason. *)
Inductive DownloadOutcome :=
| Fulfilled (written : bool)
| Failed (reason : string).

Definition waiting (status : string) : bool :=
  String.eqb status "PENDING" || String.eqb status "IN_PROGRESS".

(** [.catch( error => { throw new Error( prefix + error.message ) } )]. *)
Definition rethrow (prefix : string) (r : DownloadOutcome * list DownloadRequest)
  : DownloadOutcome * list DownloadRequest :=
  match fst r with
  | Failed reason => (Failed (prefix ++ reason), snd r)
  | Fulfilled w => r
  end.

Definition sent (q : DownloadRequest) (r : DownloadOutcome * list DownloadRequest)
  : DownloadOutcome * list DownloadRequest :=
  (fst r, q :: snd r).

(** The case [DONE] of [waitUntilReady()]: the content is requested and
    piped to the file. *)
Definition fetch_content (w : DownloadWorld) (nodeId : string)
  : DownloadOutcome * list DownloadRequest :=
  sent (ReqContent nodeId)
    (rethrow "Failed to download zip file, reason: "
       (match dl_content w with
        | AxOk None => Fulfilled true
        | AxOk (Some _) => Failed "Failed to download zip file"
        | AxFail error => Failed (alfrescoApiErrorHandler error)
        end, [])).

(** The cases of [waitUntilReady()] that do not poll: [DONE], and the
    statuses that [break] out of the [switch]. *)
Definition when_ready (w : DownloadWorld) (nodeId status : string)
  : DownloadOutcome * list DownloadRequest :=
  if String.eqb status "DONE" then fetch_content w nodeId else (Fulfilled false, []).

(** [waitUntilReady()] when the status is [status] and [n] polls have
    been made.  The recursion of the source has no bound; [fuel] bounds
    the number of polls, and [None] is a download that is still
    polling. *)
Fixpoint waitUntilReady (fuel : nat) (w : DownloadWorld) (nodeId status : string) (n : nat)
  : option (DownloadOutcome * list DownloadRequest) :=
  if waiting status then
    match fuel with
    | O => None
    | S fuel' =>
        match dl_status w n with
        | AxOk status' =>
            match waitUntilReady fuel' w nodeId status' (S n) with
            | Some r =>
                Some (sent (ReqStatus nodeId)
                        (rethrow "Failed to check download status, reason: " r))
            | None => None
            end
        | AxFail error =>
            Some (Failed ("Failed to check download status, reason: "
                          ++ alfrescoApiErrorHandler error), [ReqStatus nodeId])
        end
    end
  else Some (when_ready w nodeId status).

(** [new Download( conn, folderNodeId, filename ).promise]. *)
Definition Download (fuel : nat) (w : DownloadWorld) (folderNodeId : string)
  : option (DownloadOutcome * list DownloadRequest) :=
  match dl_create w with
  | AxOk (nodeId, status) =>
      match waitUntilReady fuel w nodeId status 0 with
      | Some r => Some (sent (ReqCreate folderNodeId) (rethrow "Download failed, reason: " r))
      | None => None
      end
  | AxFail error =>
      Some (Failed ("Download failed, reason: " ++ alfrescoApiErrorHandler error),
            [ReqCreate folderNodeId])
  end.

(** [prefix] repeated [k] times before [reason]. *)
Fixpoint wrapped (k : nat) (prefix reason : string) : string :=
  match k with
  | O => reason
  | S k' => prefix ++ wrapped k' prefix reason
  end.

(** The reason of a failure that passes [k] handlers which put [prefix]
    before it. *)
Definition wrap_failure (k : nat) (prefix : string) (o : DownloadOutcome) : DownloadOutcome :=
  match o with
  | Failed reason => Failed (wrapped k prefix reason)
  | Fulfilled w => Fulfilled w
  end.

(** The status of the download after [i] polls: the status of the node
    at its creation, then the answers to the polls. *)
Definition status_after (w : DownloadWorld) (status0 : string) (i : nat) : option string :=
  match i with
  | O => Some status0
  | S j => match dl_status w j with AxOk status => Some status | AxFail _ => None end
  end.

(** The status asks for another poll after each of the first [k]
    observations. *)
Definition waits (w : DownloadWorld) (status0 : string) (k : nat) : Prop :=
  forall i, (i < k)%nat ->
    exists status, status_after w status0 i = Some status /\ waiting status = true.

(** ** The dispatcher of the worker *)

Definition CMD_START_MESHING : string := "start-meshing".
Definition CMD_ABORT_MESHING : string := "abort-meshing".
Definition CMD_START_SIMULATION : string := "start-simulation".
Definition CMD_ABORT_SIMULATION : string := "abort-simulation".
Definition CMD_START_POSTPROC : string := "start-postproc".
Definition CMD_ABORT_POSTPROC : string := "abort-postproc".

(** What [JSON.parse( rawMsg )] makes of the body of a message: a
    syntax error, [null], or a value of which the dispatcher reads the
    fields [cmd], [nodeRef] and [simNodeRef] (strings when they are
    there; the commands of a simulation carry [simNodeRef]). *)
Inductive Payload :=
| NotJson (message : string)
| JsonNull
| JsonValue (cmd nodeRef : option string) (simNodeRef : string).

Section Dispatcher.
Variable cfg : Config.
Variable env : Env.

(** [p.then( () => Logger.info( ... ), (err) => Logger.error( err ) )]:
    the log keeps the errors. *)
Definition logged {A} (p : M A) : M unit :=
  catch (p ;; ret tt) (fun err => Logger_error (thrown_message err)).

(** The [switch ( msg.cmd )]; the waits of two seconds before the start
    commands are not modelled. *)
Definition dispatch (cmd : option string) (study : nat) (simNodeRef : string) : M unit :=
  match cmd with
  | Some c =>
      if String.eqb c CMD_START_MESHING then logged (startMeshing cfg env study)
      else if String.eqb c CMD_ABORT_MESHING then logged (abortMeshing env study)
      else if String.eqb c CMD_START_SIMULATION
      then logged (startSimulation cfg env study simNodeRef)
      else if String.eqb c CMD_ABORT_SIMULATION then logged (abortSimulation env study simNodeRef)
      else if String.eqb c CMD_START_POSTPROC then logged (postproc cfg env study)
      else if String.eqb c CMD_ABORT_POSTPROC then logged (abortPostproc env study)
      else ret tt
  | None => ret tt
  end.

(** [parseMessage( rawMsg )]. *)
Definition parseMessage (rawMsg : Payload) : M unit :=
  catch
    (match rawMsg with
     | NotJson message => throw (JsError ClsError message)
     | JsonNull => TypeError "Cannot read properties of null (reading 'nodeRef')"
     | JsonValue cmd nodeRef simNodeRef =>
         study <- match nodeRef with
                  | Some ref => new_Study cfg ref
                  | None => TypeError "Cannot read properties of undefined (reading 'match')"
                  end ;;
         dispatch cmd study simNodeRef
     end)
    (fun e => Logger_error (thrown_message e)).

End Dispatcher.

(** The command of a message starts a pipeline. *)
Definition starts (cmd : string) : bool :=
  String.eqb cmd CMD_START_MESHING || String.eqb cmd CMD_START_SIMULATION
  || String.eqb cmd CMD_START_POSTPROC.

(** The command of a message is one of the six of the worker. *)
Definition known_command (cmd : string) : bool :=
  starts cmd
  || String.eqb cmd CMD_ABORT_MESHING || String.eqb cmd CMD_ABORT_SIMULATION
  || String.eqb cmd CMD_ABORT_POSTPROC.

(** The commands that start and that abort a stage. *)
Definition start_command (stage : Stage) : string :=
  match stage with
  | Meshing => CMD_START_MESHING
  | Simulation => CMD_START_SIMULATION
  | Postproc => CMD_START_POSTPROC
  end.

Definition abort_command (stage : Stage) : string :=
  match stage with
  | Meshing => CMD_ABORT_MESHING
  | Simulation => CMD_ABORT_SIMULATION
  | Postproc => CMD_ABORT_POSTPROC
  end.

(** What is left of the run of a method once the dispatcher has put its
    handlers on the promise: a rejection has become a line of the log. *)
Definition contained {A} (r : outcome A * State * list entry)
  : outcome unit * State * list entry :=
  match r with
  | (Resolved _, st, evs) => (Resolved tt, st, evs)
  | (Rejected t, st, evs) => (Resolved tt, add_log (thrown_message t) st, evs)
  | (Crashed message, st, evs) => (Crashed message, st, evs)
  end.

(** A message the dispatcher cannot take a study from. *)
Definition malformed (rawMsg : Payload) : Prop :=
  match rawMsg with
  | NotJson _ | JsonNull => True
  | JsonValue _ None _ => True
  | JsonValue _ (Some ref) _ => Str.includes "SpacesStore/" ref = false
  end.

(** ** More of the small world *)

(** The worker when the post-processing reaches [probesMeanYear]: the
    workspace holds the directory of the treated probes, and no file
    [frequencesVent]. *)
Definition ex_postproc_state : State :=
  mkState ∅ {[ 0 := ex_study ]}
    (<[(ex_path ++ "/probes_treated")%string := NDir]> ex_disk) [].

(** The worker between the claim of a simulation and the first child of
    its pipeline. *)
Definition ex_claimed : Study :=
  mkStudy ex_ref "e72baac6" ex_path
    (Some (ex_task ex_simref BG_TASK_STATUS_RUNNING)) None
    (Some STUDY_STEP_SIMULATION) None
    (Some (mkResult BG_TASK_STATUS_RUNNING (Some "uncompress") (Some EmptyString)
             (Some EmptyString) None)) None.

Definition ex_waiting : State :=
  mkState {[ ex_ref := 1 ]} {[ 0 := ex_study; 1 := ex_claimed ]} ex_disk [].

(** The worker with an empty archive. *)
Definition ex_with_empty : State :=
  mkState ∅ {[ 0 := ex_study ]} (<[ex_archive := NFile (ex_blob 0)]> ex_disk) [].

(** A repository that does not answer the claims. *)
Definition ex_env_unreachable : Env :=
  let base := ex_env BG_TASK_STATUS_RUNNING EmptyString in
  mkEnv (fun _ _ _ => HErr "No answer from server")
        (env_update base) (env_children base) (env_download base) (env_unzip base)
        (env_spawn base) (env_kill base) (env_createDocument base) (env_put base).

(** A repository that refuses the creation of documents. *)
Definition ex_env_readonly : Env :=
  let base := ex_env BG_TASK_STATUS_RUNNING EmptyString in
  mkEnv (env_claim base) (env_update base) (env_children base) (env_download base)
        (env_unzip base) (env_spawn base) (env_kill base)
        (fun _ _ _ _ _ => HErr "Permission denied") (env_put base).

(** A download that is ready at the third poll with the status
    [final]; one whose second poll fails; one that is never ready. *)
Definition ex_download (final : string) : DownloadWorld :=
  mkDownloadWorld (AxOk ("dl-1", "PENDING"))
    (fun n => if (n <? 2)%nat then AxOk "IN_PROGRESS" else AxOk final)
    (AxOk None).

Definition ex_download_failing : DownloadWorld :=
  mkDownloadWorld (AxOk ("dl-1", "PENDING"))
    (fun n => if (n <? 1)%nat then AxOk "IN_PROGRESS"
              else AxFail (mkAxiosError (Some 503%Z) true true
                             "Request failed with status code 503"))
    (AxOk None).

Definition ex_download_pending : DownloadWorld :=
  mkDownloadWorld (AxOk ("dl-1", "PENDING")) (fun _ => AxOk "PENDING") (AxOk None).
(** ** Strings, paths and disks *)

Lemma length_append (a b : string) :
  String.length (a ++ b) = (String.length a + String.length b)%nat.
Proof.
  induction a as [|c a IH]; [done|].
  change (S (String.length (a ++ b)) = S (String.length a + String.length b)). by rewrite IH.
Qed.


Lemma prefix_length (a b : string) :
  String.prefix a b = true -> (String.length a <= String.length b)%nat.
Proof.
  revert b. induction a as [|c a IH]; intros [|c' b]; cbn; try done; try lia.
  destruct (ascii_dec c c'); [|done]. intros H. apply IH in H. lia.
Qed.

Lemma under_longer (p q : string) :
  Path.under p q = true -> (String.length p < String.length q)%nat.
Proof.
  unfold Path.under. intros H. apply prefix_length in H.
  rewrite length_append in H. cbn in H. lia.
Qed.

Lemma ancestors_scan_shorter (pre rest a : string) :
  a ∈ Path.ancestors_scan pre rest ->
  (String.length a < String.length pre + String.length rest)%nat.
Proof.
  revert pre. induction rest as [|c rest IH]; intros pre; cbn [Path.ancestors_scan].
  - by intros ?%elem_of_nil.
  - intros [Ha|Ha]%elem_of_app.
    + destruct (Str.is_slash c && negb (String.eqb pre EmptyString)); [|by apply elem_of_nil in Ha].
      apply list_elem_of_singleton in Ha as ->. cbn. lia.
    + apply IH in Ha. unfold Str.snoc in Ha. rewrite length_append in Ha. cbn in *. lia.
Qed.

Lemma under_not_in_chain (p q : string) :
  Path.under p q = true -> q ∉ Path.ancestors p ++ [p].
Proof.
  intros Hu%under_longer [Ha|Ha]%elem_of_app.
  - apply ancestors_scan_shorter in Ha. cbn in Ha. lia.
  - apply list_elem_of_singleton in Ha as ->. lia.
Qed.

Lemma replace_absent (pat rep s : string) :
  Str.includes pat s = false -> Str.replace pat rep s = s.
Proof.
  induction s as [|c s IH]; cbn [Str.includes Str.replace].
  - intros H%orb_false_iff. destruct H as [-> _]. done.
  - intros [-> H]%orb_false_iff. by rewrite IH.
Qed.

Lemma interpolatePath_id (scriptDir studyDir p : string) :
  no_placeholder p -> interpolatePath scriptDir studyDir p = p.
Proof.
  intros [H1 H2]. unfold interpolatePath. by rewrite (replace_absent _ _ p H1), replace_absent.
Qed.

Lemma set_disk_same (st : State) : set_disk (disk st) st = st.
Proof. by destruct st. Qed.

Lemma rm_rf_target (p : string) (d : Disk) : rm_rf p d !! p = None.
Proof.
  unfold rm_rf. apply map_lookup_filter_None. right. intros x _ [H _]. done.
Qed.

Lemma rm_rf_under (p q : string) (d : Disk) :
  Path.under p q = true -> rm_rf p d !! q = None.
Proof.
  intros Hu. unfold rm_rf. apply map_lookup_filter_None. right. intros x _ [_ H].
  change (Path.under p q = false) in H. congruence.
Qed.

Lemma rm_rf_other (p q : string) (d : Disk) :
  q <> p -> Path.under p q = false -> rm_rf p d !! q = d !! q.
Proof.
  intros Hne Hu. unfold rm_rf. destruct (d !! q) as [n|] eqn:Hq.
  - by apply map_lookup_filter_Some.
  - apply map_lookup_filter_None. by left.
Qed.

Lemma mkdir_chain_other (chain : list string) (d : Disk) (q : string) :
  q ∉ chain -> foldr mkdir_missing d chain !! q = d !! q.
Proof.
  induction chain as [|x chain IH]; cbn [foldr]; [done|].
  intros [Hne Hq]%not_elem_of_cons. unfold mkdir_missing at 1.
  destruct (foldr mkdir_missing d chain !! x); [by apply IH|].
  rewrite lookup_insert_ne by done. by apply IH.
Qed.

Lemma mkdir_chain_dir (chain : list string) (d : Disk) (p : string) :
  existsb (is_file d) chain = false -> p ∈ chain ->
  foldr mkdir_missing d chain !! p = Some NDir.
Proof.
  induction chain as [|x chain IH]; cbn [foldr existsb]; [by intros _ ?%elem_of_nil|].
  intros [Hx Hrest]%orb_false_iff Hp. unfold mkdir_missing at 1.
  destruct (decide (p ∈ chain)) as [Hin|Hnin].
  - destruct (foldr mkdir_missing d chain !! x); [by apply IH|].
    destruct (decide (x = p)) as [->|Hne]; [by rewrite lookup_insert_eq|].
    rewrite lookup_insert_ne by done. by apply IH.
  - apply elem_of_cons in Hp as [->|Hp]; [|done].
    rewrite (mkdir_chain_other chain d x Hnin).
    unfold is_file in Hx. destruct (d !! x) as [[c|]|] eqn:Hd; try done.
    + by rewrite mkdir_chain_other.
    + by rewrite lookup_insert_eq.
Qed.

Lemma mkdir_chain_files (chain : list string) (d : Disk) (q : string) :
  is_file (foldr mkdir_missing d chain) q = is_file d q.
Proof.
  induction chain as [|x chain IH]; cbn [foldr]; [done|].
  unfold mkdir_missing at 1.
  destruct (foldr mkdir_missing d chain !! x) eqn:Hx; [done|].
  unfold is_file at 1. destruct (decide (x = q)) as [->|Hne].
  - rewrite lookup_insert_eq. rewrite <- IH. unfold is_file. by rewrite Hx.
  - rewrite lookup_insert_ne by done. apply IH.
Qed.

Lemma child_settlement_Resolved o a :
  child_settlement o = Resolved a -> child_ok o = true /\ exists code signal, o = Closed code signal a.1 a.2.
Proof.
  unfold child_settlement, child_ok. destruct o as [m|code signal out err]; [done|].
  destruct (truthy_code code || truthy_str signal); [done|].
  intros [= <-]. split; [done|]. by eexists _, _.
Qed.

(** ** Rules of the weakest precondition *)

Section Rules.
Context {A : Type}.
Implicit Types (Q : A -> list entry -> State -> Prop)
  (E : thrown -> list entry -> State -> Prop) (C : list entry -> State -> Prop).

Lemma wp_ret (a : A) Q E C l st : Q a l st -> wp (ret a) Q E C l st.
Proof. intros H h0. cbn. by rewrite app_nil_r. Qed.

Lemma wp_throw (t : thrown) Q E C l st : E t l st -> wp (throw t) Q E C l st.
Proof. intros H h0. cbn. by rewrite app_nil_r. Qed.

Lemma wp_crash (msg : string) Q E C l st : C l st -> wp (crash msg) Q E C l st.
Proof. intros H h0. cbn. by rewrite app_nil_r. Qed.

Lemma wp_TypeError (what : string) Q E C l st :
  E (JsError ClsError ("TypeError: " ++ what)) l st -> wp (TypeError what) Q E C l st.
Proof. apply wp_throw. Qed.

Lemma wp_ConfigurationError (msg : string) Q E C l st :
  E (JsError ClsConfigurationError msg) l st -> wp (ConfigurationError msg) Q E C l st.
Proof. apply wp_throw. Qed.

Lemma wp_bind {B} (m : M B) (k : B -> M A) Q E C l st :
  wp m (fun b => wp (k b) Q E C) E C l st -> wp (bind m k) Q E C l st.
Proof.
  intros H h0. specialize (H h0). unfold bind.
  destruct (m (h0 ++ l) st) as [[[b|t|msg] st1] e1]; try done.
  specialize (H h0). rewrite <- app_assoc.
  destruct (k b (h0 ++ l ++ e1) st1) as [[[a|t|msg] st2] e2];
    by rewrite app_assoc.
Qed.

Lemma wp_catch (m : M A) (handler : thrown -> M A) Q E C l st :
  wp m Q (fun t => wp (handler t) Q E C) C l st -> wp (catch m handler) Q E C l st.
Proof.
  intros H h0. specialize (H h0). unfold catch.
  destruct (m (h0 ++ l) st) as [[[b|t|msg] st1] e1]; try done.
  specialize (H h0). rewrite <- app_assoc.
  destruct (handler t (h0 ++ l ++ e1) st1) as [[[a|t'|msg] st2] e2];
    by rewrite app_assoc.
Qed.

Lemma wp_finally (m : M A) (f : M unit) Q E C l st :
  wp m (fun a => wp f (fun _ => Q a) E C) (fun t => wp f (fun _ => E t) E C) C l st ->
  wp (finally m f) Q E C l st.
Proof.
  intros H h0. specialize (H h0). unfold finally.
  destruct (m (h0 ++ l) st) as [[[b|t|msg] st1] e1]; try done.
  - specialize (H h0). rewrite <- app_assoc.
    destruct (f (h0 ++ l ++ e1) st1) as [[[a|t'|msg] st2] e2];
      by rewrite app_assoc.
  - specialize (H h0). rewrite <- app_assoc.
    destruct (f (h0 ++ l ++ e1) st1) as [[[a|t'|msg] st2] e2];
      by rewrite app_assoc.
Qed.

Lemma wp_mono (m : M A) Q Q' E E' C C' l st :
  (forall a l st, Q a l st -> Q' a l st) ->
  (forall t l st, E t l st -> E' t l st) ->
  (forall l st, C l st -> C' l st) ->
  wp m Q E C l st -> wp m Q' E' C' l st.
Proof.
  intros HQ HE HC H h0. specialize (H h0).
  destruct (m (h0 ++ l) st) as [[[b|t|msg] st1] e1]; auto.
Qed.

Lemma upward_app l evs Q : upward l Q -> upward (l ++ evs) Q.
Proof. intros H a evs' st. rewrite <- app_assoc. apply H. Qed.

Lemma wp_upward (m : M A) Q E C l st :
  upward l Q -> upward l E -> upward l (fun _ : unit => C) -> wp m Q E C l st.
Proof.
  intros HQ HE HC h0.
  destruct (m (h0 ++ l) st) as [[[b|t|msg] st1] e1]; [apply HQ | apply HE | apply (HC tt)].
Qed.

(** From a weakest precondition to the run itself. *)
Lemma wp_elim (m : M A) Q E C h st :
  wp m Q E C [] st ->
  match m h st with
  | (Resolved a, st', evs) => Q a evs st'
  | (Rejected t, st', evs) => E t evs st'
  | (Crashed _, st', evs) => C evs st'
  end.
Proof. intros H. specialize (H h). by rewrite app_nil_r in H. Qed.

Lemma wp_run (m : M A) (Post : list entry -> State -> Prop) h st :
  wp m (fun _ => Post) (fun _ => Post) Post [] st ->
  Post (events (m h st)) (final_state (m h st)).
Proof.
  intros W. apply (wp_elim _ _ _ _ h) in W. unfold events, final_state.
  by destruct (m h st) as [[[a|t|msg] st1] e1].
Qed.

Lemma wp_run_settled (m : M A) (Post : list entry -> State -> Prop) h st :
  wp m (fun _ => Post) (fun _ => Post) (fun _ _ => True) [] st ->
  (forall msg, settled (m h st) <> Crashed msg) ->
  Post (events (m h st)) (final_state (m h st)).
Proof.
  intros W. apply (wp_elim _ _ _ _ h) in W. unfold events, final_state, settled.
  destruct (m h st) as [[[a|t|msg] st1] e1]; cbn; try done.
  intros H. by destruct (H msg).
Qed.

End Rules.

Section Primitives.
Context (cfg : Config) (env : Env).
Implicit Types (E : thrown -> list entry -> State -> Prop) (C : list entry -> State -> Prop).

Lemma wp_get_state (Q : State -> _) E C l st : Q st l st -> wp get_state Q E C l st.
Proof. intros H h0. cbn. by rewrite app_nil_r. Qed.

Lemma wp_modify f (Q : unit -> _) E C l st : Q tt l (f st) -> wp (modify f) Q E C l st.
Proof. intros H h0. cbn. by rewrite app_nil_r. Qed.

Lemma wp_Logger_error msg (Q : unit -> _) E C l st :
  Q tt l (add_log msg st) -> wp (Logger_error msg) Q E C l st.
Proof. apply wp_modify. Qed.

Lemma wp_deref self s (Q : Study -> _) E C l st :
  heap st !! self = Some s -> Q s l st -> wp (deref self) Q E C l st.
Proof. intros Hs H h0. unfold deref. rewrite Hs. by rewrite app_nil_r. Qed.

Lemma wp_update_self self f s (Q : unit -> _) E C l st :
  heap st !! self = Some s ->
  Q tt l (set_heap (<[self := f s]> (heap st)) st) ->
  wp (update_self self f) Q E C l st.
Proof.
  intros Hs H. unfold update_self. apply wp_bind.
  eapply wp_deref; [done|]. by apply wp_modify.
Qed.

Lemma wp_claimTask stage ref (Q : Task -> _) E C l st :
  (forall t, Q t (l ++ [(EvClaim stage ref (HOk t), st)]) st) ->
  (forall msg, E (JsError ClsError msg) (l ++ [(EvClaim stage ref (HErr msg), st)]) st) ->
  wp (claimTask env stage ref) Q E C l st.
Proof.
  intros HQ HE h0. unfold claimTask.
  destruct (env_claim env (h0 ++ l) stage ref); [apply HQ | apply HE].
Qed.

Lemma wp_taskUpdate stage ref status label out err (Q : Task -> _) E C l st :
  (forall t, Q t (l ++ [(EvUpdate stage ref status label out err (HOk t), st)]) st) ->
  (forall msg, E (JsError ClsError msg)
                 (l ++ [(EvUpdate stage ref status label out err (HErr msg), st)]) st) ->
  wp (taskUpdate env stage ref status label out err) Q E C l st.
Proof.
  intros HQ HE h0. unfold taskUpdate.
  destruct (env_update env (h0 ++ l) stage ref status label out err); [apply HQ | apply HE].
Qed.

Lemma wp_getFolder ref where_ notFound (Q : string -> _) E C l st :
  (forall id ids, Q id (l ++ [(EvChildren ref where_ (HOk (id :: ids)), st)]) st) ->
  (forall reply msg, E (JsError ClsError msg) (l ++ [(EvChildren ref where_ reply, st)]) st) ->
  wp (getFolder env ref where_ notFound) Q E C l st.
Proof.
  intros HQ HE h0. unfold getFolder.
  destruct (env_children env (h0 ++ l) ref where_) as [[|id ids]|msg];
    [apply HE | apply HQ | apply HE].
Qed.

Lemma wp_download self folder filename (Q : unit -> _) E C l st :
  (forall d, Q tt (l ++ [(EvDownload folder filename (HOk tt), st)]) (set_disk d st)) ->
  (forall d msg, E (JsError ClsError msg)
                   (l ++ [(EvDownload folder filename (HErr msg), st)]) (set_disk d st)) ->
  wp (download env self folder filename) Q E C l st.
Proof.
  intros HQ HE h0. unfold download.
  destruct (env_download env (h0 ++ l) (disk st) folder filename) as [[[]|msg] d];
    [apply HQ | apply HE].
Qed.

Lemma wp_mkdirSync p (Q : unit -> _) E C l st :
  (existsb (is_file (disk st)) (Path.ancestors p ++ [p]) = true ->
   forall msg, E (JsError ClsError msg) l st) ->
  (existsb (is_file (disk st)) (Path.ancestors p ++ [p]) = false ->
   Q tt l (set_disk (foldr mkdir_missing (disk st) (Path.ancestors p ++ [p])) st)) ->
  wp (mkdirSync p) Q E C l st.
Proof.
  intros HE HQ h0. unfold mkdirSync.
  destruct (existsb _ _); rewrite app_nil_r; [by apply HE | by apply HQ].
Qed.

Lemma wp_statSync p (Q : node -> _) E C l st :
  (forall n, disk st !! p = Some n -> Q n l st) ->
  (disk st !! p = None -> forall msg, E (JsError ClsError msg) l st) ->
  wp (statSync p) Q E C l st.
Proof.
  intros HQ HE h0. unfold statSync.
  destruct (disk st !! p); rewrite app_nil_r; [by apply HQ | by apply HE].
Qed.

Lemma child_settlement_no_crash o msg : child_settlement o <> Crashed msg.
Proof.
  unfold child_settlement. destruct o as [m|code signal out err]; [done|].
  by destruct (truthy_code code || truthy_str signal).
Qed.

Lemma wp_spawn_child self s prgname script argv cwd (Q : string * string -> _) E C l st :
  heap st !! self = Some s ->
  (forall h,
     let r := env_spawn env h (disk st) prgname script argv cwd in
     let st' := set_disk r.2
                  (set_heap (<[self := set_child (Some (mkChild r.1.1)) s]> (heap st)) st) in
     let l' := l ++ [(EvSpawn prgname script argv cwd r.1.1 r.1.2, st)] in
     match child_settlement r.1.2 with
     | Resolved a => Q a l' st'
     | Rejected t => E t l' st'
     | Crashed _ => True
     end) ->
  wp (spawn_child env self prgname script argv cwd) Q E C l st.
Proof.
  intros Hs H h0. unfold spawn_child. rewrite Hs. specialize (H (h0 ++ l)). cbn zeta in H.
  destruct (child_settlement _) eqn:Hc; try done.
  by apply child_settlement_no_crash in Hc.
Qed.

Lemma wp_pipe_to_file p content (Q : unit -> _) E C l st :
  (writable (disk st) p = true -> Q tt l (set_disk (<[p := NFile content]> (disk st)) st)) ->
  (writable (disk st) p = false -> C l st) ->
  wp (pipe_to_file p content) Q E C l st.
Proof.
  intros HQ HC h0. unfold pipe_to_file.
  destruct (writable (disk st) p); rewrite app_nil_r; [by apply HQ | by apply HC].
Qed.

Lemma wp_unzip archive (Q : list ZipEntry * option string -> _) E C l st :
  (is_file (disk st) archive = true ->
   forall es failure, Q (es, failure) (l ++ [(EvUnzip archive es failure, st)]) st) ->
  (is_file (disk st) archive = false -> C l st) ->
  wp (unzip env archive) Q E C l st.
Proof.
  intros HQ HC h0. unfold unzip.
  destruct (is_file (disk st) archive); [|rewrite app_nil_r; by apply HC].
  destruct (env_unzip env (h0 ++ l) (disk st) archive) as [es failure]. by apply HQ.
Qed.

End Primitives.

(** ** Tactics *)

Ltac solve_lookup :=
  cbn [heap studies disk logs set_heap set_disk set_studies add_log];
  rewrite ?lookup_insert_eq; first [eassumption | reflexivity].

Ltac wp_simpl :=
  cbv beta;
  unfold set_heap, set_disk, set_studies, add_log,
    set_sim, set_meshing, set_step, set_child, set_result, set_pp,
    set_task_status, set_m_status, set_m_stage, set_m_output,
    set_r_status, set_r_stage, set_r_output, set_r_filename;
  cbn [heap studies disk logs
       nodeRef nodeId path sim meshing step child result pp
       task_nodeRef task_status task_runId
       m_nodeRef m_status m_stage m_stdout m_stderr m_stdour
       r_status r_stage r_stdout r_stderr r_filename
       truthy_str fst snd default fmap option_fmap option_map mbind option_bind
       String.eqb Ascii.eqb Bool.eqb negb andb orb app];
  rewrite ?insert_insert_eq, ?lookup_insert_eq.

Ltac wp_step :=
  wp_simpl;
  lazymatch goal with
  | |- wp (bind _ _) _ _ _ _ _ => apply wp_bind
  | |- wp (ret _) _ _ _ _ _ => apply wp_ret
  | |- wp (throw _) _ _ _ _ _ => apply wp_throw
  | |- wp (TypeError _) _ _ _ _ _ => apply wp_TypeError
  | |- wp (ConfigurationError _) _ _ _ _ _ => apply wp_ConfigurationError
  | |- wp (crash _) _ _ _ _ _ => apply wp_crash
  | |- wp (catch _ _) _ _ _ _ _ => apply wp_catch
  | |- wp (finally _ _) _ _ _ _ _ => apply wp_finally
  | |- wp get_state _ _ _ _ _ => apply wp_get_state
  | |- wp (modify _) _ _ _ _ _ => apply wp_modify
  | |- wp (Logger_error _) _ _ _ _ _ => apply wp_Logger_error
  | |- wp (deref _) _ _ _ _ _ => eapply wp_deref; [solve_lookup|]
  | |- wp (update_self _ _) _ _ _ _ _ => eapply wp_update_self; [solve_lookup|]
  | |- wp (claimTask _ _ _) _ _ _ _ _ => apply wp_claimTask; [intros ?t | intros ?msg]
  | |- wp (taskUpdate _ _ _ _ _ _ _) _ _ _ _ _ =>
      apply wp_taskUpdate; [intros ?u | intros ?msg]
  | |- wp (if match ?c with Some _ => _ | None => _ end then _ else _) _ _ _ _ _ =>
      let H := fresh "Hc" in destruct c eqn:H
  | |- wp (if ?c then _ else _) _ _ _ _ _ => let H := fresh "Hc" in destruct c eqn:H
  | |- wp (match ?c with Some _ => _ | None => _ end) _ _ _ _ _ =>
      let H := fresh "Hc" in destruct c eqn:H
  | |- wp (match ?c with NFile _ => _ | NDir => _ end) _ _ _ _ _ =>
      let H := fresh "Hc" in destruct c eqn:H
  | |- wp (match ?c with JsError _ _ => _ | Failure _ => _ end) _ _ _ _ _ =>
      let H := fresh "Hc" in destruct c eqn:H
  | |- wp (mkdirSync _) _ _ _ _ _ => apply wp_mkdirSync; [intros ?Hmk ?msg | intros ?Hmk]
  | |- wp (setup _) _ _ _ _ _ => unfold setup
  | |- wp (StudyCache_exists _) _ _ _ _ _ => unfold StudyCache_exists
  | |- wp (StudyCache_register _) _ _ _ _ _ => unfold StudyCache_register
  | |- wp (StudyCache_unregister _) _ _ _ _ _ => unfold StudyCache_unregister
  | |- wp (StudyCache_get _) _ _ _ _ _ => unfold StudyCache_get
  | |- wp (update_meshing _ _) _ _ _ _ _ => unfold update_meshing
  | |- wp (update_result _ _) _ _ _ _ _ => unfold update_result
  | |- wp (update_sim _ _) _ _ _ _ _ => unfold update_sim
  | |- wp (updateMeshingTask _ _ _ _ _) _ _ _ _ _ => unfold updateMeshingTask
  | |- wp (updateSimulationTask _ _ _) _ _ _ _ _ => unfold updateSimulationTask
  | |- wp (updatePostprocTask _ _ _) _ _ _ _ _ => unfold updatePostprocTask
  | |- wp (claimMeshingTask _ _) _ _ _ _ _ => unfold claimMeshingTask
  | |- wp (claimSimulationTask _ _) _ _ _ _ _ => unfold claimSimulationTask
  | |- wp (claimPostprocTask _ _) _ _ _ _ _ => unfold claimPostprocTask
  | |- wp (meshingTaskUpdate _ _ _ _ _ _) _ _ _ _ _ => unfold meshingTaskUpdate
  | |- wp (simulationTaskUpdate _ _ _ _ _ _) _ _ _ _ _ => unfold simulationTaskUpdate
  | |- wp (postprocTaskUpdate _ _ _ _ _ _) _ _ _ _ _ => unfold postprocTaskUpdate
  | |- wp (meshing_failure _ _) _ _ _ _ _ => unfold meshing_failure
  | |- wp (meshing_finally _ _) _ _ _ _ _ => unfold meshing_finally
  | |- wp (simulation_failure _ _) _ _ _ _ _ => unfold simulation_failure
  | |- wp (simulation_finally _ _) _ _ _ _ _ => unfold simulation_finally
  | |- wp (postproc_failure _ _) _ _ _ _ _ => unfold postproc_failure
  | |- wp (postproc_finally _ _) _ _ _ _ _ => unfold postproc_finally
  end.

Ltac wp_steps := repeat wp_step.

Ltac close_upward tac :=
  repeat (let a := fresh in let evs := fresh in let st := fresh in
          intros a evs st; cbv beta;
          first [ apply wp_upward | (rewrite <- ?app_assoc; tac) ]).

Ltac wp_whatever tac := apply wp_upward; close_upward tac.


(** ** Rules for the execution of programs *)

Section Execute.
Context (cfg : Config) (env : Env).
Implicit Types (E : thrown -> list entry -> State -> Prop) (C : list entry -> State -> Prop).

Lemma files_kept_refl d : files_kept d d.
Proof. by intros p. Qed.

Lemma files_kept_trans d1 d2 d3 : files_kept d1 d2 -> files_kept d2 d3 -> files_kept d1 d3.
Proof. intros H1 H2 p. by rewrite H2, H1. Qed.

Lemma wp_validate a v (Q : unit -> _) E C l st :
  (forall d', files_kept (disk st) d' -> Q tt l (set_disk d' st)) ->
  (forall cls msg d', files_kept (disk st) d' -> E (JsError cls msg) l (set_disk d' st)) ->
  wp (validate a v) Q E C l st.
Proof.
  intros HQ HE.
  assert (HQ0 : Q tt l st).
  { rewrite <- (set_disk_same st). apply HQ, files_kept_refl. }
  assert (HE0 : forall cls msg, E (JsError cls msg) l st).
  { intros cls msg. rewrite <- (set_disk_same st). apply HE, files_kept_refl. }
  unfold validate. destruct (is_dir_type (type a)); [|destruct (is_file_type (type a))].
  - wp_step. wp_step. wp_step. destruct (exists_val (disk st) v) eqn:Hex.
    + wp_step. wp_step. unfold stat_val. destruct v as [p|n]; [|wp_steps; apply HE0].
      apply wp_statSync; [intros nd Hnd|intros _ msg; apply HE0].
      destruct nd; wp_steps; [apply HE0|apply HQ0].
    + destruct (createIfMissing a); [|wp_steps; apply HE0].
      wp_step. unfold mkdir_val. destruct v as [p|n]; [|wp_steps; apply HE0].
      apply wp_mkdirSync; [intros _ msg; apply HE0|intros Hmk].
      assert (Hk : files_kept (disk st) (foldr mkdir_missing (disk st) (Path.ancestors p ++ [p]))).
      { intros q. apply mkdir_chain_files. }
      wp_steps; [|by apply HE].
      unfold stat_val.
      apply wp_statSync; [intros nd Hnd|intros _ msg; by apply HE].
      destruct nd; wp_steps; [by apply HE|by apply HQ].
  - wp_step. wp_step. wp_step. destruct (exists_val (disk st) v) eqn:Hex; [|wp_steps; apply HE0].
    wp_step. wp_step. unfold stat_val. destruct v as [p|n]; [|wp_steps; apply HE0].
    apply wp_statSync; [intros nd Hnd|intros _ msg; apply HE0].
    destruct nd; wp_steps; [apply HQ0|apply HE0].
  - wp_steps. apply HQ0.
Qed.

Lemma wp_forEach_args scriptDir studyDir args :
  forall acc (Q : list argval -> _) E C l st,
    (forall d', files_kept (disk st) d' ->
                Q (acc ++ argv_of scriptDir studyDir args) l (set_disk d' st)) ->
    (forall cls msg d', files_kept (disk st) d' -> E (JsError cls msg) l (set_disk d' st)) ->
    wp (forEach_args scriptDir studyDir acc args) Q E C l st.
Proof.
  induction args as [|a args IH]; intros acc Q E C l st HQ HE; cbn [forEach_args].
  - apply wp_ret. rewrite <- (set_disk_same st).
    unfold argv_of in HQ. cbn in HQ. rewrite app_nil_r in HQ. apply HQ, files_kept_refl.
  - apply wp_bind. unfold push_arg.
    assert (Htok : forall acc', acc' = acc ++ tokens scriptDir studyDir a ->
      forall st', (exists d', files_kept (disk st) d' /\ st' = set_disk d' st) ->
      wp (forEach_args scriptDir studyDir acc' args) Q E C l st').
    { intros acc' -> st' (d' & Hd' & ->). apply IH.
      - intros d'' Hd''. cbn [set_disk studies heap disk logs] in *.
        unfold argv_of in *. cbn [map concat] in HQ. rewrite app_assoc in HQ.
        apply (HQ d''). by eapply files_kept_trans.
      - intros cls msg d'' Hd''. apply (HE cls msg d''). by eapply files_kept_trans. }
    destruct (val a) as [v|] eqn:Hv.
    + apply wp_bind. apply wp_validate.
      * intros d' Hd'. wp_step. apply Htok; [|by exists d'].
        unfold tokens. rewrite Hv. destruct (opt a); by rewrite <- ?app_assoc.
      * done.
    + apply wp_ret. apply Htok; [|exists (disk st); split; [apply files_kept_refl|by rewrite set_disk_same]].
      unfold tokens. rewrite Hv. destruct (opt a); by rewrite ?app_nil_r.
Qed.

(** [execute] either fails before it spawns anything, or spawns the
    command of the program with its arguments.  Before the spawn only
    directories may have been created. *)
Lemma wp_execute self s prgname args workDir (Q : string * string -> _) E C l st :
  heap st !! self = Some s ->
  (forall cls msg d', files_kept (disk st) d' -> E (JsError cls msg) l (set_disk d' st)) ->
  (forall h d1, files_kept (disk st) d1 ->
     let script := (command_of cfg prgname).1 in
     let argv := (command_of cfg prgname).2
                 ++ argv_of (program_scriptDir cfg prgname) (path s) args in
     let cwd := cwd_of cfg s prgname workDir in
     let r := env_spawn env h d1 prgname script argv cwd in
     let ev := (EvSpawn prgname script argv cwd r.1.1 r.1.2, set_disk d1 st) in
     let st2 := mkState (studies st) (<[self := set_child (Some (mkChild r.1.1)) s]> (heap st))
                  r.2 (logs st) in
     match child_settlement r.1.2 with
     | Resolved a => Q a (l ++ [ev]) st2
     | Rejected t => E t (l ++ [ev]) st2
     | Crashed _ => True
     end) ->
  wp (execute cfg env self prgname args workDir) Q E C l st.
Proof.
  intros Hs HE HQ.
  assert (HE0 : forall cls msg, E (JsError cls msg) l st).
  { intros cls msg. rewrite <- (set_disk_same st). apply HE, files_kept_refl. }
  unfold execute. do 5 wp_step.
  destruct (bool_decide _ && negb _); [wp_steps; apply HE0|].
  wp_step. unfold command_of in HQ.
  destruct (Str.endsWith (program_script cfg prgname) ".py");
    (apply wp_bind; apply wp_forEach_args; [intros d1 Hd1|done]);
    (eapply wp_spawn_child; [exact Hs|]); intros h; apply (HQ h d1 Hd1).
Qed.

Lemma wp_cleanup self s (Q : unit -> _) E C l st :
  heap st !! self = Some s ->
  (path s = EmptyString \/ disk st !! path s = None -> Q tt l st) ->
  (forall cls msg d', files_kept (disk st) d' -> E (JsError cls msg) l (set_disk d' st)) ->
  (forall h d1, files_kept (disk st) d1 ->
     let script := (command_of cfg "rm").1 in
     let argv := (command_of cfg "rm").2
                 ++ [VStr "-rf";
                     VStr (interpolatePath (program_scriptDir cfg "rm") (path s) (path s))] in
     let cwd := cwd_of cfg s "rm" (Some (studiesDir cfg)) in
     let r := env_spawn env h d1 "rm" script argv cwd in
     let ev := (EvSpawn "rm" script argv cwd r.1.1 r.1.2, set_disk d1 st) in
     let st2 := mkState (studies st) (<[self := set_child (Some (mkChild r.1.1)) s]> (heap st))
                  r.2 (logs st) in
     match child_settlement r.1.2 with
     | Resolved a => Q tt (l ++ [ev]) st2
     | Rejected t => E t (l ++ [ev]) st2
     | Crashed _ => True
     end) ->
  wp (cleanup cfg env self) Q E C l st.
Proof.
  intros Hs HQ0 HE HQ. unfold cleanup. do 4 wp_step.
  destruct (String.eqb_spec (path s) EmptyString) as [Hp|Hp]; cbn [orb].
  { wp_step. apply HQ0. by left. }
  unfold existsSync. destruct (disk st !! path s) eqn:Hd; cbn [negb]; [|wp_step; apply HQ0; by right].
  apply wp_bind. apply wp_execute with (s := s); [done|done|].
  intros h d1 Hd1. specialize (HQ h d1 Hd1). cbn zeta in *.
  change (argv_of (program_scriptDir cfg "rm") (path s) [arg_opt "-rf"; arg_val (path s)])
    with [VStr "-rf"; VStr (interpolatePath (program_scriptDir cfg "rm") (path s) (path s))].
  destruct (child_settlement _); [|done|done]. by apply wp_ret.
Qed.

Lemma wp_setup_missing self s (Q : unit -> _) E C l st :
  heap st !! self = Some s ->
  disk st !! path s = None ->
  (existsb (is_file (disk st)) (Path.ancestors (path s) ++ [path s]) = true ->
   forall msg, E (JsError ClsError msg) l st) ->
  (existsb (is_file (disk st)) (Path.ancestors (path s) ++ [path s]) = false ->
   Q tt l (set_disk (foldr mkdir_missing (disk st) (Path.ancestors (path s) ++ [path s])) st)) ->
  wp (setup self) Q E C l st.
Proof.
  intros Hs Hp HE HQ. unfold setup. do 4 wp_step. unfold existsSync. rewrite Hp.
  by apply wp_mkdirSync.
Qed.

End Execute.

Ltac report_simpl H :=
  cbn [first_report population_label find is_report fst snd Stage_eqb andb
       String.eqb Ascii.eqb Bool.eqb app] in H.

(** The step was not reported. *)
Ltac report_absent :=
  let e := fresh "e" in let He := fresh "He" in
  intros e He; report_simpl He; discriminate.

(** The step was reported from a state in which the hypotheses give
    what is claimed. *)
Ltac report_found :=
  let e := fresh "e" in let He := fresh "He" in
  intros e He; report_simpl He; injection He as <-; cbn [snd disk]; eauto.


(** ** Checks of the string and path functions *)

Example basename_nested : Path.basename "a/b/c.txt" = "c.txt".
Proof. reflexivity. Qed.
Example basename_trailing : Path.basename "a/b//" = "b".
Proof. reflexivity. Qed.
Example basename_slashes : Path.basename "///" = EmptyString.
Proof. reflexivity. Qed.
Example dirname_script : Path.dirname "/opt/airetd/bin/preproc.py" = "/opt/airetd/bin".
Proof. reflexivity. Qed.
Example dirname_double : Path.dirname "a//b" = "a/".
Proof. reflexivity. Qed.
Example dirname_root : Path.dirname "/a" = "/".
Proof. reflexivity. Qed.
Example ancestors_abs : Path.ancestors "/srv/studies/x" = ["/srv"; "/srv/studies"].
Proof. reflexivity. Qed.
Example replace_once : Str.replace "{studyDir}" "/s/x" "{studyDir}/a/{studyDir}" = "/s/x/a/{studyDir}".
Proof. reflexivity. Qed.
Example of_Z_neg : Str.of_Z (-127) = "-127".
Proof. reflexivity. Qed.
Example endsWith_py : Str.endsWith "run.py" ".py" = true /\ Str.endsWith "py" ".py" = false.
Proof. split; reflexivity. Qed.

(** ** The active-study registry *)

Section Registry.
Context (cfg : Config) (env : Env).

(** C3: starting any stage on a study whose reference is in the
    registry rejects with the error "Study already under processing";
    nothing is emitted and the state is left as it is, so the claim
    endpoint of the repository is not called. *)
Theorem start_rejects_busy_study stage self simNodeRef s a h st :
  heap st !! self = Some s ->
  studies st !! nodeRef s = Some a ->
  start cfg env stage self simNodeRef h st = (Rejected already_processing, st, []).
Proof.
  intros Hs Hr.
  destruct stage; unfold start, startMeshing, startSimulation, postproc,
    StudyCache_exists, bind, deref, get_state, ret; rewrite Hs; cbn; by rewrite Hr.
Qed.

End Registry.

Lemma start_rejects_busy_study_witness :
  heap ex_busy !! 0 = Some ex_study
  /\ studies ex_busy !! nodeRef ex_study = Some 1
  /\ start ex_cfg (ex_env BG_TASK_STATUS_RUNNING EmptyString) Postproc 0 EmptyString [] ex_busy
     = (Rejected already_processing, ex_busy, []).
Proof.
  split; [reflexivity|]. split; [reflexivity|].
  apply (start_rejects_busy_study ex_cfg (ex_env BG_TASK_STATUS_RUNNING EmptyString)
           Postproc 0 EmptyString ex_study 1 [] ex_busy); reflexivity.
Defined.

(** ** A refused claim *)

Section Refused.
Context (cfg : Config) (env : Env).

(** C4: in a run of any stage whose claim call returns a status other
    than RUNNING no program is spawned ([rm], [7z] and the programs of
    the stage all go through [spawn_child]), and the study is never in
    the registry. *)
Theorem refused_claim_spawns_nothing stage self simNodeRef s h st :
  heap st !! self = Some s ->
  let r := start cfg env stage self simNodeRef h st in
  refused (events r) ->
  never_spawned_nor_registered (nodeRef s) (events r) (final_state r).
Proof.
  intros Hs r. subst r.
  apply (wp_run _ (fun l st' => refused l -> never_spawned_nor_registered (nodeRef s) l st')).
  assert (Hrun : forall stage ref t st0 evs st',
    String.eqb (task_status t) BG_TASK_STATUS_RUNNING = true ->
    refused ([(EvClaim stage ref (HOk t), st0)] ++ evs) ->
    never_spawned_nor_registered (nodeRef s) ([(EvClaim stage ref (HOk t), st0)] ++ evs) st').
  { intros stg ref t st0 evs st' Ht (t' & H & Hne). cbn in H. injection H as ->.
    by apply String.eqb_eq in Ht. }
  destruct stage; unfold start, startMeshing, startSimulation, postproc,
    meshing_steps, simulation_steps, postproc_steps; wp_steps;
    first [ wp_whatever ltac:(by apply Hrun)
          | by (intros (t0 & H & _); discriminate)
          | (intros _; (split; [repeat constructor|]); cbn; by rewrite ?lookup_delete_eq) ].
Qed.

End Refused.

Lemma refused_claim_spawns_nothing_witness :
  never_spawned_nor_registered ex_ref
    (events (start ex_cfg (ex_env BG_TASK_STATUS_PENDING EmptyString) Simulation 0 ex_simref
               [] ex_state))
    (final_state (start ex_cfg (ex_env BG_TASK_STATUS_PENDING EmptyString) Simulation 0
                    ex_simref [] ex_state)).
Proof.
  apply (refused_claim_spawns_nothing ex_cfg (ex_env BG_TASK_STATUS_PENDING EmptyString)
           Simulation 0 ex_simref ex_study [] ex_state); [reflexivity|].
  exists (ex_task ex_simref BG_TASK_STATUS_PENDING). split; [reflexivity | discriminate].
Defined.

(** ** Abort *)

Section Abort.
Context (env : Env).

(** For the simulation and the post-processing stage, aborting an idle
    study sends one update FAILED with "user aborted" and changes
    nothing. *)
Lemma abort_idle_simulation_postproc stage self simNodeRef this h st :
  stage <> Meshing ->
  idle self this st ->
  let r := abort env stage self simNodeRef h st in
  one_failed_update stage (if Stage_eqb stage Simulation then simNodeRef else nodeRef this)
    user_aborted st (events r)
  /\ final_state r = st.
Proof.
  intros Hstage [Hs Hr] r. subst r.
  apply (wp_run _ (fun l st' => one_failed_update stage _ user_aborted st l /\ st' = st)).
  destruct stage; [done| |]; unfold abort, abortSimulation, abortPostproc;
    do 6 wp_step; rewrite Hr; wp_steps; (split; [|done]); by eexists _, _, _.
Qed.

(** C7: aborting the meshing of an idle study sends one update FAILED
    and signals no process, but the update carries no standard error at
    all: [abortMeshing] calls [meshingTaskUpdate] with two arguments. *)
Theorem abortMeshing_idle_omits_reason self this h st :
  idle self this st ->
  let r := abort env Meshing self EmptyString h st in
  one_failed_update Meshing (nodeRef this) None st (events r)
  /\ ~ one_failed_update Meshing (nodeRef this) user_aborted st (events r)
  /\ final_state r = st.
Proof.
  intros [Hs Hr] r. subst r.
  apply (wp_run _ (fun l st' => one_failed_update Meshing _ None st l
                      /\ ~ one_failed_update Meshing _ user_aborted st l /\ st' = st)).
  unfold abort, abortMeshing. do 6 wp_step. rewrite Hr.
  wp_steps; (split; [by eexists _, _, _|]); (split; [|done]);
    intros (label & out & reply & H); discriminate.
Qed.

(** C10: when the study runs its simulation step under another
    simulation reference than the one of the command, [abortSimulation]
    sends one update FAILED with "user aborted" for the reference of the
    command; no process is signalled, and the worker, the running study
    included, is left as it is. *)
Theorem abortSimulation_other_reference self simNodeRef this a s t h st :
  heap st !! self = Some this ->
  studies st !! nodeRef this = Some a ->
  heap st !! a = Some s ->
  step s = Some STUDY_STEP_SIMULATION ->
  sim s = Some t ->
  task_nodeRef t <> simNodeRef ->
  let r := abortSimulation env self simNodeRef h st in
  one_failed_update Simulation simNodeRef user_aborted st (events r)
  /\ Forall (fun e => is_kill e = false) (events r)
  /\ final_state r = st.
Proof.
  intros Hs Hr Ha Hstep Hsim Hne r. subst r.
  apply (wp_run _ (fun l st' => one_failed_update Simulation simNodeRef user_aborted st l
                      /\ Forall (fun e => is_kill e = false) l /\ st' = st)).
  unfold abortSimulation. do 6 wp_step. rewrite Hr. do 3 wp_step. rewrite Hstep.
  rewrite bool_decide_eq_true_2 by done. wp_simpl. rewrite Hsim.
  apply String.eqb_neq in Hne. rewrite Hne.
  wp_steps; (split; [by eexists _, _, _|]); split; [by repeat constructor|done | by repeat constructor|done].
Qed.

End Abort.

Lemma abortMeshing_idle_omits_reason_witness :
  idle 0 ex_study ex_state
  /\ one_failed_update Meshing ex_ref None ex_state
       (events (abort (ex_env BG_TASK_STATUS_RUNNING EmptyString) Meshing 0 EmptyString
                  [] ex_state)).
Proof.
  split; [by split|].
  apply (abortMeshing_idle_omits_reason (ex_env BG_TASK_STATUS_RUNNING EmptyString)
           0 ex_study [] ex_state). by split.
Defined.

Lemma abortSimulation_other_reference_witness :
  one_failed_update Simulation "workspace://SpacesStore/77" user_aborted ex_busy
    (events (abortSimulation (ex_env BG_TASK_STATUS_RUNNING EmptyString) 0
               "workspace://SpacesStore/77" [] ex_busy)).
Proof.
  apply (abortSimulation_other_reference (ex_env BG_TASK_STATUS_RUNNING EmptyString) 0
           "workspace://SpacesStore/77" ex_study 1 ex_running
           (ex_task ex_simref BG_TASK_STATUS_RUNNING) [] ex_busy);
    try reflexivity. discriminate.
Defined.

(** ** The final task-update *)

Section FinalUpdate.
Context (cfg : Config) (env : Env).

(** C1: the meshing pipeline sends its final task-update also when the
    claim was not acquired.  [self.meshing] is assigned before the
    status of the claim is checked, and the failure handler assigns it
    again, so the test [if (self.meshing)] of the finaliser always
    passes: a refused claim is followed by an update FAILED for a task
    this worker does not own. *)
Theorem startMeshing_reports_unclaimed self s h st :
  heap st !! self = Some s ->
  let r := startMeshing cfg env self h st in
  refused (events r) ->
  ends_with_failed_update Meshing (nodeRef s) (events r).
Proof.
  intros Hs r. subst r.
  apply (wp_run _ (fun l _ => refused l -> ends_with_failed_update Meshing (nodeRef s) l)).
  assert (Hrun : forall stage ref t st0 evs,
    String.eqb (task_status t) BG_TASK_STATUS_RUNNING = true ->
    refused ([(EvClaim stage ref (HOk t), st0)] ++ evs) ->
    ends_with_failed_update Meshing (nodeRef s) ([(EvClaim stage ref (HOk t), st0)] ++ evs)).
  { intros stg ref t st0 evs Ht (t' & H & Hne). cbn in H. injection H as ->.
    by apply String.eqb_eq in Ht. }
  unfold startMeshing, meshing_steps; wp_steps;
    first [ wp_whatever ltac:(by apply Hrun)
          | by (intros (t0 & H & _); discriminate)
          | (intros _; by eexists _, _, _, _, _) ].
Qed.

(** The simulation and the post-processing pipeline, run on a study as
    the constructor leaves it, send no update at all after a refused
    claim. *)
Lemma refused_claim_sends_no_update stage self simNodeRef s h st :
  stage <> Meshing ->
  heap st !! self = Some s ->
  sim s = None -> pp s = None ->
  let r := start cfg env stage self simNodeRef h st in
  refused (events r) ->
  Forall (fun e => is_update e = false) (events r).
Proof.
  intros Hstage Hs Hsim Hpp r. subst r.
  apply (wp_run _ (fun l _ => refused l -> Forall (fun e => is_update e = false) l)).
  assert (Hrun : forall stage ref t st0 evs,
    String.eqb (task_status t) BG_TASK_STATUS_RUNNING = true ->
    refused ([(EvClaim stage ref (HOk t), st0)] ++ evs) ->
    Forall (fun e => is_update e = false) ([(EvClaim stage ref (HOk t), st0)] ++ evs)).
  { intros stg ref t st0 evs Ht (t' & H & Hne). cbn in H. injection H as ->.
    by apply String.eqb_eq in Ht. }
  destruct stage; [done| |]; unfold start, startSimulation, postproc,
    simulation_steps, postproc_steps; wp_steps;
    rewrite ?Hsim, ?Hpp; wp_steps;
    first [ wp_whatever ltac:(by apply Hrun)
          | by (intros (t0 & H & _); discriminate)
          | (intros _; by repeat constructor) ].
Qed.

End FinalUpdate.

Lemma startMeshing_reports_unclaimed_witness :
  ends_with_failed_update Meshing ex_ref
    (events (startMeshing ex_cfg (ex_env BG_TASK_STATUS_PENDING EmptyString) 0 [] ex_state)).
Proof.
  apply (startMeshing_reports_unclaimed ex_cfg (ex_env BG_TASK_STATUS_PENDING EmptyString)
           0 ex_study [] ex_state); [reflexivity|].
  exists (ex_task ex_ref BG_TASK_STATUS_PENDING). split; [reflexivity | discriminate].
Defined.

(** The run of the witness: the claim is answered PENDING, and the
    worker answers with an update FAILED that carries the message of
    its own refusal. *)
Example startMeshing_pending_run :
  map fst (events (startMeshing ex_cfg (ex_env BG_TASK_STATUS_PENDING EmptyString) 0
                     [] ex_state))
  = [EvClaim Meshing ex_ref (HOk (ex_task ex_ref BG_TASK_STATUS_PENDING));
     EvUpdate Meshing ex_ref BG_TASK_STATUS_FAILED None None
       (Some "Invalid meshing status: PENDING")
       (HOk (ex_task ex_ref BG_TASK_STATUS_FAILED))].
Proof. reflexivity. Qed.

(** ** Chunked upload *)

Section Upload.
Context (env : Env).

Lemma wp_put_chunk_accepted uploadId chunk b (Q : unit -> _) E C l st :
  accepting env ->
  Q tt (l ++ [(EvPut uploadId chunk b (HOk tt), st)]) st ->
  wp (put_chunk env uploadId chunk b) Q E C l st.
Proof.
  intros [_ Hacc] HQ h0. unfold put_chunk. by rewrite Hacc.
Qed.

Lemma wp_createDocument_accepted studyNodeId name relativePath type_ (Q : string -> _) E C l st :
  accepting env ->
  (forall id reply,
     Q id (l ++ [(EvCreateDocument studyNodeId (or_default name "results.7z")
                    (or_default type_ "cm:content")
                    (or_default relativePath "cfd_simulations_data_root") reply, st)]) st) ->
  wp (createDocument env studyNodeId name relativePath type_) Q E C l st.
Proof.
  intros [Hacc _] HQ h0. unfold createDocument.
  destruct (Hacc (h0 ++ l) studyNodeId (or_default name "results.7z")
              (or_default type_ "cm:content")
              (or_default relativePath "cfd_simulations_data_root")) as [id Hid].
  rewrite Hid. apply HQ.
Qed.

Lemma put_requests_put uploadId chunk b reply st evs :
  put_requests ((EvPut uploadId chunk b reply, st) :: evs)
  = (blob_size chunk, b) :: put_requests evs.
Proof. reflexivity. Qed.

Lemma wp_uploadChunk file numChunks uploadId n :
  accepting env ->
  forall fuel pos counter l st,
    (n < fuel)%nat ->
    N.to_nat numChunks = (n + N.to_nat counter)%nat ->
    wp (uploadChunk env fuel file numChunks uploadId pos counter)
       (fun _ l' st' => st' = st /\ exists evs, l' = l ++ evs
          /\ put_requests evs = chunks_sent n (blob_size file) pos)
       (fun _ _ _ => False) (fun _ _ => False) l st.
Proof.
  intros Hacc. induction n as [|n IH]; intros fuel pos counter l st Hfuel Hn;
    (destruct fuel as [|fuel]; [lia|]); cbn [uploadChunk]; apply wp_bind;
    apply wp_put_chunk_accepted; try done.
  - replace (numChunks <=? counter)%N with true by (symmetry; apply N.leb_le; lia).
    apply wp_ret. split; [done|]. eexists; split; [done|]. reflexivity.
  - replace (numChunks <=? counter)%N with false by (symmetry; apply N.leb_gt; lia).
    eapply wp_mono; [| | |apply (IH fuel _ (counter + 1)%N); lia]; try done.
    intros _ l' st' (-> & evs & -> & Hevs). split; [done|].
    eexists (_ :: evs). split; [by rewrite <- app_assoc|].
    rewrite put_requests_put, Hevs. reflexivity.
Qed.

Lemma length_chunks_sent n fileSize pos : length (chunks_sent n fileSize pos) = S n.
Proof. revert pos. induction n as [|n IH]; intros pos; cbn; [done|]. by rewrite IH. Qed.

Lemma last_chunks_sent n fileSize pos :
  exists size, last (chunks_sent n fileSize pos) = Some (size, true).
Proof.
  revert pos. induction n as [|n IH]; intros pos; cbn [chunks_sent]; [by eexists|].
  destruct (IH (pos + N.min CHUNK_SIZE (fileSize - pos))%N) as [size Hsize].
  exists size. rewrite last_cons, Hsize. done.
Qed.

(** The PUT requests of an upload that the repository accepts. *)
Lemma upload_put_requests studyNodeId name filename relativePath type_ file h st :
  accepting env ->
  disk st !! filename = Some (NFile file) ->
  put_requests (events (upload env studyNodeId name (Some filename) relativePath type_ h st))
  = chunks_sent (N.to_nat (numChunks_of (blob_size file))) (blob_size file) 0.
Proof.
  intros Hacc Hfile.
  apply (wp_run _ (fun l _ => put_requests l = chunks_sent _ (blob_size file) 0)).
  unfold upload. do 2 wp_step. rewrite Hfile. apply wp_bind.
  unfold handled_again. apply wp_catch.
  apply wp_createDocument_accepted; [done|]. intros id reply.
  eapply wp_mono;
    [| | |apply (wp_uploadChunk file (numChunks_of (blob_size file)) id
                   (N.to_nat (numChunks_of (blob_size file))) Hacc); [lia|cbn; lia]];
    [| done | done].
  intros _ l' st' (-> & evs & -> & Hevs). cbn. done.
Qed.

(** C5: an upload that the repository accepts sends one chunk more than
    [numChunks]: the loop flags a chunk once [counter >= numChunks],
    and [counter] counts the chunks already sent.  The flagged chunk is
    read at the end of the file.  For a file that is not empty that is
    one request more than the specification has. *)
Theorem upload_sends_one_more_chunk studyNodeId name filename relativePath type_ file h st :
  accepting env ->
  disk st !! filename = Some (NFile file) ->
  (0 < blob_size file)%N ->
  let puts := put_requests
                (events (upload env studyNodeId name (Some filename) relativePath type_ h st)) in
  N.of_nat (length puts) = (expected_chunks (blob_size file) + 1)%N
  /\ exists size, last puts = Some (size, true).
Proof.
  intros Hacc Hfile Hpos puts. subst puts.
  rewrite (upload_put_requests _ _ _ _ _ file) by done.
  split; [|apply last_chunks_sent].
  rewrite length_chunks_sent. unfold expected_chunks, numChunks_of.
  assert (HCS : (0 < CHUNK_SIZE)%N) by done.
  set (sz := blob_size file) in *.
  pose proof (N.div_mod sz CHUNK_SIZE ltac:(lia)) as Hdm.
  pose proof (N.mod_lt sz CHUNK_SIZE ltac:(lia)) as Hlt.
  set (q := (sz / CHUNK_SIZE)%N) in *. set (r := (sz mod CHUNK_SIZE)%N) in *.
  clearbody q r sz. change CHUNK_SIZE with 8388608%N in *.
  destruct (N.eqb_spec r 0) as [Hz|Hz]; cbn [negb].
  - rewrite <- (N.div_unique (sz + 8388608 - 1) 8388608 q (8388608 - 1)) by lia. lia.
  - rewrite <- (N.div_unique (sz + 8388608 - 1) 8388608 (q + 1) (r - 1)) by lia. lia.
Qed.

End Upload.

Lemma ex_env_accepting claim_status err : accepting (ex_env claim_status err).
Proof. split; intros; [by eexists|done]. Qed.

Lemma upload_sends_one_more_chunk_witness :
  let puts := put_requests
                (events (upload (ex_env BG_TASK_STATUS_RUNNING EmptyString) "e72baac6"
                           "test-upload.7z" (Some ex_archive) None None [] ex_with_archive)) in
  N.of_nat (length puts) = (expected_chunks 16777216 + 1)%N
  /\ exists size, last puts = Some (size, true).
Proof.
  apply (upload_sends_one_more_chunk (ex_env BG_TASK_STATUS_RUNNING EmptyString) "e72baac6"
           "test-upload.7z" ex_archive None None (ex_blob 16777216) [] ex_with_archive).
  - apply ex_env_accepting.
  - reflexivity.
  - reflexivity.
Defined.

(** The requests for a file of 16 777 216 bytes: three, the third one
    with an empty body and the flag. *)
Example upload_16MiB :
  put_requests
    (events (upload (ex_env BG_TASK_STATUS_RUNNING EmptyString) "e72baac6"
               "test-upload.7z" (Some ex_archive) None None [] ex_with_archive))
  = [(8388608%N, false); (8388608%N, false); (0%N, true)]
  /\ expected_chunks 16777216 = 2%N.
Proof. split; vm_compute; reflexivity. Qed.

(** A file smaller than a chunk takes two requests. *)
Example upload_small_file :
  chunks_sent (N.to_nat (numChunks_of 1000)) 1000 0 = [(1000%N, false); (0%N, true)]
  /\ expected_chunks 1000 = 1%N.
Proof. split; vm_compute; reflexivity. Qed.

(** ** Extraction *)

Section Extract.
Context (env : Env).

Lemma wp_on_entries self s es :
  forall l st, heap st !! self = Some s ->
    wp (on_entries self es)
       (fun _ l' st' => l' = l /\ exists d', st' = set_disk d' st /\ flattened s es (disk st) d')
       (fun _ _ _ => False) (fun _ _ => True) l st.
Proof.
  induction es as [|e es IH]; intros l st Hs; cbn [on_entries].
  - apply wp_ret. split; [done|]. exists (disk st). split; [by destruct st|]. intros p. reflexivity.
  - apply wp_bind. unfold on_entry. wp_step. wp_step.
    destruct (entry_type e) eqn:Hty.
    + wp_step. eapply wp_mono; [| | |apply (IH l st Hs)]; try done.
      intros _ l' st' (-> & d' & -> & Hd'). split; [done|]. exists d'. split; [done|].
      intros p. rewrite (Hd' p). cbn [last_writer]. unfold is_file_entry. rewrite Hty.
      by destruct (last_writer s p es).
    + apply wp_pipe_to_file; [intros Hw|done].
      eapply wp_mono; [| | |apply (IH l (set_disk _ st)); exact Hs]; try done.
      intros _ l' st' (-> & d' & -> & Hd'). split; [done|]. exists d'. split; [done|].
      intros p. rewrite (Hd' p). cbn [last_writer disk set_disk].
      destruct (last_writer s p es); [done|].
      unfold is_file_entry, flat_target. rewrite Hty. cbn [andb].
      destruct (String.eqb_spec (path s ++ "/" ++ Path.basename (entry_path e)) p) as [->|Hne].
      * by rewrite lookup_insert_eq.
      * by rewrite lookup_insert_ne.
Qed.

(** C9: when the extraction does not crash the worker, the path
    [<workspace>/basename(<entryPath>)] of every file entry holds a
    file, whose content is that of the last file entry of the archive
    written to that path; every other path is as it was, so directory
    entries leave nothing on the disk.  A file entry that no later file
    entry shares its basename with is found with its own content. *)
Theorem extract_flattens self s archive h st :
  heap st !! self = Some s ->
  let r := extract env self archive h st in
  (forall msg, settled r <> Crashed msg) ->
  exists es failure,
    events r = [(EvUnzip archive es failure, st)]
    /\ flattened s es (disk st) (disk (final_state r))
    /\ forall e, e ∈ es -> is_file_entry e = true ->
         last_writer s (flat_target s e) es = Some e ->
         disk (final_state r) !! flat_target s e = Some (NFile (entry_content e)).
Proof.
  intros Hs r Hr. subst r.
  apply (wp_run_settled _ (fun l st' => exists es failure,
    l = [(EvUnzip archive es failure, st)]
    /\ flattened s es (disk st) (disk st')
    /\ forall e, e ∈ es -> is_file_entry e = true ->
         last_writer s (flat_target s e) es = Some e ->
         disk st' !! flat_target s e = Some (NFile (entry_content e)))); [|done].
  unfold extract. apply wp_bind. apply wp_unzip; [intros Harch es failure|done].
  apply wp_bind. cbn [fst snd].
  eapply wp_mono; [| | |apply (wp_on_entries self s es _ st Hs)]; try done.
  intros _ l' st' (-> & d' & -> & Hd').
  assert (Hpost : forall st'', disk st'' = d' -> exists es0 failure0,
    [] ++ [(EvUnzip archive es failure, st)] = [(EvUnzip archive es0 failure0, st)]
    /\ flattened s es0 (disk st) (disk st'')
    /\ forall e, e ∈ es0 -> is_file_entry e = true ->
         last_writer s (flat_target s e) es0 = Some e ->
         disk st'' !! flat_target s e = Some (NFile (entry_content e))).
  { intros st'' ->. exists es, failure. split; [done|]. split; [done|].
    intros e _ _ He. by rewrite (Hd' (flat_target s e)), He. }
  destruct failure as [msg|]; wp_steps; by apply Hpost.
Qed.

End Extract.

Lemma extract_flattens_witness :
  exists es failure,
    events (extract (ex_env_zip ex_colliding) 0 ex_zip [] ex_with_zip)
    = [(EvUnzip ex_zip es failure, ex_with_zip)]
    /\ flattened ex_study es (disk ex_with_zip)
         (disk (final_state (extract (ex_env_zip ex_colliding) 0 ex_zip [] ex_with_zip))).
Proof.
  destruct (extract_flattens (ex_env_zip ex_colliding) 0 ex_study ex_zip [] ex_with_zip)
    as (es & failure & Hev & Hflat & _); [reflexivity | discriminate |].
  by exists es, failure.
Defined.

(** The specification has every file entry found under its basename
    with its own content.  Of two file entries of the same basename the
    first one is not. *)
Lemma extract_collision :
  let r := extract (ex_env_zip ex_colliding) 0 ex_zip [] ex_with_zip in
  let e := mkEntry "mesh/params.txt" File (ex_blob 1) in
  settled r = Resolved tt
  /\ e ∈ ex_colliding
  /\ disk (final_state r) !! flat_target ex_study e <> Some (NFile (entry_content e)).
Proof.
  split; [reflexivity|]. split; [by repeat constructor|].
  vm_compute. discriminate.
Qed.


(** ** The workspace at the start of a stage *)

Section Workspace.
Context (cfg : Config) (env : Env).
Implicit Types (E : thrown -> list entry -> State -> Prop) (C : list entry -> State -> Prop).

Lemma rm_leaves_nothing h d1 script pre cwd target :
  rm_faithful env ->
  child_ok (env_spawn env h d1 "rm" script (pre ++ [VStr "-rf"; VStr target]) cwd).1.2 = true ->
  workspace_gone (env_spawn env h d1 "rm" script (pre ++ [VStr "-rf"; VStr target]) cwd).2 target.
Proof.
  intros Hrm Hok. rewrite (Hrm h d1 script pre target cwd Hok).
  split; [apply rm_rf_target|]. intros q Hq. by apply rm_rf_under.
Qed.

Lemma mkdir_after_gone d p :
  workspace_gone d p ->
  existsb (is_file d) (Path.ancestors p ++ [p]) = false ->
  empty_dir (foldr mkdir_missing d (Path.ancestors p ++ [p])) p.
Proof.
  intros [Hp Hq] Hex. split.
  - apply mkdir_chain_dir; [done|]. apply elem_of_app. right. by apply list_elem_of_singleton.
  - intros q Hu. rewrite mkdir_chain_other by by apply under_not_in_chain. by apply Hq.
Qed.

Lemma meshing_workspace self s h st :
  heap st !! self = Some s ->
  rm_faithful env ->
  path s <> EmptyString ->
  no_placeholder (path s) ->
  no_orphans (disk st) (path s) ->
  forall e,
    first_report Meshing (population_label Meshing) (events (startMeshing cfg env self h st))
    = Some e ->
    empty_dir (disk (snd e)) (path s).
Proof.
  intros Hs Hrm Hne Hph Horph.
  apply (wp_run _ (fun l _ => forall e,
    first_report Meshing (population_label Meshing) l = Some e ->
    empty_dir (disk (snd e)) (path s))).
  assert (Hafter : forall d, workspace_gone d (path s) ->
    existsb (is_file d) (Path.ancestors (path s) ++ [path s]) = false ->
    empty_dir (foldr mkdir_missing d (Path.ancestors (path s) ++ [path s])) (path s))
    by (intros; by apply mkdir_after_gone).
  unfold startMeshing, meshing_steps. wp_steps; try report_absent.
  eapply wp_cleanup; [solve_lookup| | |]; cbn [path disk].
  - intros [Hp|Hp]; [done|].
    assert (Hgone : workspace_gone (disk st) (path s)) by (split; [done|by apply Horph]).
    wp_step. eapply wp_setup_missing; [solve_lookup|done| |]; [intros Hmk msg|intros Hmk];
      wp_steps; first [ report_absent | report_found | wp_whatever ltac:(report_found) ].
  - intros cls msg d' Hd'. wp_steps; report_absent.
  - intros h1 d1 Hd1. cbn zeta. rewrite (interpolatePath_id _ _ _ Hph).
    destruct (child_settlement _) as [a|t'|] eqn:Hset; [|wp_steps; report_absent|done].
    apply child_settlement_Resolved in Hset as [Hok _].
    pose proof (rm_leaves_nothing _ _ _ _ _ _ Hrm Hok) as Hgone.
    wp_step. eapply wp_setup_missing; [solve_lookup|exact (proj1 Hgone)| |]; [intros Hmk msg|intros Hmk];
      wp_steps; first [ report_absent | report_found | wp_whatever ltac:(report_found) ].
Qed.

Lemma simulation_workspace self simNodeRef s h st :
  heap st !! self = Some s ->
  rm_faithful env ->
  path s <> EmptyString ->
  no_placeholder (path s) ->
  no_orphans (disk st) (path s) ->
  forall e,
    first_report Simulation (population_label Simulation)
      (events (startSimulation cfg env self simNodeRef h st)) = Some e ->
    workspace_gone (disk (snd e)) (path s).
Proof.
  intros Hs Hrm Hne Hph Horph.
  apply (wp_run _ (fun l _ => forall e,
    first_report Simulation (population_label Simulation) l = Some e ->
    workspace_gone (disk (snd e)) (path s))).
  unfold startSimulation, simulation_steps. wp_steps; try report_absent.
  eapply wp_cleanup; [solve_lookup| | |]; cbn [path disk].
  - intros [Hp|Hp]; [done|].
    assert (Hgone : workspace_gone (disk st) (path s)) by (split; [done|by apply Horph]).
    wp_steps; first [ report_absent | report_found | wp_whatever ltac:(report_found) ].
  - intros cls msg d' Hd'. wp_steps; report_absent.
  - intros h1 d1 Hd1. cbn zeta. rewrite (interpolatePath_id _ _ _ Hph).
    destruct (child_settlement _) as [a|t'|] eqn:Hset; [|wp_steps; report_absent|done].
    apply child_settlement_Resolved in Hset as [Hok _].
    pose proof (rm_leaves_nothing _ _ _ _ _ _ Hrm Hok) as Hgone.
    wp_steps; first [ report_absent | report_found | wp_whatever ltac:(report_found) ].
Qed.

Lemma postproc_workspace self s h st :
  heap st !! self = Some s ->
  rm_faithful env ->
  path s <> EmptyString ->
  no_placeholder (path s) ->
  forall e,
    first_report Postproc (population_label Postproc)
      (events (postproc cfg env self h st)) = Some e ->
    workspace_gone (disk (snd e)) (path s).
Proof.
  intros Hs Hrm Hne Hph.
  apply (wp_run _ (fun l _ => forall e,
    first_report Postproc (population_label Postproc) l = Some e ->
    workspace_gone (disk (snd e)) (path s))).
  unfold postproc, postproc_steps, setup. wp_steps; try report_absent.
  - eapply wp_cleanup; [solve_lookup| | |]; cbn [path disk].
    + intros [Hp|Hp]; [done|]. unfold existsSync in *. by rewrite Hp in *.
    + intros cls msg d' Hd'. wp_steps; report_absent.
    + intros h1 d1 Hd1. cbn zeta. rewrite (interpolatePath_id _ _ _ Hph).
      destruct (child_settlement _) as [a|t'|] eqn:Hset; [|wp_steps; report_absent|done].
      apply child_settlement_Resolved in Hset as [Hok _].
      pose proof (rm_leaves_nothing _ _ _ _ _ _ Hrm Hok) as Hgone.
      wp_steps; first [ report_absent | report_found | wp_whatever ltac:(report_found) ].
  - eapply wp_cleanup; [solve_lookup| | |]; cbn [path disk].
    + intros [Hp|Hp]; [done|]. exfalso.
      rewrite mkdir_chain_dir in Hp; [done|done|].
      apply elem_of_app. right. by apply list_elem_of_singleton.
    + intros cls msg d' Hd'. wp_steps; report_absent.
    + intros h1 d1 Hd1. cbn zeta. rewrite (interpolatePath_id _ _ _ Hph).
      destruct (child_settlement _) as [a|t'|] eqn:Hset; [|wp_steps; report_absent|done].
      apply child_settlement_Resolved in Hset as [Hok _].
      pose proof (rm_leaves_nothing _ _ _ _ _ _ Hrm Hok) as Hgone.
      wp_steps; first [ report_absent | report_found | wp_whatever ltac:(report_found) ].
Qed.

(** C6: the workspace when the population of a stage begins, for a
    study whose path is not empty and holds no placeholder of the
    interpolation, on a disk where nothing lies below a path at which
    nothing exists, in a world where [rm -rf] does what it says.  The
    meshing pipeline removes the workspace and creates it again: it
    exists and is empty.  The simulation and the post-processing
    pipeline remove it and do not create it again ([startSimulation]
    never calls [setup], [postproc] calls it before the claim and
    [cleanup] after): nothing is left at its path, and below it, when
    [7z x] is about to run. *)
Theorem workspace_at_population stage self simNodeRef s h st :
  heap st !! self = Some s ->
  rm_faithful env ->
  path s <> EmptyString ->
  no_placeholder (path s) ->
  no_orphans (disk st) (path s) ->
  forall e,
    first_report stage (population_label stage)
      (events (start cfg env stage self simNodeRef h st)) = Some e ->
    match stage with
    | Meshing => empty_dir (disk (snd e)) (path s)
    | Simulation | Postproc => workspace_gone (disk (snd e)) (path s)
    end.
Proof.
  intros Hs Hrm Hne Hph Horph e. destruct stage; unfold start.
  - by apply meshing_workspace.
  - by apply simulation_workspace.
  - by apply postproc_workspace.
Qed.

End Workspace.

Lemma ex_env_rm_faithful claim_status err : rm_faithful (ex_env claim_status err).
Proof.
  intros h d script pre target cwd r _. subst r. cbn. unfold ex_effect.
  by rewrite rev_app_distr.
Qed.

Lemma workspace_at_population_witness :
  match first_report Meshing (population_label Meshing)
          (events (start ex_cfg (ex_env BG_TASK_STATUS_RUNNING EmptyString) Meshing 0
                     EmptyString [] ex_state)) with
  | Some e => empty_dir (disk (snd e)) ex_path
  | None => False
  end
  /\ match first_report Simulation (population_label Simulation)
            (events (start ex_cfg (ex_env BG_TASK_STATUS_RUNNING EmptyString) Simulation 0
                       ex_simref [] ex_state)) with
     | Some e => workspace_gone (disk (snd e)) ex_path
     | None => False
     end
  /\ match first_report Postproc (population_label Postproc)
            (events (start ex_cfg (ex_env BG_TASK_STATUS_RUNNING EmptyString) Postproc 0
                       EmptyString [] ex_state)) with
     | Some e => workspace_gone (disk (snd e)) ex_path
     | None => False
     end.
Proof.
  split; [|split].
  - destruct (first_report _ _ _) as [e|] eqn:He; [|vm_compute in He; discriminate].
    apply (workspace_at_population ex_cfg (ex_env BG_TASK_STATUS_RUNNING EmptyString) Meshing 0
             EmptyString ex_study [] ex_state eq_refl (ex_env_rm_faithful _ _)).
    + discriminate.
    + split; vm_compute; reflexivity.
    + intros H. vm_compute in H. discriminate.
    + exact He.
  - destruct (first_report _ _ _) as [e|] eqn:He; [|vm_compute in He; discriminate].
    apply (workspace_at_population ex_cfg (ex_env BG_TASK_STATUS_RUNNING EmptyString)
             Simulation 0 ex_simref ex_study [] ex_state eq_refl (ex_env_rm_faithful _ _)).
    + discriminate.
    + split; vm_compute; reflexivity.
    + intros H. vm_compute in H. discriminate.
    + exact He.
  - destruct (first_report _ _ _) as [e|] eqn:He; [|vm_compute in He; discriminate].
    apply (workspace_at_population ex_cfg (ex_env BG_TASK_STATUS_RUNNING EmptyString)
             Postproc 0 EmptyString ex_study [] ex_state eq_refl (ex_env_rm_faithful _ _)).
    + discriminate.
    + split; vm_compute; reflexivity.
    + intros H. vm_compute in H. discriminate.
    + exact He.
Defined.

(** The specification has the workspace exist, empty, at the start of
    every stage.  When the simulation pipeline reports "uncompress" the
    workspace that the earlier stage left has been removed, and nothing
    is at its path. *)
Lemma simulation_workspace_not_recreated :
  match first_report Simulation (population_label Simulation)
          (events (start ex_cfg (ex_env BG_TASK_STATUS_RUNNING EmptyString) Simulation 0
                     ex_simref [] ex_state)) with
  | Some e => ~ empty_dir (disk (snd e)) ex_path
  | None => False
  end.
Proof.
  destruct (first_report _ _ _) as [e|] eqn:He; [|vm_compute in He; discriminate].
  intros [Hdir _].
  assert (Hgone : workspace_gone (disk (snd e)) (path ex_study)).
  { apply (simulation_workspace ex_cfg (ex_env BG_TASK_STATUS_RUNNING EmptyString) 0
             ex_simref ex_study [] ex_state eq_refl (ex_env_rm_faithful _ _)).
    - discriminate.
    - split; vm_compute; reflexivity.
    - intros H. vm_compute in H. discriminate.
    - exact He. }
  destruct Hgone as [Hnone _].
  change (path ex_study) with ex_path in Hnone. congruence.
Qed.
(** * Properties of the rest of the engine *)

(** ** Runs, equation by equation *)

Lemma bind_pure {A B} (m : M A) (k : A -> M B) a h st st' :
  m h st = (Resolved a, st', []) -> bind m k h st = k a h st'.
Proof.
  intros H. unfold bind. rewrite H, app_nil_r.
  by destruct (k a h st') as [[r s2] e2].
Qed.

Lemma bind_rejected {A B} (m : M A) (k : A -> M B) t h st st' evs :
  m h st = (Rejected t, st', evs) -> bind m k h st = (Rejected t, st', evs).
Proof. intros H. unfold bind. by rewrite H. Qed.

Lemma deref_run self s h st :
  heap st !! self = Some s -> deref self h st = (Resolved s, st, []).
Proof. intros H. unfold deref. by rewrite H. Qed.

Section Equations.
Context (cfg : Config) (env : Env).






End Equations.

(** ** The constructor of a study *)

Lemma prefix_drop (p s : string) :
  String.prefix p s = true -> s = (p ++ Str.drop (String.length p) s)%string.
Proof.
  revert s. induction p as [|c p IH]; intros [|c' s]; cbn; try done.
  destruct (ascii_dec c c') as [->|]; [|done].
  intros H. change (String c' s = String c' (p ++ Str.drop (String.length p) s)%string).
  f_equal. by apply IH.
Qed.

Lemma match_SpacesStore_sound (ref id : string) :
  match_SpacesStore ref = Some id ->
  dot_plus id = true /\ exists pre, ref = (pre ++ "SpacesStore/" ++ id)%string.
Proof.
  induction ref as [|c ref IH]; cbn [match_SpacesStore].
  - destruct (String.prefix "SpacesStore/" EmptyString && _) eqn:H; [|done]. by cbn in H.
  - destruct (String.prefix "SpacesStore/" (String c ref) && dot_plus (Str.drop 12 (String c ref)))
      eqn:H.
    + intros [= <-]. apply andb_true_iff in H as [Hp Hd]. split; [done|].
      exists EmptyString. apply (prefix_drop "SpacesStore/" _ Hp).
    + intros Hm. destruct (IH Hm) as [Hd [pre ->]]. split; [done|].
      by exists (String c pre).
Qed.

Lemma match_SpacesStore_none (ref : string) :
  Str.includes "SpacesStore/" ref = false -> match_SpacesStore ref = None.
Proof.
  induction ref as [|c ref IH]; cbn [match_SpacesStore Str.includes].
  - by intros [-> _]%orb_false_iff.
  - intros [-> H]%orb_false_iff. cbn [andb]. by apply IH.
Qed.

Lemma prefix_append (p s : string) : String.prefix p (p ++ s)%string = true.
Proof.
  induction p as [|c p IH]; [by destruct s|].
  change (String.prefix (String c p) (String c (p ++ s)%string) = true). cbn.
  by destruct (ascii_dec c c).
Qed.

Lemma match_SpacesStore_skip c s :
  String.prefix "SpacesStore/" (String c s) = false ->
  match_SpacesStore (String c s) = match_SpacesStore s.
Proof. intros H. cbn [match_SpacesStore]. by rewrite H. Qed.

Lemma match_SpacesStore_here c s :
  String.prefix "SpacesStore/" (String c s) = true ->
  dot_plus (Str.drop 12 (String c s)) = true ->
  match_SpacesStore (String c s) = Some (Str.drop 12 (String c s)).
Proof. intros H1 H2. cbn [match_SpacesStore]. by rewrite H1, H2. Qed.

Lemma match_SpacesStore_workspace id :
  dot_plus id = true ->
  match_SpacesStore ("workspace://SpacesStore/" ++ id)%string = Some id.
Proof.
  intros Hd.
  change ("workspace://SpacesStore/" ++ id)%string
    with (String "w" (String "o" (String "r" (String "k" (String "s" (String "p"
           (String "a" (String "c" (String "e" (String ":" (String "/" (String "/"
           (String "S" ("pacesStore/" ++ id)%string))))))))))))).
  do 12 (rewrite match_SpacesStore_skip by reflexivity).
  rewrite (match_SpacesStore_here "S" ("pacesStore/" ++ id)%string);
    [reflexivity | apply (prefix_append "SpacesStore/" id) | exact Hd].
Qed.

(** A file name is resolved by appending it. *)
Lemma resolve_plain_name dir name :
  plain_name name = true -> Path.resolve dir name = (dir ++ "/" ++ name)%string.
Proof.
  unfold plain_name, Path.resolve. destruct name as [|c name]; [done|].
  intros [[[_ Hs]%andb_true_iff _]%andb_true_iff _]%andb_true_iff.
  apply negb_true_iff in Hs. cbn [Str.includes] in Hs.
  apply orb_false_iff in Hs as [Hs _].
  unfold Str.is_slash. destruct (Ascii.eqb_spec c "/") as [->|]; [|done].
  change (String "/" name) with ("/" ++ name)%string in Hs.
  by rewrite prefix_append in Hs.
Qed.

Section Constructor.
Context (cfg : Config).

(** X19: the constructor emits nothing and changes no object but the
    new one.  When it returns, the reference is made of some prefix,
    [SpacesStore/] and the node id, which is not empty and holds no line
    terminator, the fields other than the path are [null], and the
    object is new; when the studies directory is in normal form and the
    node id is a file name, the path is the node id below the studies
    directory.  When it throws, the state is as before. *)
Theorem new_Study_decodes ref h st :
  match settled (new_Study cfg ref h st) with
  | Resolved a =>
      exists pre id p,
        ref = (pre ++ "SpacesStore/" ++ id)%string
        /\ dot_plus id = true
        /\ heap st !! a = None
        /\ final_state (new_Study cfg ref h st)
           = set_heap (<[a := mkStudy ref id p None None None None None None]> (heap st)) st
        /\ (normalized (studiesDir cfg) = true -> plain_name id = true ->
            p = (studiesDir cfg ++ "/" ++ id)%string)
  | Rejected _ => final_state (new_Study cfg ref h st) = st
  | Crashed _ => False
  end
  /\ events (new_Study cfg ref h st) = [].
Proof.
  unfold new_Study. destruct (match_SpacesStore ref) as [id|] eqn:Hm; cbn; [|done].
  split; [|done]. destruct (match_SpacesStore_sound _ _ Hm) as [Hd [pre ->]].
  exists pre, id, (Path.resolve (studiesDir cfg) id). repeat split; try done.
  - apply not_elem_of_dom. apply is_fresh.
  - intros _ Hid. by apply resolve_plain_name.
Qed.

(** X20: when the studies directory is in normal form, a reference
    [workspace://SpacesStore/<id>], for an [id] that is a file name and
    holds no line terminator, builds the study of node id [id] and of
    path [<studiesDir>/<id>] at a new address. *)
Theorem new_Study_workspace_ref id h st :
  normalized (studiesDir cfg) = true ->
  plain_name id = true ->
  dot_plus id = true ->
  let ref := ("workspace://SpacesStore/" ++ id)%string in
  let a := fresh (dom (heap st)) in
  new_Study cfg ref h st
  = (Resolved a,
     set_heap (<[a := mkStudy ref id (studiesDir cfg ++ "/" ++ id)
                         None None None None None None]> (heap st)) st, [])
  /\ heap st !! a = None.
Proof.
  intros _ Hid Hd. cbn zeta. unfold new_Study.
  rewrite (match_SpacesStore_workspace id Hd), (resolve_plain_name _ _ Hid).
  split; [done|]. apply not_elem_of_dom, is_fresh.
Qed.

(** A reference that holds no [SpacesStore/] makes the constructor
    throw. *)
Lemma new_Study_without_store ref h st :
  Str.includes "SpacesStore/" ref = false ->
  exists message, new_Study cfg ref h st = (Rejected (JsError ClsError message), st, []).
Proof.
  intros H. unfold new_Study. rewrite (match_SpacesStore_none _ H). by eexists.
Qed.

End Constructor.

(** ** The execution of a program *)



Section ExecuteFacts.
Context (cfg : Config) (env : Env).


(** X2: a program that the configuration lists with a relative path in
    normal form, under a directory of the tools in normal form, and
    whose script is not on the disk makes [execute] fail with the
    configuration error "wrong configuration of program <prgname>:
    script <script> not found", whatever its arguments are: nothing is
    spawned, and the state is as before. *)
Theorem execute_missing_script self s prgname rel args workDir h st :
  heap st !! self = Some s ->
  airetd_programs cfg !! prgname = Some rel ->
  rel <> EmptyString ->
  normalized (airetd_path cfg) = true ->
  plain_relative rel = true ->
  existsSync (disk st) (Path.resolve (airetd_path cfg) rel) = false ->
  execute cfg env self prgname args workDir h st
  = (Rejected (JsError ClsConfigurationError
       ("wrong configuration of program " ++ prgname ++ ": script "
        ++ Path.resolve (airetd_path cfg) rel ++ " not found")), st, []).
Proof.
  intros Hs Hrel Hne _ _ Hex. unfold execute.
  rewrite (bind_pure _ _ _ _ _ _ (deref_run _ _ _ _ Hs)).
  rewrite (bind_pure get_state _ st h st st eq_refl).
  assert (He : program_entry cfg prgname = Some rel).
  { unfold program_entry. rewrite Hrel. by destruct (String.eqb_spec rel EmptyString). }
  unfold program_script. rewrite He, Hex.
  rewrite bool_decide_true by by eexists.
  by apply bind_rejected.
Qed.


(** X4: when the paths of the configuration need no normalisation and
    the directories the interpolation inserts hold no dollar sign, a
    call of [execute] emits no event, or one.  Either it fails with an
    error before it spawns anything, having created directories at most
    (the regular files and the objects are as before), or it spawns one
    child, of the command of the program, and settles as that child
    closes. *)
Theorem execute_at_most_one_child self s prgname args workDir h st :
  heap st !! self = Some s ->
  exact_paths cfg prgname s = true ->
  let r := execute cfg env self prgname args workDir h st in
  (events r = [] /\ (exists cls msg, settled r = Rejected (JsError cls msg))
   /\ files_kept (disk st) (disk (final_state r))
   /\ heap (final_state r) = heap st)
  \/ (exists pid o st1,
        events r = [(EvSpawn prgname (command_of cfg prgname).1
                       ((command_of cfg prgname).2
                        ++ argv_of (program_scriptDir cfg prgname) (path s) args)
                       (cwd_of cfg s prgname workDir) pid o, st1)]
        /\ settled r = child_settlement o
        /\ files_kept (disk st) (disk st1)
        /\ heap (final_state r) !! self = Some (set_child (Some (mkChild pid)) s)).
Proof.
  intros Hs _. cbn zeta.
  pose (spawned := fun (out : outcome (string * string)) (l : list entry) (st' : State) =>
    exists pid o st1,
      l = [(EvSpawn prgname (command_of cfg prgname).1
              ((command_of cfg prgname).2
               ++ argv_of (program_scriptDir cfg prgname) (path s) args)
              (cwd_of cfg s prgname workDir) pid o, st1)]
      /\ out = child_settlement o
      /\ files_kept (disk st) (disk st1)
      /\ heap st' !! self = Some (set_child (Some (mkChild pid)) s)).
  assert (W : wp (execute cfg env self prgname args workDir)
    (fun a l st' => spawned (Resolved a) l st')
    (fun t l st' => (l = [] /\ (exists cls msg, t = JsError cls msg)
                     /\ files_kept (disk st) (disk st') /\ heap st' = heap st)
                    \/ spawned (Rejected t) l st')
    (fun _ _ => False) [] st).
  { apply wp_execute with (s := s); [done| |].
    - intros cls msg d' Hd'. left. repeat split; eauto.
    - intros h1 d1 Hd1. cbn zeta.
      destruct (child_settlement _) as [a|t|] eqn:Hset; [| |done].
      + eexists _, _, _. repeat split; [done|done|]. cbn. by rewrite lookup_insert_eq.
      + right. eexists _, _, _. repeat split; [done|done|]. cbn. by rewrite lookup_insert_eq. }
  apply (wp_elim _ _ _ _ h) in W.
  unfold events, settled, final_state.
  destruct (execute cfg env self prgname args workDir h st) as [[[a|t|msg] st'] evs]; cbn.
  - right. destruct W as (pid & o & st1 & -> & -> & Hk & Hh). by eexists _, _, _.
  - destruct W as [(-> & (cls & m & ->) & Hk & Hh)|(pid & o & st1 & -> & -> & Hk & Hh)].
    + left. repeat split; eauto.
    + right. by eexists _, _, _.
  - done.
Qed.

End ExecuteFacts.


Lemma includes_cons_false needle c hay :
  Str.includes needle (String c hay) = false ->
  String.prefix needle (String c hay) = false /\ Str.includes needle hay = false.
Proof. cbn [Str.includes]. by intros [? ?]%orb_false_iff. Qed.

(** X6: the interpolation of a path that begins with the placeholder
    of the workspace puts the workspace in its place, when the rest of
    the path holds no placeholder of the script directory and the
    workspace no dollar sign, which [replace] would read as a pattern. *)
Theorem interpolatePath_studyDir scriptDir studyDir rest :
  Str.includes "{scriptDir}" rest = false ->
  Str.includes "$" studyDir = false ->
  interpolatePath scriptDir studyDir ("{studyDir}" ++ rest) = (studyDir ++ rest)%string.
Proof.
  intros Hrest _. unfold interpolatePath.
  assert (H1 : Str.replace "{scriptDir}" scriptDir ("{studyDir}" ++ rest)%string
               = ("{studyDir}" ++ rest)%string).
  { apply replace_absent.
    change ("{studyDir}" ++ rest)%string
      with (String "{" (String "s" (String "t" (String "u" (String "d" (String "y"
             (String "D" (String "i" (String "r" (String "}" rest)))))))))).
    do 10 (cbn [Str.includes]; rewrite orb_false_l by reflexivity || idtac).
    exact Hrest. }
  rewrite H1.
  change ("{studyDir}" ++ rest)%string
    with (String "{" ("studyDir}" ++ rest)%string).
  cbn [Str.replace].
  change (String "{" ("studyDir}" ++ rest)%string) with ("{studyDir}" ++ rest)%string.
  by rewrite (prefix_append "{studyDir}" rest).
Qed.

(** ** Archives, cleanup and setup *)



Lemma mkdir_chain_keeps (chain : list string) (d : Disk) q n :
  d !! q = Some n -> foldr mkdir_missing d chain !! q = Some n.
Proof.
  intros Hq. induction chain as [|x chain IH]; cbn [foldr]; [done|].
  unfold mkdir_missing at 1.
  destruct (foldr mkdir_missing d chain !! x) eqn:Hx; [done|].
  rewrite lookup_insert_ne; [done|]. intros ->. congruence.
Qed.

Section EngineFacts.
Context (cfg : Config) (env : Env).

Lemma wp_unlinkSync p (Q : unit -> list entry -> State -> Prop) E C l st :
  (forall b, disk st !! p = Some (NFile b) -> Q tt l (set_disk (delete p (disk st)) st)) ->
  (is_file (disk st) p = false -> forall msg, E (JsError ClsError msg) l st) ->
  wp (unlinkSync p) Q E C l st.
Proof.
  intros HQ HE h0. unfold unlinkSync, is_file in *.
  destruct (disk st !! p) as [[b|]|]; rewrite app_nil_r; [by eapply HQ | by apply HE | by apply HE].
Qed.



(** X8: [compress] deletes the archive an earlier run left before it
    checks or runs anything: when it fails before the spawn the old
    archive is gone and no new one is made, and when [7z] is spawned the
    old archive is gone already. *)
Theorem compress_removes_archive_first self s stage list_ b h st :
  heap st !! self = Some s ->
  disk st !! archive_name cfg s stage = Some (NFile b) ->
  let r := compress cfg env self stage list_ h st in
  match events r with
  | [] => is_file (disk (final_state r)) (archive_name cfg s stage) = false
  | [e] => is_spawn_of "7z" e = true
           /\ is_file (disk (snd e)) (archive_name cfg s stage) = false
  | _ => False
  end.
Proof.
  intros Hs Hb. cbn zeta.
  set (archive := archive_name cfg s stage) in *.
  set (Post := fun (l : list entry) (st' : State) =>
    match l with
    | [] => is_file (disk st') archive = false
    | [e] => is_spawn_of "7z" e = true /\ is_file (disk (snd e)) archive = false
    | _ => False
    end).
  assert (Hgone : forall d', files_kept (delete archive (disk st)) d' -> is_file d' archive = false).
  { intros d' Hk. rewrite Hk. unfold is_file. by rewrite lookup_delete_eq. }
  assert (W : wp (compress cfg env self stage list_)
    (fun _ => Post) (fun _ => Post) (fun _ _ => False) [] st).
  { unfold compress. do 5 wp_step. fold archive.
    unfold existsSync. rewrite Hb.
    apply wp_unlinkSync; [intros b' _|intros Hf; unfold is_file in Hf; by rewrite Hb in Hf].
    wp_step. eapply wp_execute; [solve_lookup| |].
    - intros cls msg d' Hd'. cbn. by apply Hgone.
    - intros h1 d1 Hd1. cbn zeta.
      destruct (child_settlement _); [apply wp_ret| |done]; cbn; split; try done; by apply Hgone. }
  apply (wp_elim _ _ _ _ h) in W. unfold events, final_state.
  by destruct (compress cfg env self stage list_ h st) as [[[a|t|msg] st'] evs].
Qed.

End EngineFacts.

Section EngineFacts2.
Context (cfg : Config) (env : Env).


(** X10: [setup] emits nothing and keeps whatever is on the disk.  When
    it returns, something exists at the path of the workspace, and a
    second [setup] changes nothing; it fails, changing nothing, only
    when a regular file is in the way of the directories to make. *)
Theorem setup_creates_workspace self s h st :
  heap st !! self = Some s ->
  let r := setup self h st in
  events r = []
  /\ (forall q n, disk st !! q = Some n -> disk (final_state r) !! q = Some n)
  /\ files_kept (disk st) (disk (final_state r))
  /\ match settled r with
     | Resolved _ =>
         existsSync (disk (final_state r)) (path s) = true
         /\ setup self h (final_state r) = (Resolved tt, final_state r, [])
     | Rejected _ =>
         final_state r = st
         /\ existsb (is_file (disk st)) (Path.ancestors (path s) ++ [path s]) = true
     | Crashed _ => False
     end.
Proof.
  intros Hs. cbn zeta. unfold setup.
  rewrite (bind_pure _ _ _ _ _ _ (deref_run _ _ _ _ Hs)).
  rewrite (bind_pure get_state _ st h st st eq_refl).
  destruct (existsSync (disk st) (path s)) eqn:Hex.
  - cbn. repeat split; try done.
    rewrite (bind_pure _ _ _ _ _ _ (deref_run _ _ _ _ Hs)).
    rewrite (bind_pure get_state _ st h st st eq_refl). by rewrite Hex.
  - unfold mkdirSync. destruct (existsb _ _) eqn:Hf; cbn; [done|].
    split; [done|]. split; [intros q n; apply mkdir_chain_keeps|].
    split; [intros q; apply mkdir_chain_files|].
    assert (Hd : foldr mkdir_missing (disk st) (Path.ancestors (path s) ++ [path s]) !! path s
                 = Some NDir).
    { apply mkdir_chain_dir; [done|]. apply elem_of_app. right. by apply list_elem_of_singleton. }
    assert (Hex' : existsSync (foldr mkdir_missing (disk st) (Path.ancestors (path s) ++ [path s]))
                     (path s) = true) by (unfold existsSync; by rewrite Hd).
    split; [done|].
    set (st1 := set_disk _ st).
    assert (Hs1 : heap st1 !! self = Some s) by done.
    rewrite (bind_pure _ _ _ _ _ _ (deref_run _ _ _ _ Hs1)).
    rewrite (bind_pure get_state _ st1 h st1 st1 eq_refl).
    change (disk st1) with (foldr mkdir_missing (disk st) (Path.ancestors (path s) ++ [path s])).
    by rewrite Hex'.
Qed.

(** X11: the abort of a stage for a study whose registered execution
    runs the step of that stage (and, for a simulation, the simulation
    of the given reference) signals the process group of the child of
    the registered object, whichever object the command was built on:
    one [kill] of [-pid] is the only event, no update is sent and the
    state is as before; the result is [null], or the error of [kill]. *)
Theorem abort_signals_process_group stage self this simNodeRef a s p h st :
  heap st !! self = Some this ->
  studies st !! nodeRef this = Some a ->
  heap st !! a = Some s ->
  aborts stage simNodeRef s ->
  child s = Some (mkChild (Some p)) ->
  abort env stage self simNodeRef h st
  = (match env_kill env h (- p)%Z with
     | Some msg => Rejected (JsError ClsError msg)
     | None => Resolved None
     end, st, [(EvKill (- p)%Z (env_kill env h (- p)%Z), st)]).
Proof.
  intros Hthis Hreg Ha [Hstep Hsim] Hchild.
  assert (Hget : StudyCache_get (nodeRef this) h st = (Resolved (Some s), st, [])).
  { unfold StudyCache_get. rewrite (bind_pure get_state _ st h st st eq_refl). rewrite Hreg.
    by rewrite (bind_pure _ _ _ _ _ _ (deref_run _ _ _ _ Ha)). }
  assert (Hkill : forall A (k : unit -> M (option A)), k = (fun _ => ret None) ->
    bind (kill_group env s) k h st
    = (match env_kill env h (- p)%Z with
       | Some msg => Rejected (JsError ClsError msg)
       | None => Resolved None
       end, st, [(EvKill (- p)%Z (env_kill env h (- p)%Z), st)])).
  { intros A k ->. unfold bind, kill_group. rewrite Hchild. cbn.
    by destruct (env_kill env h (- p)%Z). }
  destruct stage; unfold abort, abortMeshing, abortSimulation, abortPostproc;
    rewrite (bind_pure _ _ _ _ _ _ (deref_run _ _ _ _ Hthis));
    rewrite (bind_pure _ _ _ _ _ _ Hget);
    rewrite Hstep; rewrite bool_decide_true by done; cbn [negb].
  - by apply Hkill.
  - destruct (sim s) as [t|]; [|done]. injection Hsim as <-.
    rewrite String.eqb_refl. cbn [negb]. by apply Hkill.
  - by apply Hkill.
Qed.

(** X12: the abort of a stage for a study whose registered execution
    runs another step is rejected with "Study is not running the <step>
    step": nothing is signalled, no update is sent, the state is as
    before. *)
Theorem abort_other_step stage self this simNodeRef a s h st :
  heap st !! self = Some this ->
  studies st !! nodeRef this = Some a ->
  heap st !! a = Some s ->
  step s <> Some (step_of stage) ->
  abort env stage self simNodeRef h st
  = (Rejected (JsError ClsError ("Study is not running the " ++ step_words stage ++ " step")),
     st, []).
Proof.
  intros Hthis Hreg Ha Hstep.
  assert (Hget : StudyCache_get (nodeRef this) h st = (Resolved (Some s), st, [])).
  { unfold StudyCache_get. rewrite (bind_pure get_state _ st h st st eq_refl). rewrite Hreg.
    by rewrite (bind_pure _ _ _ _ _ _ (deref_run _ _ _ _ Ha)). }
  destruct stage; unfold abort, abortMeshing, abortSimulation, abortPostproc;
    rewrite (bind_pure _ _ _ _ _ _ (deref_run _ _ _ _ Hthis));
    rewrite (bind_pure _ _ _ _ _ _ Hget);
    by rewrite bool_decide_false by done.
Qed.

(** X13: an abort that arrives while the registered execution has
    spawned no child yet ([child] is still [null]) fails with an error
    when it reads the pid: nothing is signalled and no update is sent,
    so the execution goes on. *)
Theorem abort_before_first_child stage self this simNodeRef a s h st :
  heap st !! self = Some this ->
  studies st !! nodeRef this = Some a ->
  heap st !! a = Some s ->
  aborts stage simNodeRef s ->
  child s = None ->
  exists message,
    abort env stage self simNodeRef h st = (Rejected (JsError ClsError message), st, []).
Proof.
  intros Hthis Hreg Ha [Hstep Hsim] Hchild.
  assert (Hget : StudyCache_get (nodeRef this) h st = (Resolved (Some s), st, [])).
  { unfold StudyCache_get. rewrite (bind_pure get_state _ st h st st eq_refl). rewrite Hreg.
    by rewrite (bind_pure _ _ _ _ _ _ (deref_run _ _ _ _ Ha)). }
  destruct stage; unfold abort, abortMeshing, abortSimulation, abortPostproc;
    rewrite (bind_pure _ _ _ _ _ _ (deref_run _ _ _ _ Hthis));
    rewrite (bind_pure _ _ _ _ _ _ Hget);
    rewrite Hstep; rewrite bool_decide_true by done; cbn [negb].
  - unfold bind, kill_group. rewrite Hchild. by eexists.
  - destruct (sim s) as [t|]; [|done]. injection Hsim as <-.
    rewrite String.eqb_refl. cbn [negb]. unfold bind, kill_group. rewrite Hchild. by eexists.
  - unfold bind, kill_group. rewrite Hchild. by eexists.
Qed.

End EngineFacts2.

Section AbortFrame.
Context (env : Env).

(** X14: an abort never changes the state of the worker (registry,
    objects, disk and log) and never crashes it; it emits at most one
    event, which is the update FAILED of its stage or one [kill]. *)
Theorem abort_changes_nothing stage self simNodeRef h st :
  let r := abort env stage self simNodeRef h st in
  final_state r = st
  /\ (forall msg, settled r <> Crashed msg)
  /\ (events r = []
      \/ (exists ref reply,
            events r = [(EvUpdate stage ref BG_TASK_STATUS_FAILED None
                           (match stage with Meshing => None | _ => Some EmptyString end)
                           (match stage with Meshing => None | _ => user_aborted end)
                           reply, st)])
      \/ (exists pgid failure, events r = [(EvKill pgid failure, st)])).
Proof.
  cbn zeta. unfold events, settled, final_state.
  destruct stage; unfold abort, abortMeshing, abortSimulation, abortPostproc,
    StudyCache_get, meshingTaskUpdate, simulationTaskUpdate, postprocTaskUpdate,
    taskUpdate, kill_group, deref, bind, get_state, TypeError, ret, throw;
    repeat (case_match; simplify_eq/=); repeat split; try done; eauto 8.
Qed.

End AbortFrame.

(** ** The chunks of an upload *)

(** The [len] bytes of a content from the offset [pos] on. *)
Lemma blob_bytes_slice file pos len :
  blob_bytes (blob_slice file pos len)
  = map (fun i => blob_byte file (pos + N.of_nat i)%N) (seq 0 (N.to_nat len)).
Proof. reflexivity. Qed.

Lemma bytes_from_app file pos (a b : nat) :
  map (fun i => blob_byte file (pos + N.of_nat i)%N) (seq 0 (a + b))
  = map (fun i => blob_byte file (pos + N.of_nat i)%N) (seq 0 a)
    ++ map (fun i => blob_byte file (pos + N.of_nat a + N.of_nat i)%N) (seq 0 b).
Proof.
  rewrite seq_app, map_app. f_equal. cbn [plus].
  rewrite <- (Nat.add_0_r a) at 1. rewrite <- (fmap_add_seq a 0 b).
  rewrite <- list_fmap_compose. apply map_ext. intros i. cbn. f_equal. lia.
Qed.

Section UploadFacts.
Context (env : Env).

Lemma put_bodies_put uploadId chunk b reply st evs :
  put_bodies ((EvPut uploadId chunk b reply, st) :: evs) = chunk :: put_bodies evs.
Proof. reflexivity. Qed.

Lemma put_bodies_create a b c d reply st evs :
  put_bodies ((EvCreateDocument a b c d reply, st) :: evs) = put_bodies evs.
Proof. reflexivity. Qed.

Lemma wp_uploadChunk_bodies file numChunks uploadId n :
  accepting env ->
  forall fuel pos counter l st,
    (n < fuel)%nat ->
    N.to_nat numChunks = (n + N.to_nat counter)%nat ->
    wp (uploadChunk env fuel file numChunks uploadId pos counter)
       (fun _ l' st' => exists evs, l' = l ++ evs
          /\ concat (map blob_bytes (put_bodies evs))
             = map (fun i => blob_byte file (pos + N.of_nat i)%N)
                 (seq 0 (N.to_nat (N.min (blob_size file - pos)
                                         ((N.of_nat n + 1) * CHUNK_SIZE)))))
       (fun _ _ _ => False) (fun _ _ => False) l st.
Proof.
  intros Hacc. induction n as [|n IH]; intros fuel pos counter l st Hfuel Hn;
    (destruct fuel as [|fuel]; [lia|]); cbn [uploadChunk]; apply wp_bind;
    apply wp_put_chunk_accepted; try done.
  - replace (numChunks <=? counter)%N with true by (symmetry; apply N.leb_le; lia).
    apply wp_ret. eexists; split; [done|].
    cbn [put_bodies omap fst map concat]. rewrite put_bodies_put. cbn [map concat].
    rewrite app_nil_r, blob_bytes_slice. do 3 f_equal.
    change CHUNK_SIZE with 8388608%N. lia.
  - replace (numChunks <=? counter)%N with false by (symmetry; apply N.leb_gt; lia).
    eapply wp_mono; [| | |apply (IH fuel _ (counter + 1)%N); lia]; try done.
    intros _ l' st' (evs & -> & Hevs).
    eexists (_ :: evs). split; [by rewrite <- app_assoc|].
    rewrite put_bodies_put. cbn [map concat]. rewrite Hevs, blob_bytes_slice.
    set (b := N.min CHUNK_SIZE (blob_size file - pos)).
    replace (N.to_nat (N.min (blob_size file - pos) ((N.of_nat (S n) + 1) * CHUNK_SIZE)))
      with (N.to_nat b
            + N.to_nat (N.min (blob_size file - (pos + b)) ((N.of_nat n + 1) * CHUNK_SIZE)))%nat
      by (subst b; change CHUNK_SIZE with 8388608%N; lia).
    rewrite bytes_from_app. by rewrite N2Nat.id.
Qed.

(** X15: in an upload that the repository accepts, the bodies of the
    chunk requests, one after the other, are the bytes of the file: no
    byte is lost, repeated or out of its place. *)
Theorem upload_sends_the_file studyNodeId name filename relativePath type_ file h st :
  accepting env ->
  disk st !! filename = Some (NFile file) ->
  concat (map blob_bytes
            (put_bodies (events (upload env studyNodeId name (Some filename)
                                   relativePath type_ h st))))
  = blob_bytes file.
Proof.
  intros Hacc Hfile.
  apply (wp_run _ (fun l _ => concat (map blob_bytes (put_bodies l)) = blob_bytes file)).
  unfold upload. do 2 wp_step. rewrite Hfile. apply wp_bind.
  unfold handled_again. apply wp_catch.
  apply wp_createDocument_accepted; [done|]. intros id reply.
  eapply wp_mono;
    [| | |apply (wp_uploadChunk_bodies file (numChunks_of (blob_size file)) id
                   (N.to_nat (numChunks_of (blob_size file))) Hacc); [lia|cbn; lia]];
    [| done | done].
  intros _ l' st' (evs & -> & Hevs).
  cbn [app]. rewrite put_bodies_create, Hevs. unfold blob_bytes.
  assert (Hmin : N.min (blob_size file - 0)
                   ((N.of_nat (N.to_nat (numChunks_of (blob_size file))) + 1) * CHUNK_SIZE)
                 = blob_size file).
  { rewrite N2Nat.id. unfold numChunks_of.
    pose proof (N.div_mod (blob_size file) CHUNK_SIZE ltac:(done)) as Hdm.
    pose proof (N.mod_lt (blob_size file) CHUNK_SIZE ltac:(done)) as Hlt.
    set (q := (blob_size file / CHUNK_SIZE)%N) in *.
    set (r := (blob_size file mod CHUNK_SIZE)%N) in *.
    set (sz := blob_size file) in *. clearbody q r sz.
    change CHUNK_SIZE with 8388608%N in *.
    destruct (N.eqb_spec r 0); cbn [negb]; lia. }
  rewrite Hmin. apply map_ext. intros i. by rewrite N.add_0_l.
Qed.

(** X16: the upload of an empty file that the repository accepts sends
    one chunk request, with an empty body and the flag [isLastChunk]. *)
Theorem upload_empty_file studyNodeId name filename relativePath type_ file h st :
  accepting env ->
  disk st !! filename = Some (NFile file) ->
  blob_size file = 0%N ->
  put_requests (events (upload env studyNodeId name (Some filename) relativePath type_ h st))
  = [(0%N, true)].
Proof.
  intros Hacc Hfile Hsize.
  rewrite (upload_put_requests env _ _ _ _ _ file) by done.
  rewrite Hsize. reflexivity.
Qed.

Lemma Forall_removelast {A} (P : A -> Prop) (l : list A) :
  Forall P l -> Forall P (removelast l).
Proof.
  induction 1 as [|x l Hx Hl IH]; [constructor|]. cbn.
  destruct l; [constructor|]. by constructor.
Qed.

Lemma removelast_snoc {A} (l : list A) x : removelast (l ++ [x]) = l.
Proof. apply removelast_last. Qed.

Lemma wp_put_chunk uploadId chunk b (Q : unit -> list entry -> State -> Prop) E C l st :
  Q tt (l ++ [(EvPut uploadId chunk b (HOk tt), st)]) st ->
  (forall msg, E (JsError ClsError msg) (l ++ [(EvPut uploadId chunk b (HErr msg), st)]) st) ->
  wp (put_chunk env uploadId chunk b) Q E C l st.
Proof.
  intros HQ HE h0. unfold put_chunk.
  destruct (env_put env (h0 ++ l) uploadId chunk b) as [[]|msg]; [apply HQ|apply HE].
Qed.

Lemma wp_createDocument studyNodeId name relativePath type_
    (Q : string -> list entry -> State -> Prop) E C l st :
  (forall id,
     Q id (l ++ [(EvCreateDocument studyNodeId (or_default name "results.7z")
                    (or_default type_ "cm:content")
                    (or_default relativePath "cfd_simulations_data_root") (HOk id), st)]) st) ->
  (forall msg,
     E (JsError ClsError msg)
       (l ++ [(EvCreateDocument studyNodeId (or_default name "results.7z")
                 (or_default type_ "cm:content")
                 (or_default relativePath "cfd_simulations_data_root") (HErr msg), st)]) st) ->
  wp (createDocument env studyNodeId name relativePath type_) Q E C l st.
Proof.
  intros HQ HE h0. unfold createDocument.
  destruct (env_createDocument env (h0 ++ l) _ _ _ _) as [id|msg]; [apply HQ|apply HE].
Qed.

Lemma wp_uploadChunk_refusal file numChunks uploadId :
  forall fuel pos counter l st,
    Forall (fun e => answered_ok e = true) l ->
    wp (uploadChunk env fuel file numChunks uploadId pos counter)
       (fun _ l' _ => Forall (fun e => answered_ok e = true) l')
       (fun _ l' _ => Forall (fun e => answered_ok e = true) (removelast l'))
       (fun _ _ => False) l st.
Proof.
  induction fuel as [|fuel IH]; intros pos counter l st Hl; cbn [uploadChunk].
  - apply wp_TypeError. by apply Forall_removelast.
  - apply wp_bind. apply wp_put_chunk.
    + assert (Hl' : Forall (fun e => answered_ok e = true)
                      (l ++ [(EvPut uploadId
                                (blob_slice file pos (N.min CHUNK_SIZE (blob_size file - pos)))
                                (numChunks <=? counter)%N (HOk tt), st)])).
      { apply Forall_app. split; [done|]. by repeat constructor. }
      destruct (numChunks <=? counter)%N; [by apply wp_ret|]. by apply IH.
    + intros msg. by rewrite removelast_snoc.
Qed.

(** X17: an upload sends nothing after a request that the repository
    refused (every request but the last was accepted), and it resolves
    only when every request was accepted. *)
Theorem upload_stops_at_refusal studyNodeId name filename relativePath type_ h st :
  let r := upload env studyNodeId name filename relativePath type_ h st in
  Forall (fun e => answered_ok e = true) (removelast (events r))
  /\ (settled r = Resolved tt -> Forall (fun e => answered_ok e = true) (events r)).
Proof.
  cbn zeta.
  assert (W : wp (upload env studyNodeId name filename relativePath type_)
    (fun _ l' _ => Forall (fun e => answered_ok e = true) l')
    (fun _ l' _ => Forall (fun e => answered_ok e = true) (removelast l'))
    (fun _ _ => False) [] st).
  { unfold upload. do 2 wp_step. destruct filename as [filename|]; [|by apply wp_TypeError].
    destruct (disk st !! filename) as [[file|]|]; [| |by apply wp_throw].
    - apply wp_bind. unfold handled_again. apply wp_catch.
      apply wp_createDocument; [intros id|intros msg; apply wp_throw; by constructor].
      apply wp_uploadChunk_refusal. by repeat constructor.
    - apply wp_bind. unfold handled_again. apply wp_catch.
      apply wp_createDocument; [intros id|intros msg; apply wp_throw; by constructor].
      apply wp_throw. cbn. by repeat constructor. }
  apply (wp_elim _ _ _ _ h) in W. unfold events, settled.
  destruct (upload env studyNodeId name filename relativePath type_ h st)
    as [[[a|t|msg] st'] evs]; cbn in *; [|done|done].
  split; [by apply Forall_removelast|done].
Qed.

(** X18: when the creation of the document fails, for a file or a
    directory that exists, [upload] rejects with "Client internal
    error" whatever the reason of the failure was, and sends no chunk:
    the error [createDocument] throws has passed the handler once, and
    the handler of [upload] finds neither a response nor a request in
    it. *)
Theorem upload_loses_createDocument_reason studyNodeId name filename relativePath type_
    n msg h st :
  disk st !! filename = Some n ->
  env_createDocument env h studyNodeId (or_default (Some name) "results.7z")
    (or_default type_ "cm:content") (or_default relativePath "cfd_simulations_data_root")
  = HErr msg ->
  upload env studyNodeId name (Some filename) relativePath type_ h st
  = (Rejected (JsError ClsError "Client internal error"), st,
     [(EvCreateDocument studyNodeId (or_default (Some name) "results.7z")
         (or_default type_ "cm:content")
         (or_default relativePath "cfd_simulations_data_root") (HErr msg), st)]).
Proof.
  intros Hn Hreply. unfold upload.
  rewrite (bind_pure get_state _ st h st st eq_refl). rewrite Hn.
  assert (Hcreate : handled_again
            (createDocument env studyNodeId (Some name) relativePath type_) h st
          = (Rejected (JsError ClsError "Client internal error"), st,
             [(EvCreateDocument studyNodeId (or_default (Some name) "results.7z")
                 (or_default type_ "cm:content")
                 (or_default relativePath "cfd_simulations_data_root") (HErr msg), st)])).
  { unfold handled_again, catch, createDocument. by rewrite Hreply. }
  destruct n as [file|]; by apply bind_rejected.
Qed.

End UploadFacts.

(** ** Downloads *)

(** The polls of a download whose successive statuses are [sigma]. *)
Lemma waitUntilReady_after w nodeId (sigma : nat -> string) k :
  forall fuel n,
    (forall i, (i < k)%nat ->
       waiting (sigma (n + i)%nat) = true /\ dl_status w (n + i)%nat = AxOk (sigma (S (n + i)))) ->
    waiting (sigma (n + k)%nat) = false ->
    (k <= fuel)%nat ->
    waitUntilReady fuel w nodeId (sigma n) n
    = Some (wrap_failure k "Failed to check download status, reason: "
              (fst (when_ready w nodeId (sigma (n + k)%nat))),
            replicate k (ReqStatus nodeId) ++ snd (when_ready w nodeId (sigma (n + k)%nat))).
Proof.
  induction k as [|k IH]; intros fuel n Hk Hlast Hfuel.
  - rewrite Nat.add_0_r in *. cbn [replicate app wrap_failure wrapped].
    destruct fuel; cbn [waitUntilReady]; rewrite Hlast;
      by destruct (when_ready w nodeId (sigma n)) as [[?|?] ?].
  - destruct fuel as [|fuel]; [lia|]. cbn [waitUntilReady].
    destruct (Hk 0%nat ltac:(lia)) as [Hw0 Hs0]. rewrite Nat.add_0_r in Hw0, Hs0.
    rewrite Hw0, Hs0.
    replace (n + S k)%nat with (S n + k)%nat in * by lia.
    rewrite (IH fuel (S n)); [|intros i Hi|done|lia].
    + by destruct (when_ready w nodeId (sigma (S n + k)%nat)) as [[?|?] ?].
    + replace (S n + i)%nat with (n + S i)%nat by lia. apply Hk. lia.
Qed.

Lemma waitUntilReady_fails w nodeId (sigma : nat -> string) error k :
  forall fuel n,
    (forall i, (i < k)%nat ->
       waiting (sigma (n + i)%nat) = true /\ dl_status w (n + i)%nat = AxOk (sigma (S (n + i)))) ->
    waiting (sigma (n + k)%nat) = true ->
    dl_status w (n + k)%nat = AxFail error ->
    (k < fuel)%nat ->
    waitUntilReady fuel w nodeId (sigma n) n
    = Some (Failed (wrapped (S k) "Failed to check download status, reason: "
                      (alfrescoApiErrorHandler error)),
            replicate (S k) (ReqStatus nodeId)).
Proof.
  induction k as [|k IH]; intros fuel n Hk Hlast Hfail Hfuel;
    (destruct fuel as [|fuel]; [lia|]); cbn [waitUntilReady].
  - rewrite Nat.add_0_r in *. by rewrite Hlast, Hfail.
  - destruct (Hk 0%nat ltac:(lia)) as [Hw0 Hs0]. rewrite Nat.add_0_r in Hw0, Hs0.
    rewrite Hw0, Hs0.
    replace (n + S k)%nat with (S n + k)%nat in * by lia.
    rewrite (IH fuel (S n)); [done|intros i Hi|done|done|lia].
    replace (S n + i)%nat with (n + S i)%nat by lia. apply Hk. lia.
Qed.

Lemma waitUntilReady_forever w nodeId (sigma : nat -> string) :
  (forall i, waiting (sigma i) = true /\ dl_status w i = AxOk (sigma (S i))) ->
  forall fuel n, waitUntilReady fuel w nodeId (sigma n) n = None.
Proof.
  intros H. induction fuel as [|fuel IH]; intros n; cbn [waitUntilReady];
    destruct (H n) as [Hw Hs]; rewrite Hw; [done|].
  by rewrite Hs, IH.
Qed.

(** The statuses of a download, one after the other. *)
Lemma statuses_of_waits w status0 k :
  waits w status0 k ->
  forall i, (S i < k)%nat \/ (exists final, S i = k /\ status_after w status0 k = Some final) ->
    waiting (default EmptyString (status_after w status0 i)) = true
    /\ dl_status w i = AxOk (default EmptyString (status_after w status0 (S i))).
Proof.
  intros Hw i Hi.
  assert (Hlt : (i < k)%nat) by (destruct Hi as [?|(? & ? & _)]; lia).
  destruct (Hw i Hlt) as (s & Hs & Hwait). rewrite Hs. split; [done|].
  assert (Hnext : exists s', status_after w status0 (S i) = Some s').
  { destruct Hi as [Hi|(final & <- & Hf)]; [|by eexists].
    destruct (Hw (S i) Hi) as (s' & Hs' & _). by eexists. }
  destruct Hnext as [s' Hs']. rewrite Hs'. cbn in Hs'.
  by destruct (dl_status w i) as [?|?]; simplify_eq.
Qed.

Section Downloads.
Context (w : DownloadWorld) (folderNodeId nodeId status0 : string).
Hypothesis Hcreate : dl_create w = AxOk (nodeId, status0).

(** X24: a download whose status asks for another poll [k] times and
    then does not is polled [k] times.  When the status is then [DONE]
    the content is requested, and a failure is reported with one
    "Failed to check download status, reason: " for every poll before
    it; with any other status (cancelled, too large, unknown) the
    promise is fulfilled although nothing was requested or written. *)
Theorem download_after_polls final k fuel :
  waits w status0 k ->
  status_after w status0 k = Some final ->
  waiting final = false ->
  (k <= fuel)%nat ->
  Download fuel w folderNodeId
  = Some (wrap_failure 1 "Download failed, reason: "
            (wrap_failure k "Failed to check download status, reason: "
               (fst (when_ready w nodeId final))),
          ReqCreate folderNodeId :: replicate k (ReqStatus nodeId)
            ++ snd (when_ready w nodeId final)).
Proof.
  intros Hw Hf Hnw Hfuel. unfold Download. rewrite Hcreate.
  pose (sigma := fun i => default EmptyString (status_after w status0 i)).
  assert (H0 : sigma 0%nat = status0) by reflexivity.
  assert (Hk : sigma k = final) by (unfold sigma; by rewrite Hf).
  rewrite <- H0.
  rewrite (waitUntilReady_after w nodeId sigma k fuel 0); cbn [plus]; rewrite ?Hk; try done.
  - by destruct (when_ready w nodeId final) as [[?|?] ?].
  - intros i Hi. apply (statuses_of_waits w status0 k Hw).
    destruct (Nat.eq_dec (S i) k) as [He|Hne]; [right; by exists final|left; lia].
Qed.

(** X25: when the poll after [k] answered polls fails, the download is
    rejected after [k + 1] polls, with "Download failed, reason: ",
    [k + 1] times "Failed to check download status, reason: " and the
    message of the handler. *)
Theorem download_poll_failure error k fuel :
  waits w status0 (S k) ->
  dl_status w k = AxFail error ->
  (k < fuel)%nat ->
  Download fuel w folderNodeId
  = Some (Failed ("Download failed, reason: "
                  ++ wrapped (S k) "Failed to check download status, reason: "
                       (alfrescoApiErrorHandler error)),
          ReqCreate folderNodeId :: replicate (S k) (ReqStatus nodeId)).
Proof.
  intros Hw Hfail Hfuel. unfold Download. rewrite Hcreate.
  pose (sigma := fun i => default EmptyString (status_after w status0 i)).
  assert (H0 : sigma 0%nat = status0) by reflexivity.
  rewrite <- H0.
  rewrite (waitUntilReady_fails w nodeId sigma error k fuel 0); cbn [plus]; try done.
  - intros i Hi. apply (statuses_of_waits w status0 (S k) Hw). left. lia.
  - destruct (Hw k ltac:(lia)) as (s & Hs & Hwait). unfold sigma. by rewrite Hs.
Qed.

(** X26: a download whose status never stops asking for another poll is
    polled without end: no number of polls settles it. *)
Theorem download_polls_forever :
  (forall k, waits w status0 k) ->
  forall fuel, Download fuel w folderNodeId = None.
Proof.
  intros Hw fuel. unfold Download. rewrite Hcreate.
  pose (sigma := fun i => default EmptyString (status_after w status0 i)).
  assert (H0 : sigma 0%nat = status0) by reflexivity.
  rewrite <- H0. rewrite (waitUntilReady_forever w nodeId sigma); [done|].
  intros i. apply (statuses_of_waits w status0 (S (S i)) (Hw _)). left. lia.
Qed.

End Downloads.

(** ** Invariants along a computation *)

Section Hoare.
Context {A : Type}.
Implicit Types (P Q : State -> Prop).

Lemma hoare_ret P (a : A) : hoare P (ret a) P.
Proof. by intros h st H. Qed.

Lemma hoare_throw P t : hoare P (@throw A t) P.
Proof. by intros h st H. Qed.

Lemma hoare_crash P Q msg : hoare P (@crash A msg) Q.
Proof. by intros h st H. Qed.

Lemma hoare_bind {B} P Q (m : M B) (k : B -> M A) :
  hoare P m Q -> (forall b, hoare Q (k b) Q) -> hoare P (bind m k) Q.
Proof.
  intros Hm Hk h st H. specialize (Hm h st H). unfold bind.
  destruct (m h st) as [[[b|t|msg] st1] e1]; [|done|done].
  specialize (Hk b (h ++ e1) st1 Hm).
  by destruct (k b (h ++ e1) st1) as [[[a|t|msg] st2] e2].
Qed.

Lemma hoare_catch P Q (m : M A) (handler : thrown -> M A) :
  hoare P m Q -> (forall t, hoare Q (handler t) Q) -> hoare P (catch m handler) Q.
Proof.
  intros Hm Hk h st H. specialize (Hm h st H). unfold catch.
  destruct (m h st) as [[[b|t|msg] st1] e1]; [done| |done].
  specialize (Hk t (h ++ e1) st1 Hm).
  by destruct (handler t (h ++ e1) st1) as [[[a|t'|msg] st2] e2].
Qed.

Lemma hoare_finally P Q R (m : M A) (f : M unit) :
  hoare P m Q -> hoare Q f R -> hoare P (finally m f) R.
Proof.
  intros Hm Hf h st H. specialize (Hm h st H). unfold finally.
  destruct (m h st) as [[[b|t|msg] st1] e1]; [| |done].
  - specialize (Hf (h ++ e1) st1 Hm).
    by destruct (f (h ++ e1) st1) as [[[a|t'|msg] st2] e2].
  - specialize (Hf (h ++ e1) st1 Hm).
    by destruct (f (h ++ e1) st1) as [[[a|t'|msg] st2] e2].
Qed.

Lemma hoare_weaken P P' Q Q' (m : M A) :
  (forall st, P' st -> P st) -> (forall st, Q st -> Q' st) -> hoare P m Q -> hoare P' m Q'.
Proof.
  intros HP HQ Hm h st H. specialize (Hm h st (HP st H)).
  destruct (m h st) as [[[b|t|msg] st1] e1]; auto.
Qed.

End Hoare.

Section Keeps.
Context (cfg : Config) (env : Env) (self : nat) (Inv : State -> Prop).
Hypothesis HI : stable self Inv.

Lemma keeps_get_state : keeps Inv get_state.
Proof. by intros h st H. Qed.

Lemma keeps_Logger_error msg : keeps Inv (Logger_error msg).
Proof. intros h st H. by apply (stable_log _ _ HI). Qed.

Lemma keeps_deref a : keeps Inv (deref a).
Proof. intros h st H. unfold deref. by destruct (heap st !! a). Qed.

Lemma keeps_update_self f :
  (forall s, same_identity (f s) s) -> keeps Inv (update_self self f).
Proof.
  intros Hf h st H. unfold update_self, bind, deref.
  destruct (heap st !! self) as [s|] eqn:Hs; [|done]. cbn.
  by apply (stable_self _ _ HI _ s).
Qed.

Lemma keeps_claimTask stage ref : keeps Inv (claimTask env stage ref).
Proof. intros h st H. unfold claimTask. by destruct (env_claim env h stage ref). Qed.

Lemma keeps_taskUpdate stage ref status label out err :
  keeps Inv (taskUpdate env stage ref status label out err).
Proof. intros h st H. unfold taskUpdate. by destruct (env_update env h stage ref status label out err). Qed.

Lemma keeps_getFolder ref where_ notFound : keeps Inv (getFolder env ref where_ notFound).
Proof.
  intros h st H. unfold getFolder. by destruct (env_children env h ref where_) as [[|? ?]|].
Qed.

Lemma keeps_download a folder filename : keeps Inv (download env a folder filename).
Proof.
  intros h st H. unfold download.
  destruct (env_download env h (disk st) folder filename) as [[[]|msg] d];
    by apply (stable_disk _ _ HI).
Qed.

Lemma keeps_mkdirSync p : keeps Inv (mkdirSync p).
Proof.
  intros h st H. unfold mkdirSync. destruct (existsb _ _); [done|].
  by apply (stable_disk _ _ HI).
Qed.

Lemma keeps_statSync p : keeps Inv (statSync p).
Proof. intros h st H. unfold statSync. by destruct (disk st !! p). Qed.

Lemma keeps_unlinkSync p : keeps Inv (unlinkSync p).
Proof.
  intros h st H. unfold unlinkSync. destruct (disk st !! p) as [[|]|]; try done.
  by apply (stable_disk _ _ HI).
Qed.

Lemma keeps_pipe_to_file p content : keeps Inv (pipe_to_file p content).
Proof.
  intros h st H. unfold pipe_to_file. destruct (writable _ _); [|done].
  by apply (stable_disk _ _ HI).
Qed.

Lemma keeps_unzip archive : keeps Inv (unzip env archive).
Proof. intros h st H. unfold unzip. by destruct (is_file _ _). Qed.

Lemma keeps_spawn_child prgname script argv cwd :
  keeps Inv (spawn_child env self prgname script argv cwd).
Proof.
  intros h st H. unfold spawn_child.
  assert (H' : Inv (set_disk (env_spawn env h (disk st) prgname script argv cwd).2
                    match heap st !! self with
                    | Some s => set_heap (<[self := set_child
                          (Some (mkChild (env_spawn env h (disk st) prgname script argv cwd).1.1)) s]>
                          (heap st)) st
                    | None => st
                    end)).
  { apply (stable_disk _ _ HI). destruct (heap st !! self) as [s|] eqn:Hs; [|done].
    by apply (stable_self _ _ HI _ s). }
  cbv zeta. by destruct (child_settlement _).
Qed.

Lemma keeps_kill_group s : keeps Inv (kill_group env s).
Proof.
  intros h st H. unfold kill_group. destruct (child s) as [[[p|]]|]; try done.
  cbn. by destruct (env_kill env h (- p)%Z).
Qed.

Lemma keeps_createDocument a b c d : keeps Inv (createDocument env a b c d).
Proof.
  intros h st H. unfold createDocument. by destruct (env_createDocument env h _ _ _ _).
Qed.

Lemma keeps_put_chunk a b c : keeps Inv (put_chunk env a b c).
Proof. intros h st H. unfold put_chunk. by destruct (env_put env h a b c). Qed.

End Keeps.

(** One step of the proof that a computation keeps an invariant. *)
Ltac keeps_more := fail.

Ltac keeps_prim :=
  lazymatch goal with
  | |- hoare _ (bind _ _) _ => apply hoare_bind; [|intros ?]
  | |- hoare _ (catch _ _) _ => apply hoare_catch; [|intros ?]
  | |- hoare _ (handled_again _) _ => unfold handled_again
  | |- hoare _ (ret _) _ => apply hoare_ret
  | |- hoare _ (throw _) _ => apply hoare_throw
  | |- hoare _ (TypeError _) _ => apply hoare_throw
  | |- hoare _ (ConfigurationError _) _ => apply hoare_throw
  | |- hoare _ get_state _ => apply keeps_get_state
  | |- hoare _ (Logger_error _) _ => eapply keeps_Logger_error; eassumption
  | |- hoare _ (deref _) _ => apply keeps_deref
  | |- hoare _ (update_self _ _) _ =>
      eapply keeps_update_self; [eassumption|by intros []]
  | |- hoare _ (claimTask _ _ _) _ => apply keeps_claimTask
  | |- hoare _ (taskUpdate _ _ _ _ _ _ _) _ => apply keeps_taskUpdate
  | |- hoare _ (getFolder _ _ _ _) _ => apply keeps_getFolder
  | |- hoare _ (download _ _ _ _) _ => eapply keeps_download; eassumption
  | |- hoare _ (mkdirSync _) _ => eapply keeps_mkdirSync; eassumption
  | |- hoare _ (statSync _) _ => apply keeps_statSync
  | |- hoare _ (unlinkSync _) _ => eapply keeps_unlinkSync; eassumption
  | |- hoare _ (pipe_to_file _ _) _ => eapply keeps_pipe_to_file; eassumption
  | |- hoare _ (unzip _ _) _ => apply keeps_unzip
  | |- hoare _ (spawn_child _ _ _ _ _ _) _ => eapply keeps_spawn_child; eassumption
  | |- hoare _ (kill_group _ _) _ => apply keeps_kill_group
  | |- hoare _ (createDocument _ _ _ _ _) _ => apply keeps_createDocument
  | |- hoare _ (put_chunk _ _ _ _) _ => apply keeps_put_chunk
  | |- hoare _ (if ?c then _ else _) _ => destruct c
  | |- hoare _ (match ?x with _ => _ end) _ => destruct x
  | |- hoare _ (let (_, _) := ?x in _) _ => destruct x
  end.

Ltac keeps_step := first [keeps_prim | keeps_more].

Ltac keeps_auto := unfold keeps; repeat keeps_step.

Section KeepsEngine.
Context (cfg : Config) (env : Env) (self : nat) (Inv : State -> Prop).
Hypothesis HI : stable self Inv.

Lemma keeps_validate a v : keeps Inv (validate a v).
Proof. unfold validate, mkdir_val, stat_val. keeps_auto. Qed.

Lemma keeps_forEach_args sd studyDir args : forall acc, keeps Inv (forEach_args sd studyDir acc args).
Proof.
  induction args as [|a args IH]; intros acc; cbn [forEach_args]; [apply hoare_ret|].
  apply hoare_bind; [|intros ?; apply IH].
  unfold push_arg. destruct (val a); [|apply hoare_ret].
  apply hoare_bind; [apply keeps_validate|intros ?; apply hoare_ret].
Qed.

End KeepsEngine.

Ltac keeps_more ::=
  lazymatch goal with
  | |- hoare _ (validate _ _) _ => eapply keeps_validate; eassumption
  | |- hoare _ (forEach_args _ _ _ _) _ => eapply keeps_forEach_args; eassumption
  end.

Section KeepsEngine2.
Context (cfg : Config) (env : Env) (self : nat) (Inv : State -> Prop).
Hypothesis HI : stable self Inv.

Lemma keeps_execute prgname args workDir : keeps Inv (execute cfg env self prgname args workDir).
Proof. unfold execute. keeps_auto. Qed.

Lemma keeps_on_entries es : keeps Inv (on_entries self es).
Proof.
  induction es as [|e es IH]; cbn [on_entries]; [apply hoare_ret|].
  apply hoare_bind; [|intros ?; apply IH]. unfold on_entry. keeps_auto.
Qed.

Lemma keeps_uploadChunk file numChunks uploadId :
  forall fuel pos counter, keeps Inv (uploadChunk env fuel file numChunks uploadId pos counter).
Proof.
  induction fuel as [|fuel IH]; intros pos counter; cbn [uploadChunk]; [apply hoare_throw|].
  apply hoare_bind; [apply keeps_put_chunk|intros ?].
  destruct (numChunks <=? counter)%N; [apply hoare_ret|apply IH].
Qed.

End KeepsEngine2.

Ltac keeps_more ::=
  lazymatch goal with
  | |- hoare _ (validate _ _) _ => eapply keeps_validate; eassumption
  | |- hoare _ (forEach_args _ _ _ _) _ => eapply keeps_forEach_args; eassumption
  | |- hoare _ (execute _ _ _ _ _ _) _ => eapply keeps_execute; eassumption
  | |- hoare _ (on_entries _ _) _ => eapply keeps_on_entries; eassumption
  | |- hoare _ (uploadChunk _ _ _ _ _ _ _) _ => eapply keeps_uploadChunk; eassumption
  | |- hoare _ (cleanup _ _ _) _ => unfold cleanup
  | |- hoare _ (setup _) _ => unfold setup
  | |- hoare _ (extract _ _ _) _ => unfold extract
  | |- hoare _ (compress _ _ _ _ _) _ => unfold compress
  | |- hoare _ (uncompress _ _ _ _) _ => unfold uncompress
  | |- hoare _ (upload _ _ _ _ _ _) _ => unfold upload
  | |- hoare _ (keep_result _ _) _ => unfold keep_result
  | |- hoare _ (update_meshing _ _) _ => unfold update_meshing
  | |- hoare _ (update_result _ _) _ => unfold update_result
  | |- hoare _ (update_sim _ _) _ => unfold update_sim
  | |- hoare _ (updateMeshingTask _ _ _ _ _) _ => unfold updateMeshingTask
  | |- hoare _ (updateSimulationTask _ _ _) _ => unfold updateSimulationTask
  | |- hoare _ (updatePostprocTask _ _ _) _ => unfold updatePostprocTask
  | |- hoare _ (claimMeshingTask _ _) _ => unfold claimMeshingTask
  | |- hoare _ (claimSimulationTask _ _) _ => unfold claimSimulationTask
  | |- hoare _ (claimPostprocTask _ _) _ => unfold claimPostprocTask
  | |- hoare _ (meshingTaskUpdate _ _ _ _ _ _) _ => unfold meshingTaskUpdate
  | |- hoare _ (simulationTaskUpdate _ _ _ _ _ _) _ => unfold simulationTaskUpdate
  | |- hoare _ (postprocTaskUpdate _ _ _ _ _ _) _ => unfold postprocTaskUpdate
  | |- hoare _ (getInputFolder _ _) _ => unfold getInputFolder
  | |- hoare _ (getPostprocInputFolder _ _) _ => unfold getPostprocInputFolder
  | |- hoare _ (StudyCache_register _) _ => eassumption
  end.

Section KeepsPipelines.
Context (cfg : Config) (env : Env) (self : nat) (Inv : State -> Prop).
Hypothesis HI : stable self Inv.
Hypothesis Hreg : keeps Inv (StudyCache_register self).

Lemma keeps_meshing_body :
  keeps Inv (catch (meshing_steps cfg env self) (meshing_failure self)).
Proof. unfold meshing_steps, meshing_failure. keeps_auto. Qed.

Lemma keeps_simulation_body simNodeRef :
  keeps Inv (catch (simulation_steps cfg env self simNodeRef) (simulation_failure self)).
Proof. unfold simulation_steps, simulation_failure. keeps_auto. Qed.

Lemma keeps_postproc_body :
  keeps Inv (catch (postproc_steps cfg env self) (postproc_failure self)).
Proof. unfold postproc_steps, postproc_failure. keeps_auto. Qed.

End KeepsPipelines.

Lemma stable_registry_but self ref m0 : stable self (registry_but self ref m0).
Proof.
  split.
  - by intros st d H.
  - by intros st msg H.
  - intros st s s' Hs [Hid _] [(s0 & Hs0 & Href) Hm]. split; [|done].
    exists s'. cbn. rewrite lookup_insert_eq. split; [done|]. congruence.
Qed.

Lemma stable_registry_is self ref m0 : stable self (registry_is self ref m0).
Proof.
  split.
  - by intros st d H.
  - by intros st msg H.
  - intros st s s' Hs [Hid _] [(s0 & Hs0 & Href) Hm]. split; [|done].
    exists s'. cbn. rewrite lookup_insert_eq. split; [done|]. congruence.
Qed.

Lemma stable_heap_but self s hp : stable self (heap_but self s hp).
Proof.
  split.
  - by intros st d H.
  - by intros st msg H.
  - intros st s1 s' Hs (H1 & H2 & H3) [(s0 & Hs0 & Hid) Hm].
    assert (s0 = s1) as -> by congruence. destruct Hid as (Ha & Hb & Hc).
    split.
    + exists s'. cbn. rewrite lookup_insert_eq. split; [done|].
      repeat split; congruence.
    + cbn. by rewrite delete_insert_eq.
Qed.

Lemma register_keeps_registry_but self ref m0 :
  keeps (registry_but self ref m0) (StudyCache_register self).
Proof.
  intros h st [(s & Hs & Href) Hm]. unfold StudyCache_register, bind, deref. rewrite Hs. cbn.
  split; [by exists s|]. subst ref. cbn. by rewrite delete_insert_eq.
Qed.

Lemma unregister_empties_registry self ref m0 :
  hoare (registry_but self ref m0) (StudyCache_unregister self) (registry_is self ref m0).
Proof.
  intros h st [(s & Hs & Href) Hm]. unfold StudyCache_unregister, bind, deref. rewrite Hs. cbn.
  split; [by exists s|]. by subst ref.
Qed.

Lemma register_keeps_heap_but self s hp : keeps (heap_but self s hp) (StudyCache_register self).
Proof.
  intros h st H. unfold StudyCache_register, bind, deref.
  by destruct (heap st !! self).
Qed.

Lemma unregister_keeps_heap_but self s hp :
  keeps (heap_but self s hp) (StudyCache_unregister self).
Proof.
  intros h st H. unfold StudyCache_unregister, bind, deref.
  by destruct (heap st !! self).
Qed.

Section Finalisers.
Context (cfg : Config) (env : Env) (self : nat) (ref : string) (m0 : gmap string nat).

Lemma finally_empties_registry stage :
  hoare (registry_but self ref m0)
    (match stage with
     | Meshing => meshing_finally env self
     | Simulation => simulation_finally env self
     | Postproc => postproc_finally env self
     end)
    (registry_is self ref m0).
Proof.
  pose proof (stable_registry_is self ref m0) as HI.
  destruct stage; unfold meshing_finally, simulation_finally, postproc_finally;
    (apply hoare_bind; [apply unregister_empties_registry|intros ?; keeps_auto]).
Qed.

Lemma body_keeps_registry stage simNodeRef :
  keeps (registry_but self ref m0)
    (match stage with
     | Meshing => catch (meshing_steps cfg env self) (meshing_failure self)
     | Simulation => catch (simulation_steps cfg env self simNodeRef) (simulation_failure self)
     | Postproc => catch (postproc_steps cfg env self) (postproc_failure self)
     end).
Proof.
  pose proof (stable_registry_but self ref m0) as HI.
  pose proof (register_keeps_registry_but self ref m0) as Hreg.
  destruct stage;
    [by apply keeps_meshing_body|by apply keeps_simulation_body|by apply keeps_postproc_body].
Qed.

End Finalisers.

Ltac keeps_more ::=
  lazymatch goal with
  | |- hoare _ (validate _ _) _ => eapply keeps_validate; eassumption
  | |- hoare _ (forEach_args _ _ _ _) _ => eapply keeps_forEach_args; eassumption
  | |- hoare _ (execute _ _ _ _ _ _) _ => eapply keeps_execute; eassumption
  | |- hoare _ (on_entries _ _) _ => eapply keeps_on_entries; eassumption
  | |- hoare _ (uploadChunk _ _ _ _ _ _ _) _ => eapply keeps_uploadChunk; eassumption
  | |- hoare _ (cleanup _ _ _) _ => unfold cleanup
  | |- hoare _ (setup _) _ => unfold setup
  | |- hoare _ (extract _ _ _) _ => unfold extract
  | |- hoare _ (compress _ _ _ _ _) _ => unfold compress
  | |- hoare _ (uncompress _ _ _ _) _ => unfold uncompress
  | |- hoare _ (upload _ _ _ _ _ _) _ => unfold upload
  | |- hoare _ (keep_result _ _) _ => unfold keep_result
  | |- hoare _ (update_meshing _ _) _ => unfold update_meshing
  | |- hoare _ (update_result _ _) _ => unfold update_result
  | |- hoare _ (update_sim _ _) _ => unfold update_sim
  | |- hoare _ (updateMeshingTask _ _ _ _ _) _ => unfold updateMeshingTask
  | |- hoare _ (updateSimulationTask _ _ _) _ => unfold updateSimulationTask
  | |- hoare _ (updatePostprocTask _ _ _) _ => unfold updatePostprocTask
  | |- hoare _ (claimMeshingTask _ _) _ => unfold claimMeshingTask
  | |- hoare _ (claimSimulationTask _ _) _ => unfold claimSimulationTask
  | |- hoare _ (claimPostprocTask _ _) _ => unfold claimPostprocTask
  | |- hoare _ (meshingTaskUpdate _ _ _ _ _ _) _ => unfold meshingTaskUpdate
  | |- hoare _ (simulationTaskUpdate _ _ _ _ _ _) _ => unfold simulationTaskUpdate
  | |- hoare _ (postprocTaskUpdate _ _ _ _ _ _) _ => unfold postprocTaskUpdate
  | |- hoare _ (getInputFolder _ _) _ => unfold getInputFolder
  | |- hoare _ (getPostprocInputFolder _ _) _ => unfold getPostprocInputFolder
  | |- hoare _ (StudyCache_register _) _ => eassumption
  | |- hoare _ (StudyCache_unregister _) _ => eassumption
  | |- hoare _ (StudyCache_exists _) _ => unfold StudyCache_exists
  | |- hoare _ (StudyCache_get _) _ => unfold StudyCache_get
  | |- hoare ?P (finally _ _) _ => apply hoare_finally with (Q := P)
  | |- hoare _ (meshing_steps _ _ _) _ => unfold meshing_steps
  | |- hoare _ (simulation_steps _ _ _ _) _ => unfold simulation_steps
  | |- hoare _ (postproc_steps _ _ _) _ => unfold postproc_steps
  | |- hoare _ (meshing_failure _ _) _ => unfold meshing_failure
  | |- hoare _ (simulation_failure _ _) _ => unfold simulation_failure
  | |- hoare _ (postproc_failure _ _) _ => unfold postproc_failure
  | |- hoare _ (meshing_finally _ _) _ => unfold meshing_finally
  | |- hoare _ (simulation_finally _ _) _ => unfold simulation_finally
  | |- hoare _ (postproc_finally _ _) _ => unfold postproc_finally
  end.

Lemma hoare_run {A} P (m : M A) Q h st :
  hoare P m Q -> P st -> (forall msg, settled (m h st) <> Crashed msg) ->
  Q (final_state (m h st)).
Proof.
  intros Hm HP Hc. specialize (Hm h st HP). unfold settled, final_state in *.
  destruct (m h st) as [[[a|t|msg] st1] e1]; cbn in *; [done|done|].
  by destruct (Hc msg).
Qed.

Lemma StudyCache_exists_idle self s h st :
  heap st !! self = Some s -> studies st !! nodeRef s = None ->
  StudyCache_exists self h st = (Resolved false, st, []).
Proof.
  intros Hs Hr. unfold StudyCache_exists.
  rewrite (bind_pure _ _ _ _ _ _ (deref_run _ _ _ _ Hs)).
  rewrite (bind_pure get_state _ st h st st eq_refl). cbn. by rewrite Hr.
Qed.

Lemma update_self_run self s f h st :
  heap st !! self = Some s ->
  update_self self f h st = (Resolved tt, set_heap (<[self := f s]> (heap st)) st, []).
Proof.
  intros Hs. unfold update_self. by rewrite (bind_pure _ _ _ _ _ _ (deref_run _ _ _ _ Hs)).
Qed.

Lemma setup_cases self s h st :
  heap st !! self = Some s ->
  (exists d, setup self h st = (Resolved tt, set_disk d st, []))
  \/ (exists t, setup self h st = (Rejected t, st, [])).
Proof.
  intros Hs. unfold setup.
  rewrite (bind_pure _ _ _ _ _ _ (deref_run _ _ _ _ Hs)).
  rewrite (bind_pure get_state _ st h st st eq_refl).
  destruct (existsSync (disk st) (path s)).
  - left. exists (disk st). by rewrite set_disk_same.
  - unfold mkdirSync. destruct (existsb _ _); [right|left]; by eexists.
Qed.

Section Frames.
Context (cfg : Config) (env : Env).

(** X21: a pipeline that does not crash leaves the registry as it found
    it: the study it registered is unregistered whatever way the
    pipeline ends, and no other entry is touched. *)
Theorem start_restores_registry stage self simNodeRef s h st :
  heap st !! self = Some s ->
  studies st !! nodeRef s = None ->
  let r := start cfg env stage self simNodeRef h st in
  (forall msg, settled r <> Crashed msg) ->
  studies (final_state r) = studies st.
Proof.
  intros Hs Hidle. cbn zeta.
  pose proof (fun simRef => hoare_finally _ _ _ _ _
    (body_keeps_registry cfg env self (nodeRef s) (studies st) stage simRef)
    (finally_empties_registry env self (nodeRef s) (studies st) stage)) as Hrun.
  assert (Hinv : forall st1 s1, heap st1 !! self = Some s1 -> nodeRef s1 = nodeRef s ->
            studies st1 = studies st -> registry_but self (nodeRef s) (studies st) st1).
  { intros st1 s1 H1 H2 H3. split; [by exists s1|]. rewrite H3. by apply delete_id. }
  destruct stage; unfold start, startMeshing, startSimulation, postproc.
  - rewrite (bind_pure _ _ _ _ _ _ (StudyCache_exists_idle _ _ _ _ Hs Hidle)).
    intros Hc. by destruct (hoare_run _ _ _ h st (Hrun EmptyString) (Hinv st s Hs eq_refl eq_refl) Hc).
  - rewrite (bind_pure _ _ _ _ _ _ (StudyCache_exists_idle _ _ _ _ Hs Hidle)).
    rewrite (bind_pure _ _ _ _ _ _ (update_self_run _ _ _ _ _ Hs)).
    intros Hc.
    refine (proj2 (hoare_run _ _ _ h _ (Hrun simNodeRef) (Hinv _ _ _ _ _) Hc));
      [cbn; by rewrite lookup_insert_eq|done|done].
  - rewrite (bind_pure _ _ _ _ _ _ (StudyCache_exists_idle _ _ _ _ Hs Hidle)).
    destruct (setup_cases self s h st Hs) as [[d Hd]|[t Ht]].
    + rewrite (bind_pure _ _ _ _ _ _ Hd).
      assert (Hs1 : heap (set_disk d st) !! self = Some s) by done.
      rewrite (bind_pure _ _ _ _ _ _ (update_self_run _ _ _ _ _ Hs1)).
      intros Hc.
      refine (proj2 (hoare_run _ _ _ h _ (Hrun EmptyString) (Hinv _ _ _ _ _) Hc));
        [cbn; by rewrite lookup_insert_eq|done|done].
    + by rewrite (bind_rejected _ _ _ _ _ _ _ Ht).
Qed.

(** X22: a pipeline that does not crash never changes the reference,
    the node id and the path of its study, and never touches another
    object. *)
Theorem start_keeps_objects stage self simNodeRef s h st :
  heap st !! self = Some s ->
  let r := start cfg env stage self simNodeRef h st in
  (forall msg, settled r <> Crashed msg) ->
  (exists s', heap (final_state r) !! self = Some s' /\ same_identity s' s)
  /\ forall a, a <> self -> heap (final_state r) !! a = heap st !! a.
Proof.
  intros Hs. cbn zeta. intros Hc.
  pose proof (stable_heap_but self s (heap st)) as HI.
  pose proof (register_keeps_heap_but self s (heap st)) as Hreg.
  pose proof (unregister_keeps_heap_but self s (heap st)) as Hunreg.
  assert (Hk : keeps (heap_but self s (heap st)) (start cfg env stage self simNodeRef)).
  { destruct stage; unfold start, startMeshing, startSimulation, postproc; keeps_auto. }
  assert (H0 : heap_but self s (heap st) st) by (split; [by exists s|done]).
  destruct (hoare_run _ _ _ h st Hk H0 Hc) as [Hself Hrest].
  split; [done|]. intros a Ha.
  rewrite <- (lookup_delete_ne (heap (final_state _)) self a) by done.
  rewrite Hrest. by rewrite lookup_delete_ne.
Qed.

End Frames.

(** ** A claim that is not answered *)

Section Unanswered.
Context (cfg : Config) (env : Env).

(** X23: when the claim request itself fails, for a study object
    that holds no task yet, nothing is spawned; the meshing pipeline
    still sends one update FAILED that carries the message of the
    failure, and the simulation and post-processing pipelines send
    nothing more. *)
Theorem unanswered_claim stage self simNodeRef s msg h st :
  heap st !! self = Some s ->
  sim s = None -> pp s = None ->
  let r := start cfg env stage self simNodeRef h st in
  claim_reply (events r) = Some (HErr msg) ->
  match stage with
  | Meshing =>
      exists reply,
        map fst (events r)
        = [EvClaim Meshing (nodeRef s) (HErr msg);
           EvUpdate Meshing (nodeRef s) BG_TASK_STATUS_FAILED None None (Some msg) reply]
  | Simulation => map fst (events r) = [EvClaim Simulation simNodeRef (HErr msg)]
  | Postproc => map fst (events r) = [EvClaim Postproc (nodeRef s) (HErr msg)]
  end.
Proof.
  intros Hs Hsim Hpp r. subst r.
  apply (wp_run _ (fun l st' => claim_reply l = Some (HErr msg) ->
    match stage with
    | Meshing =>
        exists reply,
          map fst l
          = [EvClaim Meshing (nodeRef s) (HErr msg);
             EvUpdate Meshing (nodeRef s) BG_TASK_STATUS_FAILED None None (Some msg) reply]
    | Simulation => map fst l = [EvClaim Simulation simNodeRef (HErr msg)]
    | Postproc => map fst l = [EvClaim Postproc (nodeRef s) (HErr msg)]
    end)).
  assert (Hok : forall stg ref t st0 evs,
    claim_reply ([(EvClaim stg ref (HOk t), st0)] ++ evs) = Some (HErr msg) -> False)
    by (intros; discriminate).
  destruct stage; unfold start, startMeshing, startSimulation, postproc,
    meshing_steps, simulation_steps, postproc_steps; wp_steps;
    rewrite ?Hsim, ?Hpp in *;
    first [ wp_whatever ltac:(by intros ?%Hok)
          | done
          | by (intros ?; discriminate)
          | (intros [= ->]; cbn; by eauto) ].

Qed.

End Unanswered.

(** ** The dispatcher *)

Lemma catch_rejected {A} (m : M A) handler t h st st' evs :
  m h st = (Rejected t, st', evs) ->
  catch m handler h st
  = (let '(r, st2, e2) := handler t (h ++ evs) st' in (r, st2, evs ++ e2)).
Proof. intros H. unfold catch. by rewrite H. Qed.

Lemma catch_resolved {A} (m : M A) handler a h st st' evs :
  m h st = (Resolved a, st', evs) -> catch m handler h st = (Resolved a, st', evs).
Proof. intros H. unfold catch. by rewrite H. Qed.


Section DispatcherFacts.
Context (cfg : Config) (env : Env).

(** The run of a command on the study of its message. *)
Lemma parseMessage_runs {A} (p : nat -> M A) cmd ref simNodeRef a st1 h st :
  new_Study cfg ref h st = (Resolved a, st1, []) ->
  (forall study, dispatch cfg env (Some cmd) study simNodeRef = logged (p study)) ->
  parseMessage cfg env (JsonValue (Some cmd) (Some ref) simNodeRef) h st
  = contained (p a h st1).
Proof.
  intros Hnew Hcmd. unfold parseMessage, catch at 1.
  rewrite (bind_pure _ _ _ _ _ _ Hnew), Hcmd.
  unfold logged, catch, bind, contained.
  destruct (p a h st1) as [[[x|t|message] st'] evs]; cbn; by rewrite ?app_nil_r.
Qed.

(** X27: for each of the six commands, on a message whose study the
    constructor builds, [parseMessage] is the run of the method of the
    command on that study with its rejection contained: the requests,
    the children and the state are those of the method, a rejection
    becomes a line of the log and [parseMessage] returns; only a crash
    of the method (an [error] event nobody handles) ends it otherwise. *)
Theorem parseMessage_contains_failures stage ref simNodeRef a st1 h st :
  new_Study cfg ref h st = (Resolved a, st1, []) ->
  parseMessage cfg env (JsonValue (Some (start_command stage)) (Some ref) simNodeRef) h st
  = contained (start cfg env stage a simNodeRef h st1)
  /\ parseMessage cfg env (JsonValue (Some (abort_command stage)) (Some ref) simNodeRef) h st
    = contained (abort env stage a simNodeRef h st1).
Proof.
  intros Hnew. split.
  - apply (parseMessage_runs (fun study => start cfg env stage study simNodeRef)); [done|].
    intros study. by destruct stage.
  - apply (parseMessage_runs (fun study => abort env stage study simNodeRef)); [done|].
    intros study. by destruct stage.
Qed.

(** X28: a message that is no JSON, that is [null], that has no
    [nodeRef] or whose [nodeRef] holds no [SpacesStore/] is dropped: one
    line goes to the log, nothing is sent or spawned, and nothing else
    changes. *)
Theorem parseMessage_drops_malformed rawMsg h st :
  malformed rawMsg ->
  exists line, parseMessage cfg env rawMsg h st = (Resolved tt, add_log line st, []).
Proof.
  intros Hbad. unfold parseMessage.
  destruct rawMsg as [message| |cmd [ref|] simNodeRef]; cbn in Hbad.
  - by eexists.
  - by eexists.
  - eexists. erewrite catch_rejected.
    2: { apply bind_rejected. unfold new_Study. by rewrite (match_SpacesStore_none _ Hbad). }
    reflexivity.
  - by eexists.
Qed.

(** X29: a message whose command is none of the six of the worker (or
    that has no command) is dropped in silence once its study is built:
    no request, no child, and not even a line in the log.  The log gets
    a line only when the constructor throws. *)
Theorem parseMessage_ignores_unknown_command cmd ref simNodeRef h st :
  match cmd with Some c => known_command c = false | None => True end ->
  let made := new_Study cfg ref h st in
  parseMessage cfg env (JsonValue cmd (Some ref) simNodeRef) h st
  = match settled made with
    | Resolved _ => (Resolved tt, final_state made, [])
    | Rejected t => (Resolved tt, add_log (thrown_message t) st, [])
    | Crashed msg => (Crashed msg, st, [])
    end.
Proof.
  intros Hcmd. cbn zeta. unfold parseMessage, catch, bind, settled, final_state.
  unfold new_Study. destruct (match_SpacesStore ref) as [id|]; [|done]. cbn.
  assert (Hd : forall a, dispatch cfg env cmd a simNodeRef = ret tt).
  { intros a. unfold dispatch. destruct cmd as [c|]; [|done].
    unfold known_command, starts in Hcmd.
    repeat (apply orb_false_iff in Hcmd as [Hcmd ?]).
    by repeat match goal with H : String.eqb _ _ = false |- _ => rewrite H; clear H end. }
  by rewrite Hd.
Qed.

(** X30: a start command for a study that is under processing, which
    the registry tells by the reference and not by the object, sends
    and spawns nothing: "Study already under processing" goes to the
    log, and the registry and the disk are as before. *)
Theorem parseMessage_busy_study cmd id simNodeRef a h st :
  starts cmd = true ->
  dot_plus id = true ->
  let ref := ("workspace://SpacesStore/" ++ id)%string in
  studies st !! ref = Some a ->
  let r := parseMessage cfg env (JsonValue (Some cmd) (Some ref) simNodeRef) h st in
  settled r = Resolved tt
  /\ events r = []
  /\ studies (final_state r) = studies st
  /\ disk (final_state r) = disk st
  /\ logs (final_state r) = logs (add_log "Study already under processing" st).
Proof.
  intros Hcmd Hid ref Hreg r. subst r.
  set (st1 := set_heap (<[fresh (dom (heap st)) :=
                mkStudy ref id (Path.resolve (studiesDir cfg) id)
                  None None None None None None]> (heap st)) st).
  assert (Hnew : new_Study cfg ref h st = (Resolved (fresh (dom (heap st))), st1, [])).
  { unfold new_Study. subst ref. by rewrite (match_SpacesStore_workspace id Hid). }
  assert (Hbusy : forall A (m : M A), 
    (forall h', m h' st1 = (Rejected already_processing, st1, [])) ->
    logged m h st1 = (Resolved tt, add_log "Study already under processing" st1, [])).
  { intros A m Hm. unfold logged.
    erewrite catch_rejected; [|by apply bind_rejected]. reflexivity. }
  assert (Hs1 : heap st1 !! fresh (dom (heap st))
                = Some (mkStudy ref id (Path.resolve (studiesDir cfg) id)
                          None None None None None None))
    by (unfold st1; cbn; by rewrite lookup_insert_eq).
  assert (Hex : forall h', StudyCache_exists (fresh (dom (heap st))) h' st1
                           = (Resolved true, st1, [])).
  { intros h'. unfold StudyCache_exists.
    rewrite (bind_pure _ _ _ _ _ _ (deref_run _ _ _ _ Hs1)).
    rewrite (bind_pure get_state _ st1 h' st1 st1 eq_refl). cbn. by rewrite Hreg. }
  assert (Hrun : dispatch cfg env (Some cmd) (fresh (dom (heap st))) simNodeRef h st1
                 = (Resolved tt, add_log "Study already under processing" st1, [])).
  { unfold dispatch, starts in *.
    destruct (String.eqb cmd CMD_START_MESHING) eqn:H1.
    { apply Hbusy. intros h'. unfold startMeshing. by rewrite (bind_pure _ _ _ _ _ _ (Hex h')). }
    destruct (String.eqb_spec cmd CMD_ABORT_MESHING) as [->|_]; [done|].
    destruct (String.eqb cmd CMD_START_SIMULATION) eqn:H2.
    { apply Hbusy. intros h'. unfold startSimulation.
      by rewrite (bind_pure _ _ _ _ _ _ (Hex h')). }
    destruct (String.eqb_spec cmd CMD_ABORT_SIMULATION) as [->|_]; [done|].
    destruct (String.eqb cmd CMD_START_POSTPROC) eqn:H3; [|done].
    apply Hbusy. intros h'. unfold postproc. by rewrite (bind_pure _ _ _ _ _ _ (Hex h')). }
  unfold parseMessage.
  erewrite catch_resolved; [|by rewrite (bind_pure _ _ _ _ _ _ Hnew)].
  by repeat split.
Qed.

End DispatcherFacts.

(** ** Instances in the small world *)


Lemma execute_missing_script_witness :
  execute ex_cfg_listed (ex_env BG_TASK_STATUS_RUNNING EmptyString) 0 "simulation"
    (simulation_args ex_study) None [] ex_state
  = (Rejected (JsError ClsConfigurationError
       "wrong configuration of program simulation: script /opt/airetd/run/simulation.py not found"),
     ex_state, []).
Proof.
  apply (execute_missing_script ex_cfg_listed (ex_env BG_TASK_STATUS_RUNNING EmptyString)
           0 ex_study "simulation" "run/simulation.py" (simulation_args ex_study) None []
           ex_state);
    [reflexivity|reflexivity|discriminate|reflexivity|reflexivity|reflexivity].
Defined.


Lemma execute_at_most_one_child_witness :
  let r := execute ex_cfg (ex_env BG_TASK_STATUS_RUNNING EmptyString) 0 "probesMeanYear"
             probesMeanYear_args None [] ex_postproc_state in
  (events r = [] /\ (exists cls msg, settled r = Rejected (JsError cls msg))
   /\ files_kept (disk ex_postproc_state) (disk (final_state r))
   /\ heap (final_state r) = heap ex_postproc_state)
  \/ (exists pid o st1,
        events r = [(EvSpawn "probesMeanYear" (command_of ex_cfg "probesMeanYear").1
                       ((command_of ex_cfg "probesMeanYear").2
                        ++ argv_of (program_scriptDir ex_cfg "probesMeanYear") (path ex_study)
                             probesMeanYear_args)
                       (cwd_of ex_cfg ex_study "probesMeanYear" None) pid o, st1)]
        /\ settled r = child_settlement o
        /\ files_kept (disk ex_postproc_state) (disk st1)
        /\ heap (final_state r) !! 0 = Some (set_child (Some (mkChild pid)) ex_study)).
Proof.
  apply (execute_at_most_one_child ex_cfg (ex_env BG_TASK_STATUS_RUNNING EmptyString)
           0 ex_study "probesMeanYear" probesMeanYear_args None [] ex_postproc_state);
    reflexivity.
Defined.


Lemma interpolatePath_studyDir_witness :
  interpolatePath "/opt/airetd/bin" ex_path "{studyDir}/frequencesVent"
  = "/srv/studies/e72baac6/frequencesVent".
Proof.
  apply (interpolatePath_studyDir "/opt/airetd/bin" ex_path "/frequencesVent"); reflexivity.
Defined.


Lemma compress_removes_archive_first_witness :
  let r := compress ex_cfg (ex_env BG_TASK_STATUS_RUNNING EmptyString) 0
             STUDY_STEP_SIMULATION None [] ex_with_archive in
  match events r with
  | [] => is_file (disk (final_state r)) ex_archive = false
  | [e] => is_spawn_of "7z" e = true /\ is_file (disk (snd e)) ex_archive = false
  | _ => False
  end.
Proof.
  apply (compress_removes_archive_first ex_cfg (ex_env BG_TASK_STATUS_RUNNING EmptyString)
           0 ex_study STUDY_STEP_SIMULATION None (ex_blob 16777216) [] ex_with_archive);
    reflexivity.
Defined.


Lemma setup_creates_workspace_witness :
  let r := setup 0 [] ex_state in
  events r = []
  /\ (forall q n, disk ex_state !! q = Some n -> disk (final_state r) !! q = Some n)
  /\ files_kept (disk ex_state) (disk (final_state r))
  /\ match settled r with
     | Resolved _ =>
         existsSync (disk (final_state r)) (path ex_study) = true
         /\ setup 0 [] (final_state r) = (Resolved tt, final_state r, [])
     | Rejected _ =>
         final_state r = ex_state
         /\ existsb (is_file (disk ex_state))
              (Path.ancestors (path ex_study) ++ [path ex_study]) = true
     | Crashed _ => False
     end.
Proof. apply (setup_creates_workspace 0 ex_study [] ex_state). reflexivity. Defined.

Lemma abort_signals_process_group_witness :
  let env := ex_env BG_TASK_STATUS_RUNNING EmptyString in
  abort env Simulation 0 ex_simref [] ex_busy
  = (match env_kill env [] (- 4242)%Z with
     | Some msg => Rejected (JsError ClsError msg)
     | None => Resolved None
     end, ex_busy, [(EvKill (- 4242)%Z (env_kill env [] (- 4242)%Z), ex_busy)]).
Proof.
  apply (abort_signals_process_group (ex_env BG_TASK_STATUS_RUNNING EmptyString)
           Simulation 0 ex_study ex_simref 1 ex_running 4242%Z [] ex_busy);
    [reflexivity|reflexivity|reflexivity|split; reflexivity|reflexivity].
Defined.

Lemma abort_other_step_witness :
  abort (ex_env BG_TASK_STATUS_RUNNING EmptyString) Meshing 0 EmptyString [] ex_busy
  = (Rejected (JsError ClsError "Study is not running the meshing step"), ex_busy, []).
Proof.
  apply (abort_other_step (ex_env BG_TASK_STATUS_RUNNING EmptyString)
           Meshing 0 ex_study EmptyString 1 ex_running [] ex_busy);
    [reflexivity|reflexivity|reflexivity|discriminate].
Defined.

Lemma abort_before_first_child_witness :
  exists message,
    abort (ex_env BG_TASK_STATUS_RUNNING EmptyString) Simulation 0 ex_simref [] ex_waiting
    = (Rejected (JsError ClsError message), ex_waiting, []).
Proof.
  apply (abort_before_first_child (ex_env BG_TASK_STATUS_RUNNING EmptyString)
           Simulation 0 ex_study ex_simref 1 ex_claimed [] ex_waiting);
    [reflexivity|reflexivity|reflexivity|split; reflexivity|reflexivity].
Defined.

Lemma upload_sends_the_file_witness :
  concat (map blob_bytes
            (put_bodies (events (upload (ex_env BG_TASK_STATUS_RUNNING EmptyString)
                                   "e72baac6" "final-results.7z"
                                   (Some "/srv/studies/e72baac6/old.log") None None
                                   [] ex_state))))
  = blob_bytes (ex_blob 7).
Proof.
  apply (upload_sends_the_file (ex_env BG_TASK_STATUS_RUNNING EmptyString) "e72baac6"
           "final-results.7z" "/srv/studies/e72baac6/old.log" None None (ex_blob 7) []
           ex_state); [apply ex_env_accepting|reflexivity].
Defined.

Lemma upload_empty_file_witness :
  put_requests (events (upload (ex_env BG_TASK_STATUS_RUNNING EmptyString) "e72baac6"
                          "final-results.7z" (Some ex_archive) None None [] ex_with_empty))
  = [(0%N, true)].
Proof.
  apply (upload_empty_file (ex_env BG_TASK_STATUS_RUNNING EmptyString) "e72baac6"
           "final-results.7z" ex_archive None None (ex_blob 0) [] ex_with_empty);
    [apply ex_env_accepting|reflexivity|reflexivity].
Defined.

Lemma upload_loses_createDocument_reason_witness :
  upload ex_env_readonly "e72baac6" "final-results.7z" (Some ex_archive) None None []
    ex_with_archive
  = (Rejected (JsError ClsError "Client internal error"), ex_with_archive,
     [(EvCreateDocument "e72baac6" "final-results.7z" "cm:content"
         "cfd_simulations_data_root" (HErr "Permission denied"), ex_with_archive)]).
Proof.
  apply (upload_loses_createDocument_reason ex_env_readonly "e72baac6" "final-results.7z"
           ex_archive None None (NFile (ex_blob 16777216)) "Permission denied" []
           ex_with_archive); reflexivity.
Defined.

Lemma new_Study_workspace_ref_witness :
  let a := fresh (dom (heap ex_state)) in
  new_Study ex_cfg ex_ref [] ex_state
  = (Resolved a,
     set_heap (<[a := mkStudy ex_ref "e72baac6" ex_path None None None None None None]>
                 (heap ex_state)) ex_state, [])
  /\ heap ex_state !! a = None.
Proof. apply (new_Study_workspace_ref ex_cfg "e72baac6" [] ex_state); reflexivity. Defined.

Lemma start_restores_registry_witness :
  studies (final_state (start ex_cfg (ex_env BG_TASK_STATUS_RUNNING EmptyString) Meshing 0
                          EmptyString [] ex_state))
  = studies ex_state.
Proof.
  apply (start_restores_registry ex_cfg (ex_env BG_TASK_STATUS_RUNNING EmptyString)
           Meshing 0 EmptyString ex_study [] ex_state); [reflexivity|reflexivity|].
  intros msg. vm_compute. discriminate.
Defined.

Lemma start_keeps_objects_witness :
  let r := start ex_cfg (ex_env BG_TASK_STATUS_RUNNING EmptyString) Simulation 0 ex_simref
             [] ex_state in
  (exists s', heap (final_state r) !! 0 = Some s' /\ same_identity s' ex_study)
  /\ forall a, a <> 0 -> heap (final_state r) !! a = heap ex_state !! a.
Proof.
  apply (start_keeps_objects ex_cfg (ex_env BG_TASK_STATUS_RUNNING EmptyString)
           Simulation 0 ex_simref ex_study [] ex_state); [reflexivity|].
  intros msg. vm_compute. discriminate.
Defined.

Lemma unanswered_claim_witness :
  exists reply,
    map fst (events (start ex_cfg ex_env_unreachable Meshing 0 EmptyString [] ex_state))
    = [EvClaim Meshing ex_ref (HErr "No answer from server");
       EvUpdate Meshing ex_ref BG_TASK_STATUS_FAILED None None
         (Some "No answer from server") reply].
Proof.
  apply (unanswered_claim ex_cfg ex_env_unreachable Meshing 0 EmptyString ex_study
           "No answer from server" [] ex_state); reflexivity.
Defined.

Lemma download_after_polls_witness :
  Download 5 (ex_download "CANCELLED") "folder-1"
  = Some (Fulfilled false,
          [ReqCreate "folder-1"; ReqStatus "dl-1"; ReqStatus "dl-1"; ReqStatus "dl-1"]).
Proof.
  apply (download_after_polls (ex_download "CANCELLED") "folder-1" "dl-1" "PENDING"
           eq_refl "CANCELLED" 3 5); [|reflexivity|reflexivity|lia].
  intros i Hi. destruct i as [|[|[|i]]]; [by eexists..|lia].
Defined.

Lemma download_poll_failure_witness :
  Download 5 ex_download_failing "folder-1"
  = Some (Failed ("Download failed, reason: "
                  ++ "Failed to check download status, reason: "
                  ++ "Failed to check download status, reason: "
                  ++ "Unexected error (code: 503)"),
          [ReqCreate "folder-1"; ReqStatus "dl-1"; ReqStatus "dl-1"]).
Proof.
  apply (download_poll_failure ex_download_failing "folder-1" "dl-1" "PENDING"
           eq_refl (mkAxiosError (Some 503%Z) true true "Request failed with status code 503")
           1 5); [|reflexivity|lia].
  intros i Hi. destruct i as [|[|i]]; [by eexists..|lia].
Defined.

Lemma download_polls_forever_witness :
  Download 360 ex_download_pending "folder-1" = None.
Proof.
  apply (download_polls_forever ex_download_pending "folder-1" "dl-1" "PENDING" eq_refl).
  intros k i _. destruct i; by eexists.
Defined.

Lemma parseMessage_contains_failures_witness :
  let env := ex_env BG_TASK_STATUS_RUNNING EmptyString in
  let st1 := set_heap (<[1 := ex_study]> (heap ex_state)) ex_state in
  parseMessage ex_cfg env (JsonValue (Some CMD_START_MESHING) (Some ex_ref) EmptyString)
    [] ex_state
  = contained (start ex_cfg env Meshing 1 EmptyString [] st1)
  /\ parseMessage ex_cfg env (JsonValue (Some CMD_ABORT_MESHING) (Some ex_ref) EmptyString)
       [] ex_state
     = contained (abort env Meshing 1 EmptyString [] st1).
Proof.
  apply (parseMessage_contains_failures ex_cfg (ex_env BG_TASK_STATUS_RUNNING EmptyString)
           Meshing ex_ref EmptyString 1
           (set_heap (<[1 := ex_study]> (heap ex_state)) ex_state) [] ex_state).
  vm_compute. reflexivity.
Defined.

Lemma parseMessage_drops_malformed_witness :
  exists line,
    parseMessage ex_cfg (ex_env BG_TASK_STATUS_RUNNING EmptyString)
      (JsonValue (Some CMD_START_MESHING) (Some "e72baac6") EmptyString) [] ex_state
    = (Resolved tt, add_log line ex_state, []).
Proof.
  apply (parseMessage_drops_malformed ex_cfg (ex_env BG_TASK_STATUS_RUNNING EmptyString)
           (JsonValue (Some CMD_START_MESHING) (Some "e72baac6") EmptyString) [] ex_state).
  reflexivity.
Defined.

Lemma parseMessage_ignores_unknown_command_witness :
  let made := new_Study ex_cfg ex_ref [] ex_state in
  parseMessage ex_cfg (ex_env BG_TASK_STATUS_RUNNING EmptyString)
    (JsonValue (Some "restart-meshing") (Some ex_ref) EmptyString) [] ex_state
  = (Resolved tt, final_state made, []).
Proof.
  apply (parseMessage_ignores_unknown_command ex_cfg
           (ex_env BG_TASK_STATUS_RUNNING EmptyString) (Some "restart-meshing") ex_ref
           EmptyString [] ex_state).
  reflexivity.
Defined.

Lemma parseMessage_busy_study_witness :
  let r := parseMessage ex_cfg (ex_env BG_TASK_STATUS_RUNNING EmptyString)
             (JsonValue (Some CMD_START_SIMULATION) (Some ex_ref) ex_simref) [] ex_busy in
  settled r = Resolved tt
  /\ events r = []
  /\ studies (final_state r) = studies ex_busy
  /\ disk (final_state r) = disk ex_busy
  /\ logs (final_state r) = logs (add_log "Study already under processing" ex_busy).
Proof.
  apply (parseMessage_busy_study ex_cfg (ex_env BG_TASK_STATUS_RUNNING EmptyString)
           CMD_START_SIMULATION "e72baac6" ex_simref 1 [] ex_busy); reflexivity.
Defined.
